(** * Transposed marking: exercise location, extraction and pagination

    A shallow embedding of the exercise pipeline of the transposed-marking
    tool: [get_cell_loc], [get_exercise_from_lab], [get_exercises_from_lab],
    [write_pages_to_files] and the pagination of the student ids.

    The repository holds two generations of the same program: the command-line
    script [write_exercise_to_html.py] (module [Script] below) and the
    jupytext notebook [Example Notebook.py] (module [Notebook] below), which
    adds the early stop of the scan, the default for a missing end boundary
    and the extraction of several exercises. *)

From Stdlib Require Import ZArith String Ascii List DecimalString Lia Bool.
From Stdlib Require QArith.
Import ListNotations.

Local Open Scope string_scope.
Local Open Scope list_scope.
Local Open Scope Z_scope.

Infix "^^" := String.append (at level 60, right associativity).

(** ** Python values and built-ins used by the program *)

Module Py.

(** Characters that a Rocq string literal cannot hold directly. *)
Definition nl : string := String (ascii_of_nat 10) EmptyString.
Definition tab : string := String (ascii_of_nat 9) EmptyString.
Definition dquote : string := String (ascii_of_nat 34) EmptyString.

(** [f"{n}"] and [format] of an [int]: the decimal numeral, with a leading
    minus sign for a negative number. *)
Definition str (n : Z) : string := NilZero.string_of_int (Z.to_int n).

(** [repr] of a list of ints, as [f"{l}"] prints it: [[3, 4]]. *)
Definition repr_list (l : list Z) : string :=
  "[" ^^ String.concat ", " (map str l) ^^ "]".

(** [len] of a list. *)
Definition len {A : Type} (l : list A) : Z := Z.of_nat (length l).

(** How a slice bound is read against a sequence of length [L]: a negative
    bound counts from the end, and every bound is clamped to [0..L]. *)
Definition clamp (L x : Z) : Z :=
  if x <? 0 then Z.max (x + L) 0 else Z.min x L.

(** [l[lo:hi]]. *)
Definition slice {A : Type} (l : list A) (lo hi : Z) : list A :=
  let L := len l in
  let s := clamp L lo in
  let e := clamp L hi in
  firstn (Z.to_nat (e - s)) (skipn (Z.to_nat s) l).

(** [range(n)]. *)
Definition range (n : Z) : list Z := map Z.of_nat (seq 0 (Z.to_nat n)).

(** [sum(ls, [])]: the lists are added from the left, starting from []. *)
Definition sum_lists {A : Type} (ls : list (list A)) : list A :=
  fold_left (fun acc l => acc ++ l) ls [].

(** [''.join(l)]. *)
Definition join (l : list string) : string := String.concat EmptyString l.

(** A dict, in insertion order; keys are unique. *)
Definition dict (K V : Type) : Type := list (K * V).

Fixpoint dict_get {V : Type} (d : dict string V) (k : string) : option V :=
  match d with
  | [] => None
  | (k', v) :: d' => if String.eqb k k' then Some v else dict_get d' k
  end.

(** [k in d]. *)
Definition dict_mem {V : Type} (d : dict string V) (k : string) : bool :=
  match dict_get d k with Some _ => true | None => false end.

(** [enumerate(l)], from index [i]. *)
Fixpoint enumerate_from {A : Type} (i : Z) (l : list A) : list (Z * A) :=
  match l with
  | [] => []
  | x :: l' => (i, x) :: enumerate_from (i + 1) l'
  end.

Definition enumerate {A : Type} (l : list A) : list (Z * A) := enumerate_from 0 l.

(** [list(d.values())]. *)
Definition dict_values {K V : Type} (d : dict K V) : list V := map snd d.

End Py.

(** ** Regular expressions, as [re.search] uses them

    A pattern is embedded as a backtracking matcher in continuation style:
    [r k s] holds when a prefix of [s] matches [r] and the continuation [k]
    accepts what is left.  Only the constructs of the heading pattern are
    needed: a literal, a starred or plussed character class, and sequence. *)

Module Regex.

Definition cont : Type := string -> bool.
Definition regex : Type := cont -> cont.

(** A literal string. *)
Fixpoint lit (w : string) : regex :=
  fun k s =>
    match w with
    | EmptyString => k s
    | String c w' =>
        match s with
        | String d s' => Ascii.eqb c d && lit w' k s'
        | EmptyString => false
        end
    end.

(** [p*] for a character class [p]. *)
Definition star (p : ascii -> bool) : regex :=
  fun k =>
    fix go (s : string) : bool :=
      k s || match s with
             | String d s' => p d && go s'
             | EmptyString => false
             end.

(** [p+]. *)
Definition plus (p : ascii -> bool) : regex :=
  fun k s =>
    match s with
    | String d s' => p d && star p k s'
    | EmptyString => false
    end.

(** [r1 r2]. *)
Definition seq (r1 r2 : regex) : regex := fun k => r1 (r2 k).

(** The class of one character, and the class of [.]: anything but a
    newline (no DOTALL flag is given). *)
Definition chr (c : ascii) : ascii -> bool := Ascii.eqb c.
Definition dot : ascii -> bool := fun d => negb (Ascii.eqb d (ascii_of_nat 10)).

Definition accept : cont := fun _ => true.

(** [re.search(r, s)], as a truth value: a match may start anywhere. *)
Fixpoint search (r : regex) (s : string) : bool :=
  r accept s || match s with
                | String _ s' => search r s'
                | EmptyString => false
                end.

End Regex.

(** ** Data model *)

(** The [source] of a cell: one string, or a list of strings. *)
Inductive cell_source : Type :=
| SourceStr (s : string)
| SourceList (l : list string).

(** A notebook cell; [cell_rest] stands for the fields the program never
    reads (outputs, metadata, execution count). *)
Record cell : Type := mkCell {
  cell_type : string;
  source : cell_source;
  cell_rest : string
}.

(** A notebook node: the cells and the document-level fields. *)
Record notebook : Type := mkNotebook {
  cells : list cell;
  metadata : string;
  nbformat : Z;
  nbformat_minor : Z
}.

(** [lab_fmt["cells"] = cs]. *)
Definition set_cells (nb : notebook) (cs : list cell) : notebook :=
  {| cells := cs;
     metadata := metadata nb;
     nbformat := nbformat nb;
     nbformat_minor := nbformat_minor nb |}.

(** ** Effects

    The program prints, displays and writes files, and a call may raise.  A
    computation is embedded as the trace of its effects, in order, and how it
    completes. *)

Inductive exception : Type :=
| TypeError (msg : string)
| IndexError (msg : string)
| ZeroDivisionError (msg : string)
| ExternalError (msg : string).

Inductive completion (A : Type) : Type :=
| Return (v : A)
| Raise (e : exception).
Arguments Return {A} v.
Arguments Raise {A} e.

Inductive event : Type :=
| Print (line : string)
| Display (html : string)
| FileOpen (path mode : string)
| FileWrite (path text : string)
| FileClose (path : string).

Definition M (A : Type) : Type := (list event * completion A)%type.

Definition ret {A : Type} (v : A) : M A := ([], Return v).

Definition raise {A : Type} (e : exception) : M A := ([], Raise e).

Definition bind {A B : Type} (m : M A) (f : A -> M B) : M B :=
  match m with
  | (t, Return v) => let '(t', r) := f v in (t ++ t', r)
  | (t, Raise e) => (t, Raise e)
  end.

Definition emit (e : event) : M unit := ([e], Return tt).

Definition print (line : string) : M unit := emit (Print line).

(** A call into a library that has no effect of its own but may raise. *)
Definition lift {A : Type} (c : completion A) : M A := ([], c).

Notation "x <- m ;; k" := (bind m (fun x => k))
  (at level 61, m at next level, right associativity).
Notation "' pat <- m ;; k" := (bind m (fun x => match x with pat => k end))
  (at level 61, pat pattern, m at next level, right associativity).
Notation "m ;; k" := (bind m (fun _ => k))
  (at level 61, right associativity).

(** [for x in l: body x], stopping at the first exception. *)
Fixpoint for_each {A : Type} (l : list A) (body : A -> M unit) : M unit :=
  match l with
  | [] => ret tt
  | x :: l' => body x ;; for_each l' body
  end.

(** [[f x for x in l]] with a body that has effects. *)
Fixpoint map_M {A B : Type} (f : A -> M B) (l : list A) : M (list B) :=
  match l with
  | [] => ret []
  | x :: l' => y <- f x ;; ys <- map_M f l' ;; ret (y :: ys)
  end.

(** ** The boundary locator *)

(** The text of a cell: a list of fragments is joined, a string is taken as
    it is. *)
Definition cell_text (c : cell) : string :=
  match source c with
  | SourceList l => Py.join l
  | SourceStr s => s
  end.

(** The heading pattern: the regular expression is the raw string
    [\#+.*Exercise ] followed by the decimal numeral of the exercise. *)
Definition pattern (ex_num : Z) : Regex.regex :=
  Regex.seq (Regex.plus (Regex.chr "#"))
    (Regex.seq (Regex.star Regex.dot)
       (Regex.lit ("Exercise " ^^ Py.str ex_num))).

(** The body of the scanning loop for the cell at index [i]; it is the same
    text in both files.  The test for the next exercise is an [elif] of the
    test for this one, and each assignment overwrites what was recorded. *)
Definition scan_cell (exercise_number i : Z) (c : cell) (ab : Z * Z) : Z * Z :=
  let '(a, b) := ab in
  if String.eqb (cell_type c) "markdown" then
    let cell_source := cell_text c in
    if Nat.eqb (String.length cell_source) 0 then (a, b)
    else if Regex.search (pattern exercise_number) cell_source then (i, b)
    else if Regex.search (pattern (exercise_number + 1)) cell_source then (a, i)
    else (a, b)
  else (a, b).

Arguments scan_cell : simpl never.

(** ** Rendering and page assembly: what both files share *)

(** The resource bundle of the exporter; the program reads only
    [resources["inlining"]["css"]]. *)
Record resources : Type := mkResources { inlining_css : list string }.

(** The rendering function chosen by [write_pages_to_files], already applied
    to the exercise selection and to [do_display=False]. *)
Definition lab_parser : Type := string -> M (option (string * resources)).

(** [r[0]] on what a rendering function returned. *)
Definition subscript0 (r : option (string * resources)) : M string :=
  match r with
  | Some (body, _) => ret body
  | None => raise (TypeError "'NoneType' object is not subscriptable")
  end.

(** [_, resources = r]. *)
Definition unpack_pair (r : option (string * resources)) : M (string * resources) :=
  match r with
  | Some p => ret p
  | None => raise (TypeError "cannot unpack non-iterable NoneType object")
  end.

(** The heading written before a student's answer. *)
Definition gid_heading (gid : string) : string :=
  Py.nl ^^ Py.nl ^^ "<h1>" ^^ gid ^^ "</h1>" ^^ Py.nl ^^ Py.nl.

(** The warning printed for an id with no lab file. *)
Definition gid_warning (gid : string) : string :=
  "gid " ^^ gid ^^ " not found in lab_files.keys().".

(** The body of [for gid in gid_page], the same text in both files: the
    handle [fp] is the page file opened for appending. *)
Definition write_gid (lab_files : Py.dict string string) (parser : lab_parser)
    (fp : string) (gid : string) : M unit :=
  match Py.dict_get lab_files gid with
  | None => print (gid_warning gid)
  | Some lab =>
      emit (FileWrite fp (gid_heading gid)) ;;
      r <- parser lab ;;
      body <- subscript0 r ;;
      emit (FileWrite fp body)
  end.

(** The text written at the top of every page. *)
Definition page_head : string :=
  "<head>" ^^ Py.nl
  ^^ Py.tab ^^ "<link rel=" ^^ Py.dquote ^^ "stylesheet" ^^ Py.dquote
  ^^ " href=" ^^ Py.dquote ^^ "style0.css" ^^ Py.dquote ^^ ">" ^^ Py.nl
  ^^ Py.tab ^^ "<link rel=" ^^ Py.dquote ^^ "stylesheet" ^^ Py.dquote
  ^^ " href=" ^^ Py.dquote ^^ "style1.css" ^^ Py.dquote ^^ ">"
  ^^ Py.nl ^^ "</head>" ^^ Py.nl
  ^^ Py.nl ^^ "<body>" ^^ Py.nl ^^ Py.nl.

(** [fname_html.format(page_number=page_number)]; the course and lab numbers
    hold no braces. *)
Definition page_file_name (fname_html : string) (page_number : Z) : string :=
  fname_html ^^ "_page" ^^ Py.str page_number ^^ ".html".

(** [parser(list(lab_files.values())[0], exercise_num, do_display=False)]. *)
Definition first_value (lab_files : Py.dict string string) (parser : lab_parser)
    : M (option (string * resources)) :=
  match Py.dict_values lab_files with
  | lab :: _ => parser lab
  | [] => raise (IndexError "list index out of range")
  end.

Module Script.

(** The loop of [write_exercise_to_html.py]: every cell is scanned. *)
Fixpoint scan (exercise_number i : Z) (cs : list cell) (ab : Z * Z) : Z * Z :=
  match cs with
  | [] => ab
  | c :: rest => scan exercise_number (i + 1) rest (scan_cell exercise_number i c ab)
  end.

Definition get_cell_loc (nb : notebook) (exercise_number : Z) : M (Z * Z) :=
  let '(a, b) := scan exercise_number 0 (cells nb) (-1, -1) in
  (if a =? -1 then print "Error: get_cell_loc: a not found."
   else if b =? -1 then print "Error: get_cell_loc: b not found."
   else if a >=? b then
     print ("Error: get_cell_loc: something went wrong: a = " ^^ Py.str a
            ^^ ", b = " ^^ Py.str b)
   else ret tt) ;;
  ret (a, b).

(** The two statements of [get_exercise_from_lab] that cut the located
    range out of the parsed notebook. *)
Definition select_exercise (lab_fmt : notebook) (exercise_num : Z) : M notebook :=
  ' (a, b) <- get_cell_loc lab_fmt exercise_num ;;
  ret (set_cells lab_fmt (Py.slice (cells lab_fmt) a b)).

Section Render.

Variable nbformat_reads : string -> completion notebook.
Variable from_notebook_node : notebook -> completion (string * resources).

Definition get_exercise_from_lab (lab : string) (exercise_num : Z)
    (do_display : bool) : M (option (string * resources)) :=
  lab_fmt <- lift (nbformat_reads lab) ;;
  lab_fmt <- select_exercise lab_fmt exercise_num ;;
  ' (body, resources) <- lift (from_notebook_node lab_fmt) ;;
  if do_display then emit (Display body) ;; ret None
  else ret (Some (body, resources)).

(** [exercise_num] arrives as an int from the argument parser, so the
    coercion [int(exercise_num)] leaves it as it is.  The file names are
    printed after a raw string, a backslash and the letter t, where the
    notebook prints a tab. *)
Definition write_pages_to_files (lab_files : Py.dict string string)
    (gid_pages : Py.dict Z (list string)) (exercise_num : Z)
    (lab_num course_num : string) (save_dir : option string) : M unit :=
  let save_dir := match save_dir with None => "./" | Some d => d end in
  let parser := fun lab => get_exercise_from_lab lab exercise_num false in
  let fname_html :=
    "DSCI" ^^ course_num ^^ "_lab" ^^ lab_num ^^ "_exercise" ^^ Py.str exercise_num in
  print ("Writing to " ^^ save_dir ^^ ":") ;;
  for_each gid_pages (fun '(page_number, gid_page) =>
    let fname_page := page_file_name fname_html page_number in
    let fp := save_dir ^^ fname_page in
    emit (FileOpen fp "a") ;;
    emit (FileWrite fp page_head) ;;
    for_each gid_page (write_gid lab_files parser fp) ;;
    emit (FileWrite fp "</body>") ;;
    emit (FileClose fp) ;;
    print ("\t" ^^ fname_page)) ;;
  r <- first_value lab_files parser ;;
  ' (_, resources) <- unpack_pair r ;;
  print EmptyString ;;
  for_each (Py.enumerate (inlining_css resources)) (fun '(i, css_lines) =>
    let name := "style" ^^ Py.str i ^^ ".css" in
    emit (FileOpen (save_dir ^^ name) "w") ;;
    emit (FileWrite (save_dir ^^ name) css_lines) ;;
    emit (FileClose (save_dir ^^ name)) ;;
    print ("\t" ^^ name)).

End Render.

End Script.

Module Notebook.

(** The loop of the notebook: after each cell, the scan stops once both
    [a] and [b] are positive. *)
Fixpoint scan (exercise_number i : Z) (cs : list cell) (ab : Z * Z) : Z * Z :=
  match cs with
  | [] => ab
  | c :: rest =>
      let '(a, b) := scan_cell exercise_number i c ab in
      if (a >? 0) && (b >? 0) then (a, b)
      else scan exercise_number (i + 1) rest (a, b)
  end.

Definition get_cell_loc (nb : notebook) (exercise_number : Z) : M (Z * Z) :=
  let '(a, b) := scan exercise_number 0 (cells nb) (-1, -1) in
  if a =? -1 then
    print "Error: get_cell_loc: a not found." ;;
    ret (a, b)
  else if b =? -1 then
    print "Error: get_cell_loc: b not found." ;;
    print "   --> using b = len(notebook['cells'])" ;;
    ret (a, Py.len (cells nb))
  else if a >=? b then
    print ("Error: get_cell_loc: something went wrong: a = " ^^ Py.str a
           ^^ ", b = " ^^ Py.str b) ;;
    ret (a, b)
  else ret (a, b).

(** The two statements of [get_exercise_from_lab] that cut the located
    range out of the parsed notebook. *)
Definition select_exercise (lab_fmt : notebook) (exercise_num : Z) : M notebook :=
  ' (a, b) <- get_cell_loc lab_fmt exercise_num ;;
  ret (set_cells lab_fmt (Py.slice (cells lab_fmt) a b)).

(** The three statements of [get_exercises_from_lab] that build the merged
    cell list: every range is located in the notebook as it was parsed, and
    the slices are summed in the order of [exercise_nums]. *)
Definition select_exercises (lab_fmt : notebook) (exercise_nums : list Z)
    : M notebook :=
  ab_list <- map_M (get_cell_loc lab_fmt) exercise_nums ;;
  let cells' :=
    Py.sum_lists (map (fun '(a, b) => Py.slice (cells lab_fmt) a b) ab_list) in
  ret (set_cells lab_fmt cells').

(** The exercise selection handed to [write_pages_to_files]: an int, or a
    list of ints. *)
Inductive exercise_arg : Type :=
| ExInt (n : Z)
| ExList (l : list Z).

Section Render.

Variable nbformat_reads : string -> completion notebook.
Variable from_notebook_node : notebook -> completion (string * resources).

Definition get_exercise_from_lab (lab : string) (exercise_num : Z)
    (do_display : bool) : M (option (string * resources)) :=
  lab_fmt <- lift (nbformat_reads lab) ;;
  lab_fmt <- select_exercise lab_fmt exercise_num ;;
  ' (body, resources) <- lift (from_notebook_node lab_fmt) ;;
  if do_display then emit (Display body) ;; ret None
  else ret (Some (body, resources)).

Definition get_exercises_from_lab (lab : string) (exercise_nums : list Z)
    (do_display : bool) : M (option (string * resources)) :=
  lab_fmt <- lift (nbformat_reads lab) ;;
  lab_fmt <- select_exercises lab_fmt exercise_nums ;;
  ' (body, resources) <- lift (from_notebook_node lab_fmt) ;;
  if do_display then emit (Display body) ;; ret None
  else ret (Some (body, resources)).

(** The choice of the rendering function and of the exercise part of the
    file name.  A list of one number reaches the last branch, where
    [int] refuses a list. *)
Definition choose_parser (exercise_num : exercise_arg) : M (string * lab_parser) :=
  match exercise_num with
  | ExList l =>
      if negb (Nat.eqb (length l) 1) then
        ret (Py.join (map Py.str l),
             fun lab => get_exercises_from_lab lab l false)
      else
        print ("Attempting type coercion of exercise_num " ^^ Py.repr_list l
               ^^ " to int, even though it may be iterable") ;;
        raise (TypeError "int() argument must be a string, a bytes-like object or a number, not 'list'")
  | ExInt n =>
      ret (Py.str n, fun lab => get_exercise_from_lab lab n false)
  end.

Definition write_pages_to_files (lab_files : Py.dict string string)
    (gid_pages : Py.dict Z (list string)) (exercise_num : exercise_arg)
    (lab_num course_num : string) (save_dir : option string) : M unit :=
  let save_dir := match save_dir with None => "./" | Some d => d end in
  ' (exercise_num_str, parser) <- choose_parser exercise_num ;;
  let fname_html :=
    "DSCI" ^^ course_num ^^ "_lab" ^^ lab_num ^^ "_exercise" ^^ exercise_num_str in
  print ("Writing to " ^^ save_dir ^^ ":") ;;
  for_each gid_pages (fun '(page_number, gid_page) =>
    let fname_page := page_file_name fname_html page_number in
    let fp := save_dir ^^ fname_page in
    emit (FileOpen fp "a") ;;
    emit (FileWrite fp page_head) ;;
    for_each gid_page (write_gid lab_files parser fp) ;;
    emit (FileWrite fp "</body>") ;;
    emit (FileClose fp) ;;
    print (Py.tab ^^ fname_page)) ;;
  r <- first_value lab_files parser ;;
  ' (_, resources) <- unpack_pair r ;;
  print EmptyString ;;
  for_each (Py.enumerate (inlining_css resources)) (fun '(i, css_lines) =>
    let name := "style" ^^ Py.str i ^^ ".css" in
    emit (FileOpen (save_dir ^^ name) "w") ;;
    emit (FileWrite (save_dir ^^ name) css_lines) ;;
    emit (FileClose (save_dir ^^ name)) ;;
    print (Py.tab ^^ name)).

End Render.

End Notebook.

(** ** Pagination

    The pagination of the student ids at the top level of the program, the
    same text in both files: [num_pages = gid_list.size // spp + 1] and the
    dict comprehension of the pages.  A page size of zero fails in the
    division. *)

Definition num_pages (gid_list : list string) (spp : Z) : Z :=
  Py.len gid_list / spp + 1.

Definition gid_pages (gid_list : list string) (spp : Z)
    : completion (Py.dict Z (list string)) :=
  if spp =? 0 then Raise (ZeroDivisionError "integer division or modulo by zero")
  else
    Return (map (fun page => (page, Py.slice gid_list (spp * page) (spp * page + spp)))
              (Py.range (num_pages gid_list spp))).

(** ** The words of the specification

    The vocabulary in which the specification speaks of the locator, used to
    state the properties below and to compare the program against. *)

Module Spec.

(** A markdown cell whose text matches the heading pattern for [n]. *)
Definition is_heading (n : Z) (c : cell) : bool :=
  String.eqb (cell_type c) "markdown" && Regex.search (pattern n) (cell_text c).

(** The index of the first cell that satisfies [p], counting from [i]. *)
Fixpoint first_index_from (p : cell -> bool) (i : Z) (cs : list cell) : option Z :=
  match cs with
  | [] => None
  | c :: rest => if p c then Some i else first_index_from p (i + 1) rest
  end.

Definition first_index (p : cell -> bool) (cs : list cell) : option Z :=
  first_index_from p 0 cs.

Inductive locate_error : Type :=
| BoundaryNotFound (which : string)
| BoundaryOrderError.

(** The locator as the specification words it: first match for each
    boundary, tested independently; a missing start is an error, a missing
    end is the cell count, and a start that is not before the end is an
    error. *)
Definition locate (nb : notebook) (n : Z) : locate_error + (Z * Z) :=
  match first_index (is_heading n) (cells nb) with
  | None => inl (BoundaryNotFound "start")
  | Some a =>
      let b := match first_index (is_heading (n + 1)) (cells nb) with
               | Some b => b
               | None => Py.len (cells nb)
               end in
      if a >=? b then inl BoundaryOrderError else inr (a, b)
  end.

(** No character of [s] is a newline. *)
Fixpoint one_line (s : string) : bool :=
  match s with
  | EmptyString => true
  | String d s' => Regex.dot d && one_line s'
  end.

End Spec.

(** ** The vocabulary of the properties *)

(** Every character of [u] is in the class [p]. *)
Fixpoint all_in (p : ascii -> bool) (u : string) : bool :=
  match u with
  | EmptyString => true
  | String d u' => p d && all_in p u'
  end.

(** A cell that the loop body records as start, and one it records as end:
    the end test is reached only when the start test fails. *)
Definition starts (n : Z) (c : cell) : bool := Spec.is_heading n c.
Definition ends (n : Z) (c : cell) : bool :=
  negb (Spec.is_heading n c) && Spec.is_heading (n + 1) c.

(** What a boundary can be after a scan from index [i]: what it was, or the
    index of a cell of the kind [p]. *)
Definition recorded (p : cell -> bool) (i : Z) (cs : list cell) (x0 x : Z) : Prop :=
  x = x0 \/
  (i <= x < i + Py.len cs /\
   exists c, nth_error cs (Z.to_nat (x - i)) = Some c /\ p c = true).

(** The cells of the notebook that an extraction returned. *)
Definition extracted_cells (m : M notebook) : list cell :=
  match snd m with
  | Return nb' => cells nb'
  | Raise _ => []
  end.

(** The pair that the notebook's locator returns. *)
Definition located (nb : notebook) (n : Z) : Z * Z :=
  match snd (Notebook.get_cell_loc nb n) with
  | Return ab => ab
  | Raise _ => (-1, -1)
  end.

(** The body that a rendering returned. *)
Definition rendered_body (m : M (option (string * resources))) : string :=
  match snd m with
  | Return (Some (body, _)) => body
  | _ => EmptyString
  end.

(** What one student id adds to the trace of a page: a warning for an id with
    no lab file; for the others the heading written to the page, what the
    rendering printed, and the rendered body written to the page. *)
Definition gid_trace (lab_files : Py.dict string string) (parser : lab_parser)
    (fp : string) (gid : string) : list event :=
  match Py.dict_get lab_files gid with
  | None => [Print (gid_warning gid)]
  | Some lab =>
      [FileWrite fp (gid_heading gid)] ++ fst (parser lab)
      ++ [FileWrite fp (rendered_body (parser lab))]
  end.

(** What the full scan leaves in a boundary: what it was when no cell of the
    kind follows, or else the index of the last cell of the kind. *)
Definition last_of (p : cell -> bool) (i : Z) (cs : list cell) (x0 x : Z) : Prop :=
  (x = x0 /\ filter p cs = []) \/
  (i <= x < i + Py.len cs
   /\ (exists c, nth_error cs (Z.to_nat (x - i)) = Some c /\ p c = true)
   /\ filter p (skipn (S (Z.to_nat (x - i))) cs) = []).

Arguments starts : simpl never.
Arguments ends : simpl never.

(** ** Notebooks and collaborators of the examples *)

(** Cells and notebooks for the examples. *)
Definition md (s : string) : cell := mkCell "markdown" (SourceStr s) "{}".
Definition code (s : string) : cell := mkCell "code" (SourceStr s) "{}".
Definition nb_of (cs : list cell) : notebook := mkNotebook cs "{}" 4 2.

(** The notebook in which a second heading names the exercise again. *)
Definition repeated_heading_nb : notebook :=
  nb_of [code "import numpy as np";
         md "## Exercise 1";
         md "### Exercise 1 (continued)";
         md "## Exercise 2"].

(** The notebook in which the heading of exercise 3 comes before the heading
    of exercise 2. *)
Definition swapped_headings_nb : notebook :=
  nb_of [code "import numpy as np"; md "## Exercise 3"; md "## Exercise 2"; code "x = 1"].

(** The notebook with no heading for exercise 7. *)
Definition no_heading_nb : notebook :=
  nb_of [code "import numpy as np"; md "## Exercise 1"; code "x = 1"].

(** The six-cell notebook of the end-to-end scenario. *)
Definition six_cell_nb : notebook :=
  nb_of [code "import numpy as np"; md "## Exercise 2"; code "x = 1";
         code "print(x)"; md "## Exercise 3"; code "y = 2"].

(** A notebook whose last exercise is exercise 1, and one in which a later
    cell names exercise 1 again after the heading of exercise 2. *)
Definition tail_exercise_nb : notebook :=
  nb_of [code "import numpy as np"; md "## Exercise 1"; code "x = 1"].

Definition heading_after_end_nb : notebook :=
  nb_of [code "import numpy as np"; md "## Exercise 1"; md "## Exercise 2";
         md "### Back to Exercise 1"].

(** The collaborators of the missing-id scenario: every lab file parses to
    the six-cell notebook, and the rendering reports the number of cells. *)
Definition scenario_reads (lab : string) : completion notebook :=
  if String.eqb lab "doc1" then Return six_cell_nb
  else Raise (ExternalError "not a notebook").

Definition scenario_render (nb : notebook) : completion (string * resources) :=
  Return ("<p>" ^^ Py.str (Py.len (cells nb)) ^^ " cells</p>",
          mkResources ["body {}"; "h1 {}"]).


(** A cell that the loop body passes over: it is recorded neither as start
    nor as end for [n]. *)
Definition passed_over (n : Z) (c : cell) : bool :=
  negb (starts n c) && negb (ends n c).

(** ** The start of the notebook's run: the exercise selection

    [format_exercise_num] of [util.py], which the notebook also spells out at
    its top level: an empty list is refused, a list of one number becomes
    that number, anything else is kept.  The argument parser hands over a
    list of ints, so the two assertions on the type hold. *)

Inductive format_error : Type :=
| ValueError (msg : string).

Definition format_exercise_num (exercise_num : Notebook.exercise_arg)
    : format_error + Notebook.exercise_arg :=
  match exercise_num with
  | Notebook.ExList l =>
      if Nat.eqb (length l) 0 then inl (ValueError "exercise_num is mandatory")
      else if Nat.eqb (length l) 1 then
        match l with
        | x :: _ => inr (Notebook.ExInt x)
        | [] => inr (Notebook.ExList l)
        end
      else inr (Notebook.ExList l)
  | Notebook.ExInt n => inr (Notebook.ExInt n)
  end.

(** ** The vocabulary of the properties of a whole run *)

(** The selections that [choose_parser] accepts, the exercise part of the
    file names and the rendering function it then returns. *)
Definition accepted (exercise_num : Notebook.exercise_arg) : bool :=
  match exercise_num with
  | Notebook.ExInt _ => true
  | Notebook.ExList l => negb (Nat.eqb (length l) 1)
  end.

Definition selection_str (exercise_num : Notebook.exercise_arg) : string :=
  match exercise_num with
  | Notebook.ExInt n => Py.str n
  | Notebook.ExList l => Py.join (map Py.str l)
  end.

Definition selection_parser (nbformat_reads : string -> completion notebook)
    (from_notebook_node : notebook -> completion (string * resources))
    (exercise_num : Notebook.exercise_arg) : lab_parser :=
  match exercise_num with
  | Notebook.ExInt n =>
      fun lab => Notebook.get_exercise_from_lab nbformat_reads from_notebook_node
                   lab n false
  | Notebook.ExList l =>
      fun lab => Notebook.get_exercises_from_lab nbformat_reads from_notebook_node
                   lab l false
  end.

(** The name of the page file for a selection, and the trace of one page
    whose renderings all return: the file is opened for appending, the head
    is written, every id adds its part, the body is closed, the file is
    closed and its name is printed after a tab. *)
Definition page_name (course_num lab_num : string)
    (exercise_num : Notebook.exercise_arg) (page_number : Z) : string :=
  page_file_name
    ("DSCI" ^^ course_num ^^ "_lab" ^^ lab_num ^^ "_exercise"
     ^^ selection_str exercise_num) page_number.

Definition page_trace (lab_files : Py.dict string string) (parser : lab_parser)
    (save_dir : string) (name : Z -> string) (kp : Z * list string) : list event :=
  let fp := save_dir ^^ name (fst kp) in
  [FileOpen fp "a"; FileWrite fp page_head]
  ++ flat_map (gid_trace lab_files parser fp) (snd kp)
  ++ [FileWrite fp "</body>"; FileClose fp; Print (Py.tab ^^ name (fst kp))].

(** The trace of one style file. *)
Definition style_trace (save_dir : string) (ic : Z * string) : list event :=
  let name := "style" ^^ Py.str (fst ic) ^^ ".css" in
  [FileOpen (save_dir ^^ name) "w"; FileWrite (save_dir ^^ name) (snd ic);
   FileClose (save_dir ^^ name); Print (Py.tab ^^ name)].

(** [save_dir], with its default. *)
Definition dir_of (save_dir : option string) : string :=
  match save_dir with None => "./" | Some d => d end.

(** The style fragments of a rendering that returned. *)
Definition rendered_css (m : M (option (string * resources))) : list string :=
  match snd m with
  | Return (Some (_, res)) => inlining_css res
  | _ => []
  end.

(** One turn of the loop over the pages. *)
Definition page_body (lab_files : Py.dict string string) (parser : lab_parser)
    (save_dir fname_html : string) : Z * list string -> M unit :=
  fun '(page_number, gid_page) =>
    let fname_page := page_file_name fname_html page_number in
    let fp := save_dir ^^ fname_page in
    emit (FileOpen fp "a") ;;
    emit (FileWrite fp page_head) ;;
    for_each gid_page (write_gid lab_files parser fp) ;;
    emit (FileWrite fp "</body>") ;;
    emit (FileClose fp) ;;
    print (Py.tab ^^ fname_page).

(** ** Fetching the lab files

    [get_repo], [get_file_from_repo], [fetch_lab_files] and
    [persistent_fetch_lab_files], the same text in both files.  The remote
    service answers differently from one call to the next, so its calls take
    and return the state [W] of the service; a computation is a function of
    that state which gives the trace of what was printed and slept, how the
    computation completes, and the state that is left. *)

Module Fetch.

(** What is handed to [time.sleep]: [False], [1] or the throttle. *)
Inductive scalar : Type :=
| PyBool (b : bool)
| PyInt (z : Z)
| PyFloat (q : QArith_base.Q).

(** The exceptions of this part: the one of the GitHub library, which
    [fetch_lab_files] catches, the one of [next] on an exhausted generator,
    and any other, each with the text that [print] shows for it. *)
Inductive error : Type :=
| GithubException (shown : string)
| StopIteration
| OtherError (shown : string).

Inductive result (A : Type) : Type :=
| Ok (v : A)
| Failed (e : error).
Arguments Ok {A} v.
Arguments Failed {A} e.

Inductive effect : Type :=
| Printed (line : string)
| Slept (seconds : scalar).

(** An entry of a repository directory, with the fields the program reads. *)
Record content_file : Type := mkContentFile {
  path : string;
  name : string;
  sha : string
}.

(** [d[k] = v]: the value of a key that is present is replaced where it
    stands, a new key goes to the end. *)
Fixpoint dict_set {V : Type} (d : Py.dict string V) (k : string) (v : V)
    : Py.dict string V :=
  match d with
  | [] => [(k, v)]
  | (k', v') :: d' =>
      if String.eqb k k' then (k', v) :: d' else (k', v') :: dict_set d' k v
  end.

(** [list(d.keys())]. *)
Definition dict_keys {V : Type} (d : Py.dict string V) : list string := map fst d.

(** [np.unique] of an array of strings: sorted, each value once. *)
Fixpoint insert_sorted (x : string) (l : list string) : list string :=
  match l with
  | [] => [x]
  | y :: l' => if String.leb x y then x :: l else y :: insert_sorted x l'
  end.

Definition sort (l : list string) : list string := fold_right insert_sorted [] l.

Fixpoint unique_sorted (l : list string) : list string :=
  match l with
  | [] => []
  | x :: l' =>
      match l' with
      | [] => [x]
      | y :: _ => if String.eqb x y then unique_sorted l' else x :: unique_sorted l'
      end
  end.

Definition unique (l : list string) : list string := unique_sorted (sort l).

(** [np.setdiff1d(ar1, ar2)]: the sorted, unique values of [ar1] that are not
    in [ar2]. *)
Definition setdiff1d (ar1 ar2 : list string) : list string :=
  filter (fun x => negb (existsb (String.eqb x) ar2)) (unique ar1).

(** ["-" * n]. *)
Fixpoint dashes (n : nat) : string :=
  match n with
  | O => EmptyString
  | S n' => "-" ^^ dashes n'
  end.

(** The [gid_list] of [fetch_lab_files]: one id or a sequence of ids. *)
Inductive gid_arg : Type :=
| OneGid (gid : string)
| ManyGids (gids : list string).

Section Service.

Variable W : Type.
Variable Repo : Type.
Variable repo_name : Repo -> string.
Variable gh_get_repo : string -> W -> result Repo * W.
Variable repo_get_dir_contents : Repo -> string -> W -> result (list content_file) * W.
Variable repo_get_contents : Repo -> string -> W -> result content_file * W.
Variable repo_get_git_blob : Repo -> string -> W -> result string * W.
Variable b64decode : string -> result string.
Variable re_search : string -> string -> bool.
Variable array_str : list string -> string.

Definition N (A : Type) : Type := W -> (list effect * result A) * W.

Definition unit {A : Type} (v : A) : N A := fun w => (([], Ok v), w).

Definition fail {A : Type} (e : error) : N A := fun w => (([], Failed e), w).

Definition bindN {A B : Type} (m : N A) (f : A -> N B) : N B :=
  fun w =>
    match m w with
    | ((t, Ok v), w') =>
        match f v w' with
        | ((t', r), w'') => ((t ++ t', r), w'')
        end
    | ((t, Failed e), w') => ((t, Failed e), w')
    end.

Definition say (line : string) : N Datatypes.unit :=
  fun w => (([Printed line], Ok tt), w).

Definition sleep (seconds : scalar) : N Datatypes.unit :=
  fun w => (([Slept seconds], Ok tt), w).

(** A call to the service. *)
Definition call {A : Type} (c : W -> result A * W) : N A :=
  fun w => match c w with (r, w') => (([], r), w') end.

(** A call to a library that does not touch the service. *)
Definition pure_call {A : Type} (r : result A) : N A := fun w => (([], r), w).

(** [try: m], with what [m] raised handed to the [except] clauses. *)
Definition catch {A : Type} (m : N A) : N (result A) :=
  fun w => match m w with ((t, r), w') => ((t, Ok r), w') end.

Notation "x <~ m ;; k" := (bindN m (fun x => k))
  (at level 61, m at next level, right associativity).
Notation "m ;;; k" := (bindN m (fun _ => k))
  (at level 61, right associativity).

(** The two branches on [throttle] at the head of [get_repo] and of
    [get_file_from_repo]: [True] sleeps one second, any other scalar
    ([False] is one) is handed to [time.sleep], [None] does not sleep. *)
Definition throttle_sleep (throttle : option scalar) : N Datatypes.unit :=
  match throttle with
  | Some (PyBool true) => sleep (PyInt 1)
  | Some s => sleep s
  | None => unit tt
  end.

Definition get_repo (gid lab_num course_num : string) (year_tag : option string)
    (throttle : option scalar) : N Repo :=
  let year_tag := match year_tag with None => "MDS-2019-20" | Some y => y end in
  throttle_sleep throttle ;;;
  repo <~ call (gh_get_repo (year_tag ^^ "/DSCI_" ^^ course_num ^^ "_lab"
                             ^^ lab_num ^^ "_" ^^ gid)) ;;
  say ("Fetched: " ^^ repo_name repo) ;;;
  unit repo.

Definition get_file_from_repo (fname : string) (repo : Repo)
    (throttle : option scalar) (use_fuzzy : bool) : N string :=
  throttle_sleep throttle ;;;
  contents <~
    (if use_fuzzy then
       dir_contents <~ call (repo_get_dir_contents repo "./") ;;
       match find (fun x => re_search fname (path x)) dir_contents with
       | Some x => unit x
       | None => fail StopIteration
       end
     else call (repo_get_contents repo fname)) ;;
  say (Py.tab ^^ "fetching: " ^^ name contents) ;;;
  blob_content <~ call (repo_get_git_blob repo (sha contents)) ;;
  decoded_content <~ pure_call (b64decode blob_content) ;;
  unit decoded_content.

(** The right-hand side of the assignment in the loop of [fetch_lab_files]:
    neither call is given the throttle, so both take the default [False]. *)
Definition lab_of (fname gid lab_num course_num : string)
    (year_tag : option string) : N string :=
  repo <~ get_repo gid lab_num course_num year_tag (Some (PyBool false)) ;;
  get_file_from_repo fname repo (Some (PyBool false)) true.

(** The loop of [fetch_lab_files], from the dict [labs] built so far. *)
Fixpoint fetch_loop (fname lab_num course_num : string) (year_tag : option string)
    (gids : list string) (labs : Py.dict string string)
    : N (Py.dict string string) :=
  match gids with
  | [] => unit labs
  | gid :: rest =>
      r <~ catch (lab_of fname gid lab_num course_num year_tag) ;;
      match r with
      | Ok v => fetch_loop fname lab_num course_num year_tag rest (dict_set labs gid v)
      | Failed (GithubException ghe) =>
          say ghe ;;;
          say "Returning what we have so far..." ;;;
          unit labs
      | Failed e => fail e
      end
  end.

(** [lab_num] and [course_num] arrive as strings. *)
Definition fetch_lab_files (fname : string) (gid_list : gid_arg)
    (lab_num course_num : string) (year_tag : option string)
    (throttle : option scalar) : N (Py.dict string string) :=
  let gid_list := match gid_list with OneGid g => [g] | ManyGids l => l end in
  fetch_loop fname lab_num course_num year_tag gid_list [].

(** [for key, value in new_lab_files.items(): lab_files[key] = value]. *)
Definition dict_update (lab_files new_lab_files : Py.dict string string)
    : Py.dict string string :=
  fold_left (fun d kv => dict_set d (fst kv) (snd kv)) new_lab_files lab_files.

(** The retry loop of [persistent_fetch_lab_files] over the values [i] of
    [range(num_tries - 1)] that are left; it gives back the lab files and the
    keys that are still missing. *)
Fixpoint retry_loop (fname : string) (gid_list : list string)
    (lab_num course_num : string) (year_tag : option string)
    (throttle : option scalar) (tries : list Z)
    (lab_files : Py.dict string string) (missing_keys : list string)
    : N (Py.dict string string * list string) :=
  match tries with
  | [] => unit (lab_files, missing_keys)
  | i :: tries' =>
      say ("Attempt " ^^ Py.str (i + 2)) ;;;
      sleep (PyInt 1) ;;;
      new_lab_files <~ fetch_lab_files fname (ManyGids missing_keys) lab_num
                         course_num year_tag throttle ;;
      let lab_files := dict_update lab_files new_lab_files in
      let received_keys := dict_keys lab_files in
      let missing_keys := setdiff1d gid_list received_keys in
      if Nat.eqb (length missing_keys) 0 then unit (lab_files, missing_keys)
      else retry_loop fname gid_list lab_num course_num year_tag throttle tries'
             lab_files missing_keys
  end.

Definition persistent_fetch_lab_files (fname : string) (gid_list : list string)
    (lab_num course_num : string) (year_tag : option string) (num_tries : Z)
    (throttle : option scalar) : N (Py.dict string string) :=
  lab_files <~ fetch_lab_files fname (ManyGids gid_list) lab_num course_num
                 year_tag throttle ;;
  let received_keys := dict_keys lab_files in
  let missing_keys := setdiff1d gid_list received_keys in
  lm <~ retry_loop fname gid_list lab_num course_num year_tag throttle
          (Py.range (num_tries - 1)) lab_files missing_keys ;;
  (if Nat.ltb 0 (length (snd lm)) then
     say (dashes 50) ;;;
     say "Missing GitHub IDs:" ;;;
     say (array_str (snd lm)) ;;;
     say (dashes 50)
   else unit tt) ;;;
  unit (fst lm).

(** Every id of [gids] is fetched in turn, from the dict [labs] and the state
    [w]: the trace, the dict and the state that result. *)
Inductive fetched_all (fname lab_num course_num : string) (year_tag : option string)
    : list string -> Py.dict string string -> W ->
      list effect -> Py.dict string string -> W -> Prop :=
| fetched_nil (labs : Py.dict string string) (w : W) :
    fetched_all fname lab_num course_num year_tag [] labs w [] labs w
| fetched_cons (gid : string) (rest : list string) (labs labs' : Py.dict string string)
    (w w1 w2 : W) (t t' : list effect) (v : string) :
    lab_of fname gid lab_num course_num year_tag w = ((t, Ok v), w1) ->
    fetched_all fname lab_num course_num year_tag rest (dict_set labs gid v) w1
      t' labs' w2 ->
    fetched_all fname lab_num course_num year_tag (gid :: rest) labs w
      (t ++ t') labs' w2.

End Service.

(** A sleep of the program that does not depend on the throttle: the
    [time.sleep(False)] of a repository call and the [time.sleep(1)] before
    a retry, which is the only pause. *)
Definition fixed_sleep (e : effect) : Prop :=
  match e with
  | Slept s => s = PyBool false \/ s = PyInt 1
  | Printed _ => True
  end.

Definition is_pause (e : effect) : bool :=
  match e with
  | Slept (PyInt 1) => true
  | _ => false
  end.

End Fetch.

Arguments Fetch.setdiff1d : simpl never.

(** ** The vocabulary of the properties of the fetch *)

(** The trace [t] before what a computation gave. *)
Definition prepend {W A : Type} (t : list Fetch.effect)
    (x : (list Fetch.effect * Fetch.result A) * W)
    : (list Fetch.effect * Fetch.result A) * W :=
  ((t ++ fst (fst x), snd (fst x)), snd x).

(** A service for the examples.  Its state counts the calls of [get_repo];
    the repository of student s2 is refused with a GitHub error during the
    first two calls, the repository of student s3 holds no notebook, and
    every other repository holds a read-me file and the notebook of the lab. *)
Definition demo_get_repo (full_name : string) (w : nat)
    : Fetch.result string * nat :=
  if String.eqb full_name "MDS-2019-20/DSCI_572_lab1_s2" && Nat.ltb w 2
  then (Fetch.Failed (Fetch.GithubException "502 Bad Gateway"), S w)
  else (Fetch.Ok full_name, S w).

Definition demo_get_dir_contents (repo dir : string) (w : nat)
    : Fetch.result (list Fetch.content_file) * nat :=
  if String.eqb repo "MDS-2019-20/DSCI_572_lab1_s3"
  then (Fetch.Ok [Fetch.mkContentFile "README.md" "README.md" "sha0"], w)
  else (Fetch.Ok [Fetch.mkContentFile "README.md" "README.md" "sha0";
                  Fetch.mkContentFile "lab1.ipynb" "lab1.ipynb" "sha1"], w).

Definition demo_get_contents (repo fname : string) (w : nat)
    : Fetch.result Fetch.content_file * nat :=
  (Fetch.Failed (Fetch.GithubException "404 Not Found"), w).

Definition demo_get_git_blob (repo sha : string) (w : nat)
    : Fetch.result string * nat :=
  (Fetch.Ok "ZG9jMQ==", w).

Definition demo_b64decode (content : string) : Fetch.result string :=
  Fetch.Ok "doc1".

Definition demo_re_search (fname path : string) : bool :=
  String.eqb path "lab1.ipynb".

Definition demo_array_str (l : list string) : string :=
  "[" ^^ String.concat " " l ^^ "]".

Definition demo_lab_of (gid : string) : Fetch.N nat string :=
  Fetch.lab_of nat string (fun r => r) demo_get_repo demo_get_dir_contents
    demo_get_contents demo_get_git_blob demo_b64decode demo_re_search
    ".*lab1.*ipynb" gid "1" "572" None.

Definition demo_fetch_lab_files (gids : list string)
    (throttle : option Fetch.scalar) : Fetch.N nat (Py.dict string string) :=
  Fetch.fetch_lab_files nat string (fun r => r) demo_get_repo
    demo_get_dir_contents demo_get_contents demo_get_git_blob demo_b64decode
    demo_re_search ".*lab1.*ipynb" (Fetch.ManyGids gids) "1" "572" None throttle.

Definition demo_persistent_fetch (gids : list string) (num_tries : Z)
    (throttle : option Fetch.scalar) : Fetch.N nat (Py.dict string string) :=
  Fetch.persistent_fetch_lab_files nat string (fun r => r) demo_get_repo
    demo_get_dir_contents demo_get_contents demo_get_git_blob demo_b64decode
    demo_re_search demo_array_str ".*lab1.*ipynb" gids "1" "572" None
    num_tries throttle.

(** ** Saving the raw lab files: [util.py]

    [to_pklbz2] and [save_files], with the two functions of [os.path] that
    decide the name of the file.  Pickling and compression are one call of a
    library: the event [Dumped] stands for
    [pickle.dump(obj, bz2.open(fname, "wb"))]. *)

Module OsPath.

(** [s.rfind(c)] for one character [c], with the index of the head of [s] at
    [i]: the greatest index at which [c] stands, or -1. *)
Fixpoint rfind_from (c : ascii) (s : string) (i : Z) : Z :=
  match s with
  | EmptyString => -1
  | String d s' =>
      let r := rfind_from c s' (i + 1) in
      if r >=? 0 then r else if Ascii.eqb d c then i else -1
  end.

Definition rfind (c : ascii) (s : string) : Z := rfind_from c s 0.

(** [s[n:]] and [s[:n]] for an index [n] that is not negative. *)
Fixpoint drop (n : nat) (s : string) : string :=
  match n, s with
  | O, _ => s
  | S n', String _ s' => drop n' s'
  | S _, EmptyString => EmptyString
  end.

Fixpoint take (n : nat) (s : string) : string :=
  match n, s with
  | O, _ => EmptyString
  | S n', String d s' => String d (take n' s')
  | S _, EmptyString => EmptyString
  end.

(** [os.path.basename]: what follows the last slash. *)
Definition basename (p : string) : string :=
  let i := rfind "/" p + 1 in
  drop (Z.to_nat i) p.

(** The loop of [splitext] over the characters between the last slash and
    the last dot: it stops at the first one that is not a dot. *)
Fixpoint finds_non_dot (s : string) : bool :=
  match s with
  | EmptyString => false
  | String d s' => if negb (Ascii.eqb d ".") then true else finds_non_dot s'
  end.

(** [os.path.splitext]: the extension starts at the last dot of the last
    component, unless that component has only dots before it. *)
Definition splitext (p : string) : string * string :=
  let sepIndex := rfind "/" p in
  let dotIndex := rfind "." p in
  if dotIndex >? sepIndex then
    if finds_non_dot (take (Z.to_nat (dotIndex - (sepIndex + 1)))
                        (drop (Z.to_nat (sepIndex + 1)) p))
    then (take (Z.to_nat dotIndex) p, drop (Z.to_nat dotIndex) p)
    else (p, EmptyString)
  else (p, EmptyString).

End OsPath.

Module Util.

Inductive io_event : Type :=
| Shown (line : string)
| MadeDirs (path : string)
| Dumped (fname obj : string).

Definition to_pklbz2 (fname obj : string) : list io_event :=
  let shortname := OsPath.basename fname in
  let '(tmp, extension1) := OsPath.splitext shortname in
  let extension2 := snd (OsPath.splitext tmp) in
  if negb (String.eqb extension1 ".bz2") && negb (String.eqb extension2 ".pkl")
  then [Shown ("found extension: " ^^ extension2 ^^ extension1);
        Dumped (fname ^^ ".pkl.bz2") obj]
  else [Dumped fname obj].


End Util.

(** No character of [s] is [c]. *)
Definition no_char (c : ascii) (s : string) : bool :=
  all_in (fun d => negb (Ascii.eqb d c)) s.

(** * Properties *)

(** ** The heading pattern *)

Section RegexFacts.

Import Regex.

Lemma lit_spec (w : string) (k : cont) (s : string) :
  lit w k s = true <-> exists s', s = w ^^ s' /\ k s' = true.
Proof.
  revert s; induction w as [|c w IH]; intros s; simpl.
  - split; [intros H; exists s; auto | intros (s' & -> & H); exact H].
  - destruct s as [|d s].
    + split; [discriminate | intros (s' & E & _); discriminate].
    + rewrite andb_true_iff, IH. split.
      * intros (E & s' & -> & H). apply Ascii.eqb_eq in E. subst d.
        exists s'; auto.
      * intros (s' & E & H). injection E as -> ->. split.
        -- apply Ascii.eqb_refl.
        -- exists s'; auto.
Qed.

Lemma star_spec (p : ascii -> bool) (k : cont) (s : string) :
  star p k s = true <-> exists u s', s = u ^^ s' /\ all_in p u = true /\ k s' = true.
Proof.
  induction s as [|d s IH].
  - simpl. rewrite orb_false_r. split.
    + intros H. exists EmptyString, EmptyString. auto.
    + intros (u & s' & E & _ & H). destruct u; [|discriminate].
      simpl in E. subst s'. exact H.
  - change (star p k (String d s))
      with (k (String d s) || (p d && star p k s)).
    rewrite orb_true_iff, andb_true_iff, IH. split.
    + intros [H | (Hd & u & s' & -> & Hu & H)].
      * exists EmptyString, (String d s). auto.
      * exists (String d u), s'. simpl. rewrite Hd, Hu. auto.
    + intros (u & s' & E & Hu & H). destruct u as [|e u].
      * simpl in E. subst s'. left. exact H.
      * simpl in E, Hu. injection E as -> ->.
        apply andb_true_iff in Hu as [Hd Hu]. right. split; [exact Hd|].
        exists u, s'. auto.
Qed.

Lemma search_spec (r : regex) (s : string) :
  search r s = true <-> exists pre s', s = pre ^^ s' /\ r accept s' = true.
Proof.
  induction s as [|d s IH]; simpl.
  - rewrite orb_false_r. split.
    + intros H. exists EmptyString, EmptyString. auto.
    + intros (pre & s' & E & H). destruct pre; [|discriminate].
      simpl in E. subst s'. exact H.
  - rewrite orb_true_iff, IH. split.
    + intros [H | (pre & s' & -> & H)].
      * exists EmptyString, (String d s). auto.
      * exists (String d pre), s'. auto.
    + intros (pre & s' & E & H). destruct pre as [|e pre].
      * simpl in E. subst s'. left. exact H.
      * simpl in E. injection E as -> ->. right. exists pre, s'. auto.
Qed.

Lemma append_assoc (s1 s2 s3 : string) : (s1 ^^ s2) ^^ s3 = s1 ^^ s2 ^^ s3.
Proof. induction s1 as [|c s1 IH]; simpl; [reflexivity | now rewrite IH]. Qed.

Lemma all_in_append (p : ascii -> bool) (u v : string) :
  all_in p (u ^^ v) = all_in p u && all_in p v.
Proof.
  induction u as [|c u IH]; simpl; [reflexivity|].
  now rewrite IH, andb_assoc.
Qed.

Lemma all_in_weaken (p q : ascii -> bool) (u : string) :
  (forall d, p d = true -> q d = true) -> all_in p u = true -> all_in q u = true.
Proof.
  intros Hpq. induction u as [|c u IH]; simpl; [auto|].
  rewrite !andb_true_iff. intros [H1 H2]. auto.
Qed.

Lemma one_line_all_in (u : string) : Spec.one_line u = all_in dot u.
Proof. induction u as [|c u IH]; simpl; [reflexivity | now rewrite IH]. Qed.

(** What [re.search] of the heading pattern decides: somewhere in the text
    a hash sign is followed, on the same line, by the words
    [Exercise n]; nothing is asked of what comes before the hash sign or
    after the numeral. *)
Lemma search_pattern_spec (n : Z) (s : string) :
  search (pattern n) s = true <->
  exists pre mid post,
    s = pre ^^ "#" ^^ mid ^^ "Exercise " ^^ Py.str n ^^ post
    /\ Spec.one_line mid = true.
Proof.
  rewrite search_spec. unfold pattern, seq, plus. split.
  - intros (pre & s' & -> & H). destruct s' as [|d s']; [discriminate|].
    apply andb_true_iff in H as [Hd H]. apply Ascii.eqb_eq in Hd. subst d.
    apply star_spec in H as (u1 & s1 & -> & Hu1 & H).
    apply star_spec in H as (u2 & s2 & -> & Hu2 & H).
    apply lit_spec in H as (post & -> & _).
    exists pre, (u1 ^^ u2), post. split.
    + simpl. now rewrite !append_assoc.
    + rewrite one_line_all_in, all_in_append, Hu2, andb_true_r.
      apply all_in_weaken with (p := chr "#"); [|exact Hu1].
      intros d Hd. apply Ascii.eqb_eq in Hd. subst d. reflexivity.
  - intros (pre & mid & post & -> & Hmid).
    exists pre, ("#" ^^ mid ^^ "Exercise " ^^ Py.str n ^^ post). split; [reflexivity|].
    change ("#" ^^ mid ^^ "Exercise " ^^ Py.str n ^^ post)
      with (String "#" (mid ^^ "Exercise " ^^ Py.str n ^^ post)).
    cbv beta iota. apply andb_true_iff. split; [reflexivity|].
    apply star_spec. exists EmptyString, (mid ^^ "Exercise " ^^ Py.str n ^^ post).
    split; [reflexivity|]. split; [reflexivity|].
    apply star_spec. exists mid, ("Exercise " ^^ Py.str n ^^ post).
    split; [reflexivity|]. split; [now rewrite <- one_line_all_in|].
    apply lit_spec. exists post. split; [|reflexivity].
    change ("Exercise " ^^ Py.str n ^^ post) with ("Exercise " ^^ (Py.str n ^^ post)).
    now rewrite <- append_assoc.
Qed.

Lemma prefix_append (p s : string) :
  String.prefix p s = true -> exists r, s = p ^^ r.
Proof.
  revert s; induction p as [|c p IH]; intros s; simpl.
  - intros _. exists s. reflexivity.
  - destruct s as [|d s]; simpl; [discriminate|].
    destruct (ascii_dec c d) as [->|]; [|discriminate].
    intros H. destruct (IH _ H) as (r & ->). exists r. reflexivity.
Qed.

Lemma search_pattern_empty (n : Z) : search (pattern n) EmptyString = false.
Proof. reflexivity. Qed.

End RegexFacts.

(** ** Slices *)

Section SliceFacts.

Context {A : Type}.

Lemma slice_empty (l : list A) (lo hi : Z) :
  Py.clamp (Py.len l) hi <= Py.clamp (Py.len l) lo -> Py.slice l lo hi = [].
Proof.
  intros H. unfold Py.slice.
  replace (Z.to_nat _) with 0%nat by lia. reflexivity.
Qed.

Lemma clamp_inside (L x : Z) : 0 <= x <= L -> Py.clamp L x = x.
Proof. intros H. unfold Py.clamp. destruct (Z.ltb_spec x 0); lia. Qed.

(** Inside the list, a slice is the plain sublist. *)
Lemma slice_inside (l : list A) (lo hi : Z) :
  0 <= lo <= hi -> hi <= Py.len l ->
  Py.slice l lo hi = firstn (Z.to_nat (hi - lo)) (skipn (Z.to_nat lo) l).
Proof.
  intros H1 H2. unfold Py.slice. rewrite !clamp_inside by lia. reflexivity.
Qed.

Lemma slice_inside_length (l : list A) (lo hi : Z) :
  0 <= lo <= hi -> hi <= Py.len l -> Py.len (Py.slice l lo hi) = hi - lo.
Proof.
  intros H1 H2. rewrite slice_inside by assumption. unfold Py.len in *.
  rewrite length_firstn, length_skipn. lia.
Qed.

Lemma slice_inside_nth (l : list A) (lo hi : Z) (k : nat) :
  0 <= lo <= hi -> hi <= Py.len l -> Z.of_nat k < hi - lo ->
  nth_error (Py.slice l lo hi) k = nth_error l (Z.to_nat lo + k).
Proof.
  intros H1 H2 H3. rewrite slice_inside by assumption.
  rewrite nth_error_firstn.
  destruct (Nat.ltb_spec k (Z.to_nat (hi - lo))); [|lia].
  apply nth_error_skipn.
Qed.

(** A start of -1 selects nothing, whatever end the scan recorded. *)
Lemma slice_from_sentinel (l : list A) (b : Z) :
  b = -1 \/ 0 <= b < Py.len l -> Py.slice l (-1) b = [].
Proof.
  intros H. apply slice_empty. unfold Py.clamp.
  assert (0 <= Py.len l) by (unfold Py.len; lia).
  change (-1 <? 0) with true. cbv iota.
  destruct (Z.ltb_spec b 0); lia.
Qed.

Lemma slice_backwards (l : list A) (a b : Z) :
  0 <= b <= a -> a < Py.len l -> Py.slice l a b = [].
Proof.
  intros H1 H2. apply slice_empty. rewrite !clamp_inside by lia. lia.
Qed.

End SliceFacts.

(** ** The scanning loops *)

Section ScanFacts.

Variable n : Z.

Lemma length_zero_empty (s : string) :
  Nat.eqb (String.length s) 0 = true -> s = EmptyString.
Proof. destruct s; [reflexivity | discriminate]. Qed.

Lemma scan_cell_cases (i : Z) (c : cell) (a b : Z) :
  scan_cell n i c (a, b) =
    if starts n c then (i, b) else if ends n c then (a, i) else (a, b).
Proof.
  unfold scan_cell, starts, ends, Spec.is_heading.
  destruct (String.eqb (cell_type c) "markdown"); [|reflexivity].
  destruct (Nat.eqb (String.length (cell_text c)) 0) eqn:E.
  - apply length_zero_empty in E. rewrite E, !search_pattern_empty. reflexivity.
  - simpl. destruct (Regex.search (pattern n) (cell_text c)); reflexivity.
Qed.

(** *** The full scan *)

Lemma script_scan_fst_idle (cs : list cell) (i a b : Z) :
  filter (starts n) cs = [] -> fst (Script.scan n i cs (a, b)) = a.
Proof.
  revert i a b. induction cs as [|c cs IH]; intros i a b H; [reflexivity|].
  simpl in *. rewrite scan_cell_cases.
  destruct (starts n c); [discriminate|].
  destruct (ends n c); apply IH; exact H.
Qed.

Lemma script_scan_snd_idle (cs : list cell) (i a b : Z) :
  filter (ends n) cs = [] -> snd (Script.scan n i cs (a, b)) = b.
Proof.
  revert i a b. induction cs as [|c cs IH]; intros i a b H; [reflexivity|].
  simpl in *. rewrite scan_cell_cases.
  destruct (ends n c); [discriminate|].
  destruct (starts n c); apply IH; exact H.
Qed.

Lemma script_scan_idle (cs : list cell) (i a b : Z) :
  filter (starts n) cs = [] -> filter (ends n) cs = [] ->
  Script.scan n i cs (a, b) = (a, b).
Proof.
  intros H1 H2.
  rewrite (surjective_pairing (Script.scan n i cs (a, b))).
  now rewrite script_scan_fst_idle, script_scan_snd_idle.
Qed.

Lemma recorded_here (p : cell -> bool) (i : Z) (c : cell) (cs : list cell) (x0 : Z) :
  p c = true -> recorded p i (c :: cs) x0 i.
Proof.
  intros H. right. split.
  - unfold Py.len. simpl length. lia.
  - exists c. rewrite Z.sub_diag. auto.
Qed.

Lemma recorded_later (p : cell -> bool) (i : Z) (c : cell) (cs : list cell)
    (x0 x : Z) :
  recorded p (i + 1) cs x0 x -> recorded p i (c :: cs) x0 x.
Proof.
  intros [H | (H & c' & Hc & Hp)]; [left; exact H|]. right. split.
  - unfold Py.len in *. simpl length. lia.
  - exists c'. split; [|exact Hp].
    replace (Z.to_nat (x - i)) with (S (Z.to_nat (x - (i + 1)))) by lia.
    exact Hc.
Qed.

Lemma recorded_trans (p : cell -> bool) (i : Z) (cs : list cell) (x0 x1 x : Z) :
  recorded p i cs x0 x1 -> recorded p i cs x1 x -> recorded p i cs x0 x.
Proof. intros H1 [-> | H2]; [exact H1 | right; exact H2]. Qed.

Lemma script_scan_recorded (cs : list cell) (i a b : Z) :
  recorded (starts n) i cs a (fst (Script.scan n i cs (a, b))) /\
  recorded (ends n) i cs b (snd (Script.scan n i cs (a, b))).
Proof.
  revert i a b. induction cs as [|c cs IH]; intros i a b.
  - split; left; reflexivity.
  - simpl. rewrite scan_cell_cases.
    destruct (starts n c) eqn:Es; [|destruct (ends n c) eqn:Ee].
    + destruct (IH (i + 1) i b) as [Ha Hb]. split.
      * apply recorded_trans with (x1 := i);
          [apply recorded_here; exact Es | apply recorded_later; exact Ha].
      * apply recorded_later. exact Hb.
    + destruct (IH (i + 1) a i) as [Ha Hb]. split.
      * apply recorded_later. exact Ha.
      * apply recorded_trans with (x1 := i);
          [apply recorded_here; exact Ee | apply recorded_later; exact Hb].
    + destruct (IH (i + 1) a b) as [Ha Hb].
      split; apply recorded_later; assumption.
Qed.

(** *** The scan with the early stop *)

Lemma notebook_scan_recorded (cs : list cell) (i a b : Z) :
  recorded (starts n) i cs a (fst (Notebook.scan n i cs (a, b))) /\
  recorded (ends n) i cs b (snd (Notebook.scan n i cs (a, b))).
Proof.
  revert i a b. induction cs as [|c cs IH]; intros i a b.
  - split; left; reflexivity.
  - simpl. rewrite scan_cell_cases.
    destruct (starts n c) eqn:Es; [|destruct (ends n c) eqn:Ee].
    + destruct ((i >? 0) && (b >? 0)).
      * split; [apply recorded_here; exact Es | left; reflexivity].
      * destruct (IH (i + 1) i b) as [Ha Hb]. split.
        -- apply recorded_trans with (x1 := i);
             [apply recorded_here; exact Es | apply recorded_later; exact Ha].
        -- apply recorded_later. exact Hb.
    + destruct ((a >? 0) && (i >? 0)).
      * split; [left; reflexivity | apply recorded_here; exact Ee].
      * destruct (IH (i + 1) a i) as [Ha Hb]. split.
        -- apply recorded_later. exact Ha.
        -- apply recorded_trans with (x1 := i);
             [apply recorded_here; exact Ee | apply recorded_later; exact Hb].
    + destruct ((a >? 0) && (b >? 0)).
      * split; left; reflexivity.
      * destruct (IH (i + 1) a b) as [Ha Hb].
        split; apply recorded_later; assumption.
Qed.


(** A start that the cells hold is found by the full scan. *)
Lemma script_scan_start_found (cs : list cell) (i a b : Z) :
  filter (starts n) cs <> [] ->
  let a' := fst (Script.scan n i cs (a, b)) in
  i <= a' < i + Py.len cs /\
  exists c, nth_error cs (Z.to_nat (a' - i)) = Some c /\ starts n c = true.
Proof.
  revert i a b. induction cs as [|c cs IH]; intros i a b H; [contradiction|].
  simpl in H. simpl. rewrite scan_cell_cases.
  assert (D : filter (starts n) cs = [] \/ filter (starts n) cs <> []).
  { destruct (filter (starts n) cs); [left; reflexivity | right; discriminate]. }
  destruct D as [Ef | Hne].
  - rewrite Ef in H. destruct (starts n c) eqn:Es; [|contradiction].
    rewrite script_scan_fst_idle by exact Ef.
    split.
    + unfold Py.len. simpl length. lia.
    + exists c. rewrite Z.sub_diag. auto.
  - set (ab := if starts n c then (i, b) else if ends n c then (a, i) else (a, b)).
    destruct ab as [a1 b1].
    destruct (IH (i + 1) a1 b1 Hne) as (R1 & c' & Hc & Hp).
    split.
    + unfold Py.len in *. simpl length. lia.
    + exists c'. split; [|exact Hp].
      replace (Z.to_nat (fst (Script.scan n (i + 1) cs (a1, b1)) - i))
        with (S (Z.to_nat (fst (Script.scan n (i + 1) cs (a1, b1)) - (i + 1))))
        by lia.
      exact Hc.
Qed.

(** With at most one cell of each kind, the early stop skips only cells
    that record nothing. *)
Lemma scans_agree (cs : list cell) (i a b : Z) :
  (a <> -1 -> filter (starts n) cs = []) ->
  (b <> -1 -> filter (ends n) cs = []) ->
  (length (filter (starts n) cs) <= 1)%nat ->
  (length (filter (ends n) cs) <= 1)%nat ->
  Notebook.scan n i cs (a, b) = Script.scan n i cs (a, b).
Proof.
  revert i a b. induction cs as [|c cs IH]; intros i a b Ha Hb Ua Ub;
    [reflexivity|].
  simpl. rewrite scan_cell_cases. simpl in Ha, Hb, Ua, Ub.
  assert (Excl : starts n c = true -> ends n c = false).
  { unfold starts, ends. intros ->. reflexivity. }
  destruct (starts n c) eqn:Es.
  - rewrite (Excl eq_refl) in *. simpl in Ua.
    assert (Fa : filter (starts n) cs = []).
    { destruct (filter (starts n) cs); [reflexivity | simpl in Ua; lia]. }
    assert (Ua' : (length (filter (starts n) cs) <= 1)%nat) by lia.
    destruct (Z.gtb_spec i 0); destruct (Z.gtb_spec b 0); simpl.
    + symmetry. apply script_scan_idle; [exact Fa | apply Hb; lia].
    + apply IH; auto.
    + apply IH; auto.
    + apply IH; auto.
  - destruct (ends n c) eqn:Ee.
    + simpl in Ub.
      assert (Fb : filter (ends n) cs = []).
      { destruct (filter (ends n) cs); [reflexivity | simpl in Ub; lia]. }
      assert (Ub' : (length (filter (ends n) cs) <= 1)%nat) by lia.
      destruct (Z.gtb_spec a 0); destruct (Z.gtb_spec i 0); simpl.
      * symmetry. apply script_scan_idle; [apply Ha; lia | exact Fb].
      * apply IH; auto.
      * apply IH; auto.
      * apply IH; auto.
    + destruct (Z.gtb_spec a 0); destruct (Z.gtb_spec b 0); simpl.
      * symmetry. apply script_scan_idle; [apply Ha; lia | apply Hb; lia].
      * apply IH; auto.
      * apply IH; auto.
      * apply IH; auto.
Qed.

End ScanFacts.

(** ** What the locator returns *)

Section LocatorFacts.

Lemma filter_none {A : Type} (p : A -> bool) (l : list A) :
  (forall x, In x l -> p x = false) -> filter p l = [].
Proof.
  induction l as [|x l IH]; intros H; [reflexivity|]. simpl.
  rewrite (H x) by (left; reflexivity). apply IH. intros y Hy. apply H. now right.
Qed.


(** From the start of a notebook, a boundary is the sentinel or the index
    of a cell. *)
Lemma recorded_from_start (p : cell -> bool) (cs : list cell) (x : Z) :
  recorded p 0 cs (-1) x ->
  x = -1 \/ (0 <= x < Py.len cs /\
             exists c, nth_error cs (Z.to_nat x) = Some c /\ p c = true).
Proof.
  intros [H | (H & c & Hc & Hp)]; [left; exact H | right].
  rewrite Z.sub_0_r in Hc. split; [lia | exists c; auto].
Qed.

Lemma notebook_scan_bounds (nb : notebook) (n a b : Z) :
  Notebook.scan n 0 (cells nb) (-1, -1) = (a, b) ->
  (a = -1 \/ 0 <= a < Py.len (cells nb)) /\
  (b = -1 \/ 0 <= b < Py.len (cells nb)).
Proof.
  intros E. destruct (notebook_scan_recorded n (cells nb) 0 (-1) (-1)) as [Ha Hb].
  rewrite E in Ha, Hb. simpl in Ha, Hb.
  apply recorded_from_start in Ha, Hb. intuition.
Qed.

(** The notebook's locator always returns, and what it returns lies in the
    notebook: a start that is the sentinel or a cell index, an end that is
    the sentinel, a cell index or the cell count. *)
Lemma notebook_get_cell_loc_bounds (nb : notebook) (n : Z) :
  exists t a b,
    Notebook.get_cell_loc nb n = (t, Return (a, b)) /\
    (a = -1 \/ 0 <= a < Py.len (cells nb)) /\
    (b = -1 \/ 0 <= b <= Py.len (cells nb)).
Proof.
  unfold Notebook.get_cell_loc.
  destruct (Notebook.scan n 0 (cells nb) (-1, -1)) as [a b] eqn:E.
  destruct (notebook_scan_bounds nb n a b E) as [Ha Hb].
  assert (0 <= Py.len (cells nb)) by (unfold Py.len; lia).
  destruct (a =? -1); [|destruct (b =? -1); [|destruct (a >=? b)]];
    simpl; do 3 eexists; (split; [reflexivity|]); split; auto; lia.
Qed.

Lemma notebook_scan_no_start (cs : list cell) (n i a b : Z) :
  filter (starts n) cs = [] -> fst (Notebook.scan n i cs (a, b)) = a.
Proof.
  revert i a b. induction cs as [|c cs IH]; intros i a b H; [reflexivity|].
  simpl in *. rewrite scan_cell_cases.
  destruct (starts n c); [discriminate|].
  destruct (ends n c).
  - destruct ((a >? 0) && (i >? 0)); [reflexivity | apply IH; exact H].
  - destruct ((a >? 0) && (b >? 0)); [reflexivity | apply IH; exact H].
Qed.

End LocatorFacts.

(** C1: the claim is that the start is the index of the first markdown cell
    that matches the heading pattern for [n] and is never overwritten by a
    later match.  On a notebook whose cells 1 and 2 both head exercise 1 and
    whose cell 3 heads exercise 2, the first match for the start is cell 1
    (what the specification's locator gives), while both generations of
    [get_cell_loc] return the start 2: the later match has overwritten the
    earlier one. *)
Theorem later_heading_overwrites_start :
  Spec.locate repeated_heading_nb 1 = inr (1, 3) /\
  Notebook.get_cell_loc repeated_heading_nb 1 = ([], Return (2, 3)) /\
  Script.get_cell_loc repeated_heading_nb 1 = ([], Return (2, 3)).
Proof. repeat split; vm_compute; reflexivity. Qed.



(** C3, as the claim states it, fails: on a notebook whose heading for
    exercise 3 precedes its heading for exercise 2, where the specification's
    locator signals an order error, [get_cell_loc] raises nothing in either
    generation; it returns the pair (2, 1), and the extraction goes on to an
    empty cell list. *)
Lemma order_error_not_raised :
  Spec.locate swapped_headings_nb 2 = inl Spec.BoundaryOrderError /\
  Notebook.get_cell_loc swapped_headings_nb 2 =
    ([Print "Error: get_cell_loc: something went wrong: a = 2, b = 1"], Return (2, 1)) /\
  Script.get_cell_loc swapped_headings_nb 2 =
    ([Print "Error: get_cell_loc: something went wrong: a = 2, b = 1"], Return (2, 1)) /\
  (forall t e, Notebook.get_cell_loc swapped_headings_nb 2 <> (t, Raise e)) /\
  snd (Notebook.select_exercise swapped_headings_nb 2) =
    Return (set_cells swapped_headings_nb []).
Proof.
  repeat split; try (vm_compute; reflexivity).
  intros t e. vm_compute. discriminate.
Qed.

(** C3, amended: when the notebook's [get_cell_loc] returns a found start
    that is not before the end, it has printed the line that reports both
    indices and nothing else, the pair is returned to the caller as it is,
    and the extraction that follows returns the notebook with an empty cell
    list. *)
Theorem order_error_is_printed_and_returned (nb : notebook) (n a b : Z)
    (t : list event) :
  Notebook.get_cell_loc nb n = (t, Return (a, b)) ->
  a <> -1 -> b <= a ->
  t = [Print ("Error: get_cell_loc: something went wrong: a = " ^^ Py.str a
              ^^ ", b = " ^^ Py.str b)]
  /\ 0 <= b /\ a < Py.len (cells nb)
  /\ Notebook.select_exercise nb n = (t, Return (set_cells nb [])).
Proof.
  intros E Ha Hba.
  assert (G : t = [Print ("Error: get_cell_loc: something went wrong: a = "
                          ^^ Py.str a ^^ ", b = " ^^ Py.str b)]
              /\ 0 <= b /\ a < Py.len (cells nb)).
  { unfold Notebook.get_cell_loc in E.
    destruct (Notebook.scan n 0 (cells nb) (-1, -1)) as [a0 b0] eqn:Es.
    destruct (notebook_scan_bounds nb n a0 b0 Es) as [Ba Bb].
    destruct (Z.eqb_spec a0 (-1)).
    - simpl in E. injection E as _ Ea _. lia.
    - destruct (Z.eqb_spec b0 (-1)).
      + simpl in E. injection E as _ Ea Eb. lia.
      + destruct (Z.geb_spec a0 b0).
        * simpl in E. injection E as Et Ea Eb. subst a0 b0.
          split; [symmetry; exact Et | lia].
        * simpl in E. injection E as _ Ea Eb. lia. }
  destruct G as (Gt & Gb & Ga). repeat split; try assumption.
  unfold Notebook.select_exercise. rewrite E. simpl.
  rewrite app_nil_r, slice_backwards by lia. reflexivity.
Qed.

Lemma order_error_is_printed_and_returned_witness :
  Notebook.select_exercise swapped_headings_nb 2 =
    ([Print "Error: get_cell_loc: something went wrong: a = 2, b = 1"],
     Return (set_cells swapped_headings_nb [])).
Proof.
  apply (order_error_is_printed_and_returned swapped_headings_nb 2 2 1).
  - reflexivity.
  - lia.
  - lia.
Defined.

(** C4, as the claim states it, fails: on a notebook with no heading for
    exercise 7, where the specification's locator signals a missing start,
    [get_cell_loc] raises nothing in either generation; it returns the
    sentinel -1 as start, and the extraction goes on to slice the cells from
    index -1, which Python reads as the last cell. *)
Lemma missing_start_not_raised :
  Spec.locate no_heading_nb 7 = inl (Spec.BoundaryNotFound "start") /\
  Notebook.get_cell_loc no_heading_nb 7 =
    ([Print "Error: get_cell_loc: a not found."], Return (-1, -1)) /\
  Script.get_cell_loc no_heading_nb 7 =
    ([Print "Error: get_cell_loc: a not found."], Return (-1, -1)) /\
  (forall t e, Notebook.get_cell_loc no_heading_nb 7 <> (t, Raise e)) /\
  Py.clamp (Py.len (cells no_heading_nb)) (-1) = 2 /\
  snd (Notebook.select_exercise no_heading_nb 7) =
    Return (set_cells no_heading_nb (Py.slice (cells no_heading_nb) (-1) (-1))).
Proof.
  repeat split; try (vm_compute; reflexivity).
  intros t e. vm_compute. discriminate.
Qed.

(** C4, amended: when no markdown cell heads exercise [n], the notebook's
    [get_cell_loc] prints that the start was not found and returns -1 as the
    start, with an end that is -1 or the index of a cell; the extraction that
    follows slices from -1 to that end, which selects no cell. *)
Theorem missing_start_is_printed_and_returned (nb : notebook) (n : Z) :
  (forall c, In c (cells nb) -> Spec.is_heading n c = false) ->
  exists b,
    Notebook.get_cell_loc nb n =
      ([Print "Error: get_cell_loc: a not found."], Return (-1, b))
    /\ (b = -1 \/ 0 <= b < Py.len (cells nb))
    /\ Notebook.select_exercise nb n =
         ([Print "Error: get_cell_loc: a not found."],
          Return (set_cells nb (Py.slice (cells nb) (-1) b)))
    /\ Py.slice (cells nb) (-1) b = [].
Proof.
  intros Hnone.
  assert (Fs : filter (starts n) (cells nb) = []).
  { apply filter_none. exact Hnone. }
  pose proof (notebook_scan_no_start (cells nb) n 0 (-1) (-1) Fs) as Ha.
  assert (G : exists b, Notebook.get_cell_loc nb n =
                ([Print "Error: get_cell_loc: a not found."], Return (-1, b))
              /\ (b = -1 \/ 0 <= b < Py.len (cells nb))).
  { unfold Notebook.get_cell_loc.
    destruct (Notebook.scan n 0 (cells nb) (-1, -1)) as [a b] eqn:Es.
    simpl in Ha. subst a.
    destruct (notebook_scan_bounds nb n (-1) b Es) as [_ Bb].
    exists b. split; [reflexivity | exact Bb]. }
  destruct G as (b & E & Bb). exists b.
  split; [exact E|]. split; [exact Bb|]. split.
  - unfold Notebook.select_exercise. rewrite E. reflexivity.
  - apply slice_from_sentinel. exact Bb.
Qed.

Lemma missing_start_is_printed_and_returned_witness :
  exists b,
    Notebook.get_cell_loc no_heading_nb 7 =
      ([Print "Error: get_cell_loc: a not found."], Return (-1, b)).
Proof.
  destruct (missing_start_is_printed_and_returned no_heading_nb 7) as (b & H & _).
  - intros c [<- | [<- | [<- | []]]]; reflexivity.
  - exists b. exact H.
Defined.

(** ** Extraction *)

Section ExtractionFacts.

Lemma get_cell_loc_located (nb : notebook) (n : Z) :
  Notebook.get_cell_loc nb n =
    (fst (Notebook.get_cell_loc nb n), Return (located nb n)).
Proof.
  unfold located.
  destruct (notebook_get_cell_loc_bounds nb n) as (t & a & b & E & _).
  rewrite E. reflexivity.
Qed.

Lemma select_exercise_located (nb : notebook) (n : Z) :
  Notebook.select_exercise nb n =
    (fst (Notebook.get_cell_loc nb n),
     Return (set_cells nb (Py.slice (cells nb) (fst (located nb n))
                             (snd (located nb n))))).
Proof.
  unfold Notebook.select_exercise. rewrite get_cell_loc_located.
  destruct (located nb n) as [a b]. simpl. now rewrite app_nil_r.
Qed.

Lemma map_M_get_cell_loc (nb : notebook) (ns : list Z) :
  map_M (Notebook.get_cell_loc nb) ns =
    (flat_map (fun n => fst (Notebook.get_cell_loc nb n)) ns,
     Return (map (located nb) ns)).
Proof.
  induction ns as [|n ns IH]; [reflexivity|].
  simpl. rewrite IH, get_cell_loc_located. simpl.
  now rewrite app_nil_r.
Qed.

Lemma sum_lists_from {A : Type} (ls : list (list A)) (acc : list A) :
  fold_left (fun acc l => acc ++ l) ls acc = acc ++ concat ls.
Proof.
  revert acc. induction ls as [|l ls IH]; intros acc; simpl.
  - now rewrite app_nil_r.
  - now rewrite IH, app_assoc.
Qed.

Lemma sum_lists_concat {A : Type} (ls : list (list A)) :
  Py.sum_lists ls = concat ls.
Proof. unfold Py.sum_lists. now rewrite sum_lists_from. Qed.

End ExtractionFacts.

(** C5: when the notebook's [get_cell_loc] returns a found start [a] before
    the end [b], the extraction of the one exercise prints what the locator
    printed and returns the notebook whose cells are exactly the cells at the
    indices [a] to [b - 1] of the notebook it was given, in order, with the
    document-level fields as they were. *)
Theorem single_extraction_is_located_slice (nb : notebook) (n a b : Z)
    (t : list event) :
  Notebook.get_cell_loc nb n = (t, Return (a, b)) ->
  a <> -1 -> a < b ->
  exists nb',
    Notebook.select_exercise nb n = (t, Return nb')
    /\ cells nb' = Py.slice (cells nb) a b
    /\ cells nb' = firstn (Z.to_nat (b - a)) (skipn (Z.to_nat a) (cells nb))
    /\ Py.len (cells nb') = b - a
    /\ (forall k : nat, Z.of_nat k < b - a ->
          nth_error (cells nb') k = nth_error (cells nb) (Z.to_nat a + k))
    /\ metadata nb' = metadata nb
    /\ nbformat nb' = nbformat nb
    /\ nbformat_minor nb' = nbformat_minor nb.
Proof.
  intros E Ha Hab.
  destruct (notebook_get_cell_loc_bounds nb n) as (t' & a' & b' & E' & Ba & Bb).
  rewrite E in E'. injection E' as <- <- <-.
  assert (R1 : 0 <= a <= b) by lia.
  assert (R2 : b <= Py.len (cells nb)) by lia.
  exists (set_cells nb (Py.slice (cells nb) a b)).
  split.
  { unfold Notebook.select_exercise. rewrite E. simpl. now rewrite app_nil_r. }
  simpl. split; [reflexivity|]. split; [apply slice_inside; assumption|].
  split; [apply slice_inside_length; assumption|].
  split; [|auto].
  intros k Hk. apply slice_inside_nth; assumption.
Qed.

Lemma single_extraction_is_located_slice_witness :
  exists nb',
    Notebook.select_exercise six_cell_nb 2 = ([], Return nb')
    /\ cells nb' = [md "## Exercise 2"; code "x = 1"; code "print(x)"].
Proof.
  destruct (single_extraction_is_located_slice six_cell_nb 2 1 4 [])
    as (nb' & H1 & H2 & _).
  - reflexivity.
  - lia.
  - lia.
  - exists nb'. split; [exact H1 | rewrite H2; reflexivity].
Defined.

(** C6: the extraction of a list of exercises returns, whatever the list, the
    notebook whose cells are the concatenation, in the order of the list, of
    the cells that the extraction of each single exercise returns from the
    same notebook; no cell is dropped when ranges overlap, so the cell count
    is the sum of the counts; the document-level fields are as they were. *)
Theorem multi_extraction_concatenates (nb : notebook) (ns : list Z) :
  exists nb',
    Notebook.select_exercises nb ns =
      (flat_map (fun n => fst (Notebook.select_exercise nb n)) ns, Return nb')
    /\ cells nb' =
         concat (map (fun n => extracted_cells (Notebook.select_exercise nb n)) ns)
    /\ length (cells nb') =
         list_sum (map (fun n => length (extracted_cells (Notebook.select_exercise nb n))) ns)
    /\ metadata nb' = metadata nb
    /\ nbformat nb' = nbformat nb
    /\ nbformat_minor nb' = nbformat_minor nb.
Proof.
  set (sl := fun n => extracted_cells (Notebook.select_exercise nb n)).
  assert (Hsl : forall n, sl n = Py.slice (cells nb) (fst (located nb n))
                                   (snd (located nb n))).
  { intros n. unfold sl, extracted_cells. now rewrite select_exercise_located. }
  assert (Hc : Py.sum_lists
                 (map (fun '(a, b) => Py.slice (cells nb) a b) (map (located nb) ns))
               = concat (map sl ns)).
  { rewrite sum_lists_concat, map_map. f_equal. apply map_ext.
    intros n. rewrite Hsl. destruct (located nb n); reflexivity. }
  eexists. split.
  { unfold Notebook.select_exercises. rewrite map_M_get_cell_loc. simpl.
    rewrite app_nil_r. f_equal.
    apply flat_map_ext. intros n. now rewrite select_exercise_located. }
  simpl. split; [exact Hc|]. split.
  { rewrite Hc. clear Hc Hsl. induction ns as [|n ns IH]; [reflexivity|].
    simpl. rewrite length_app, IH. reflexivity. }
  auto.
Qed.

(** The same for a list of two exercises, as the specification words it. *)
Corollary pair_extraction_appends (nb : notebook) (n m : Z) :
  extracted_cells (Notebook.select_exercises nb [n; m]) =
    extracted_cells (Notebook.select_exercise nb n)
    ++ extracted_cells (Notebook.select_exercise nb m).
Proof.
  unfold extracted_cells at 1. unfold Notebook.select_exercises.
  rewrite map_M_get_cell_loc. simpl.
  rewrite sum_lists_concat. simpl. rewrite app_nil_r.
  unfold extracted_cells. rewrite !select_exercise_located. simpl.
  destruct (located nb n), (located nb m). reflexivity.
Qed.


(** ** Pagination *)

Section PaginationFacts.

Context {A : Type}.

Lemma firstn_plus (l : list A) (i j : nat) :
  firstn (i + j) l = firstn i l ++ firstn j (skipn i l).
Proof.
  revert l. induction i as [|i IH]; intros l; [reflexivity|].
  destruct l as [|x l]; simpl.
  - now rewrite firstn_nil.
  - now rewrite IH.
Qed.

(** A slice that starts where a prefix stops extends the prefix. *)
Lemma slice_extends (l : list A) (lo hi : Z) :
  0 <= lo <= hi ->
  firstn (Z.to_nat lo) l ++ Py.slice l lo hi = firstn (Z.to_nat hi) l.
Proof.
  intros H. unfold Py.slice, Py.clamp.
  destruct (Z.ltb_spec lo 0); [lia|]. destruct (Z.ltb_spec hi 0); [lia|].
  assert (HL : Py.len l = Z.of_nat (length l)) by reflexivity.
  destruct (Z.le_gt_cases (Py.len l) lo) as [Hlo | Hlo].
  - replace (Z.to_nat (Z.min hi (Py.len l) - Z.min lo (Py.len l))) with 0%nat by lia.
    simpl. rewrite app_nil_r. rewrite !firstn_all2 by lia. reflexivity.
  - replace (Z.min lo (Py.len l)) with lo by lia.
    rewrite <- firstn_plus.
    destruct (Z.le_gt_cases hi (Py.len l)) as [Hhi | Hhi].
    + f_equal. lia.
    + rewrite !firstn_all2 by lia. reflexivity.
Qed.

Lemma pages_concat (l : list A) (p : Z) (m : nat) :
  0 < p ->
  concat (map (fun page => Py.slice l (p * page) (p * page + p))
            (map Z.of_nat (seq 0 m)))
  = firstn (Z.to_nat (p * Z.of_nat m)) l.
Proof.
  intros Hp. induction m as [|m IH].
  - rewrite Z.mul_0_r. reflexivity.
  - rewrite seq_S, !map_app, concat_app, IH. simpl.
    rewrite app_nil_r. rewrite slice_extends by nia.
    f_equal. lia.
Qed.

End PaginationFacts.

(** C7: for a positive page size [p], the pagination of [L] ids returns
    normally with [L // p + 1] pages; page [k] is keyed by [k] and holds
    [ids[k*p : k*p + p]]; the pages, one after the other in page order, give
    back the list of ids; and when [p] divides [L] the last page is empty. *)
Theorem pagination_partitions_ids (ids : list string) (p : Z) :
  0 < p ->
  exists pages,
    gid_pages ids p = Return pages
    /\ Py.len pages = Py.len ids / p + 1
    /\ (forall k, 0 <= k < Py.len ids / p + 1 ->
          nth_error pages (Z.to_nat k)
          = Some (k, Py.slice ids (k * p) (k * p + p)))
    /\ concat (map snd pages) = ids
    /\ (Py.len ids mod p = 0 ->
          nth_error pages (Z.to_nat (Py.len ids / p)) = Some (Py.len ids / p, [])).
Proof.
  intros Hp.
  assert (HL : 0 <= Py.len ids) by (unfold Py.len; lia).
  assert (Hq : 0 <= Py.len ids / p) by (apply Z.div_pos; lia).
  pose proof (Z.mul_succ_div_gt (Py.len ids) p Hp) as Hgt.
  set (mk := fun page => (page, Py.slice ids (p * page) (p * page + p))).
  assert (Hnth : forall k, 0 <= k < Py.len ids / p + 1 ->
            nth_error (map mk (Py.range (num_pages ids p))) (Z.to_nat k)
            = Some (k, Py.slice ids (k * p) (k * p + p))).
  { intros k Hk. unfold Py.range, num_pages.
    rewrite !nth_error_map, nth_error_seq.
    destruct (Nat.ltb_spec (Z.to_nat k) (Z.to_nat (Py.len ids / p + 1))); [|lia].
    simpl. unfold mk. rewrite Z2Nat.id by lia. now rewrite (Z.mul_comm p k). }
  exists (map mk (Py.range (num_pages ids p))).
  split.
  { unfold gid_pages. destruct (Z.eqb_spec p 0); [lia | reflexivity]. }
  split.
  { unfold Py.len at 1, Py.range, num_pages.
    rewrite !length_map, length_seq. lia. }
  split; [exact Hnth|]. split.
  - rewrite map_map. simpl. unfold Py.range.
    rewrite pages_concat by exact Hp.
    apply firstn_all2. unfold num_pages. unfold Py.len in *. lia.
  - intros Hmod. rewrite Hnth by lia. do 2 f_equal.
    apply slice_empty. unfold Py.clamp.
    assert (E : Py.len ids / p * p = Py.len ids).
    { pose proof (Z.div_mod (Py.len ids) p). lia. }
    rewrite E.
    destruct (Z.ltb_spec (Py.len ids + p) 0); [lia|].
    destruct (Z.ltb_spec (Py.len ids) 0); lia.
Qed.

Lemma pagination_partitions_ids_witness :
  exists pages,
    gid_pages ["s1"; "s2"; "s3"; "s4"] 2 = Return pages
    /\ Py.len pages = 3
    /\ concat (map snd pages) = ["s1"; "s2"; "s3"; "s4"].
Proof.
  destruct (pagination_partitions_ids ["s1"; "s2"; "s3"; "s4"] 2)
    as (pages & H1 & H2 & _ & H4 & _).
  - lia.
  - exists pages. split; [exact H1|]. split; [exact H2 | exact H4].
Defined.

(** ** The early stop against the full scan *)

(** C8, as the claim states it, fails: the two generations of [get_cell_loc]
    differ on a notebook whose exercise has no following heading (the
    notebook returns the cell count as end, the script returns -1), and on a
    notebook in which a cell after both boundaries matches again (the
    notebook has stopped, the script records the later cell). *)
Lemma early_stop_changes_result :
  snd (Notebook.get_cell_loc tail_exercise_nb 1) = Return (1, 3) /\
  snd (Script.get_cell_loc tail_exercise_nb 1) = Return (1, -1) /\
  snd (Notebook.get_cell_loc heading_after_end_nb 1) = Return (1, 2) /\
  snd (Script.get_cell_loc heading_after_end_nb 1) = Return (3, 2) /\
  ~ (forall nb n,
       snd (Notebook.get_cell_loc nb n) = snd (Script.get_cell_loc nb n)).
Proof.
  repeat split; try (vm_compute; reflexivity).
  intros H. specialize (H tail_exercise_nb 1). vm_compute in H. discriminate.
Qed.

(** C8, amended: on a notebook in which at most one cell is recorded as the
    start for [n] and at most one as its end, the loop with the early stop
    and the loop without it record the same pair; the pair that the notebook
    returns is the pair that the script returns, except that a found start
    with a missing end comes back with the cell count as end where the
    script returns -1. *)
Theorem early_stop_agrees_on_unique_headings (nb : notebook) (n a b : Z)
    (t : list event) :
  (length (filter (starts n) (cells nb)) <= 1)%nat ->
  (length (filter (ends n) (cells nb)) <= 1)%nat ->
  Script.get_cell_loc nb n = (t, Return (a, b)) ->
  Notebook.scan n 0 (cells nb) (-1, -1) = Script.scan n 0 (cells nb) (-1, -1)
  /\ exists t',
       Notebook.get_cell_loc nb n =
         (t', Return (if (a =? -1) || negb (b =? -1) then (a, b)
                      else (a, Py.len (cells nb)))).
Proof.
  intros Ua Ub E.
  assert (S : Notebook.scan n 0 (cells nb) (-1, -1)
              = Script.scan n 0 (cells nb) (-1, -1)).
  { apply scans_agree; try assumption; try lia; intros H; now contradiction H. }
  split; [exact S|].
  unfold Notebook.get_cell_loc. rewrite S.
  unfold Script.get_cell_loc in E.
  destruct (Script.scan n 0 (cells nb) (-1, -1)) as [a0 b0].
  assert (Ea : a0 = a /\ b0 = b).
  { destruct (a0 =? -1); [|destruct (b0 =? -1); [|destruct (a0 >=? b0)]];
      simpl in E; injection E as _ <- <-; auto. }
  destruct Ea as [-> ->].
  destruct (a =? -1); [|destruct (b =? -1); [|destruct (a >=? b)]];
    simpl; eexists; reflexivity.
Qed.

Lemma early_stop_agrees_on_unique_headings_witness :
  Notebook.scan 2 0 (cells six_cell_nb) (-1, -1)
  = Script.scan 2 0 (cells six_cell_nb) (-1, -1)
  /\ exists t', Notebook.get_cell_loc six_cell_nb 2 = (t', Return (1, 4)).
Proof.
  apply (early_stop_agrees_on_unique_headings six_cell_nb 2 1 4 []).
  - vm_compute. lia.
  - vm_compute. lia.
  - reflexivity.
Defined.

(** ** Page assembly *)

Section AssemblyFacts.

Variable lab_files : Py.dict string string.
Variable parser : lab_parser.
Variable fp : string.

Lemma write_gid_missing (gid : string) :
  Py.dict_get lab_files gid = None ->
  write_gid lab_files parser fp gid = ([Print (gid_warning gid)], Return tt).
Proof. intros H. unfold write_gid. rewrite H. reflexivity. Qed.

Lemma write_gid_present (gid lab body : string) (res : resources)
    (t : list event) :
  Py.dict_get lab_files gid = Some lab ->
  parser lab = (t, Return (Some (body, res))) ->
  write_gid lab_files parser fp gid =
    ([FileWrite fp (gid_heading gid)] ++ t ++ [FileWrite fp body], Return tt).
Proof.
  intros H P. unfold write_gid. rewrite H. unfold bind, emit. rewrite P.
  simpl. rewrite ?app_nil_r. reflexivity.
Qed.

Lemma for_each_cons {A : Type} (x : A) (l : list A) (body : A -> M unit)
    (t : list event) :
  body x = (t, Return tt) ->
  for_each (x :: l) body = (t ++ fst (for_each l body), snd (for_each l body)).
Proof.
  intros H. simpl. unfold bind. rewrite H.
  destruct (for_each l body). reflexivity.
Qed.

End AssemblyFacts.



(** The whole of [write_pages_to_files] on the missing-id scenario: one page
    file with the fragment of the one student, the warning for the other,
    the two style files, and a normal return. *)
Example missing_id_scenario :
  Notebook.write_pages_to_files scenario_reads scenario_render
    [("s1", "doc1")] [(0, ["s1"; "s2"])] (Notebook.ExInt 2) "1" "572" None
  = ([Print "Writing to ./:";
      FileOpen "./DSCI572_lab1_exercise2_page0.html" "a";
      FileWrite "./DSCI572_lab1_exercise2_page0.html" page_head;
      FileWrite "./DSCI572_lab1_exercise2_page0.html" (gid_heading "s1");
      FileWrite "./DSCI572_lab1_exercise2_page0.html" "<p>3 cells</p>";
      Print "gid s2 not found in lab_files.keys().";
      FileWrite "./DSCI572_lab1_exercise2_page0.html" "</body>";
      FileClose "./DSCI572_lab1_exercise2_page0.html";
      Print (Py.tab ^^ "DSCI572_lab1_exercise2_page0.html");
      Print EmptyString;
      FileOpen "./style0.css" "w";
      FileWrite "./style0.css" "body {}";
      FileClose "./style0.css";
      Print (Py.tab ^^ "style0.css");
      FileOpen "./style1.css" "w";
      FileWrite "./style1.css" "h1 {}";
      FileClose "./style1.css";
      Print (Py.tab ^^ "style1.css")],
     Return tt).
Proof. vm_compute. reflexivity. Qed.

(** ** Numerals that begin alike *)

(** C10: the heading test is an unanchored search: it holds exactly when the
    text holds, anywhere, a hash sign followed on the same line by the words
    [Exercise n], with nothing asked of what follows the numeral.  So a
    markdown cell that heads exercise [m] also heads every exercise [n] whose
    numeral begins the numeral of [m], and the loop body records its index as
    the start for [n]. *)
Theorem heading_numeral_prefix_collision (n m : Z) (c : cell) (i a b : Z) :
  String.prefix (Py.str n) (Py.str m) = true ->
  Spec.is_heading m c = true ->
  (forall s,
     Regex.search (pattern n) s = true <->
     exists pre mid post,
       s = pre ^^ "#" ^^ mid ^^ "Exercise " ^^ Py.str n ^^ post
       /\ Spec.one_line mid = true)
  /\ Spec.is_heading n c = true
  /\ scan_cell n i c (a, b) = (i, b).
Proof.
  intros Hp Hm. split; [intros s; apply search_pattern_spec|].
  assert (Hn : Spec.is_heading n c = true).
  { unfold Spec.is_heading in *. apply andb_true_iff in Hm as [Ht Hs].
    rewrite Ht. simpl. apply search_pattern_spec.
    apply search_pattern_spec in Hs as (pre & mid & post & E & Hmid).
    destruct (prefix_append _ _ Hp) as (r & Er).
    exists pre, mid, (r ^^ post). split; [|exact Hmid].
    rewrite E, Er. now rewrite append_assoc. }
  split; [exact Hn|].
  rewrite scan_cell_cases. unfold starts. now rewrite Hn.
Qed.

Lemma heading_numeral_prefix_collision_witness :
  Spec.is_heading 1 (md "## Exercise 10") = true
  /\ scan_cell 1 5 (md "## Exercise 10") (-1, -1) = (5, -1).
Proof.
  destruct (heading_numeral_prefix_collision 1 10 (md "## Exercise 10") 5 (-1) (-1))
    as (_ & H1 & H2).
  - reflexivity.
  - reflexivity.
  - split; [exact H1 | exact H2].
Defined.

(** In the script, which scans every cell, the heading of exercise 10 is the
    last cell recorded as the start of exercise 1. *)
Example exercise_ten_taken_for_exercise_one :
  Script.get_cell_loc
    (nb_of [md "## Exercise 1"; code "x = 1"; md "## Exercise 2"; code "y = 2";
            md "## Exercise 10"; code "z = 3"]) 1
  = ([Print "Error: get_cell_loc: something went wrong: a = 4, b = 2"],
     Return (4, 2)).
Proof. vm_compute. reflexivity. Qed.

(** * Further properties of the program *)

(** ** The scans, cell by cell *)

Section ScanShape.

Variable n : Z.

Lemma script_scan_app (l1 l2 : list cell) (i : Z) (ab : Z * Z) :
  Script.scan n i (l1 ++ l2) ab
  = Script.scan n (i + Py.len l1) l2 (Script.scan n i l1 ab).
Proof.
  revert i ab. induction l1 as [|c l1 IH]; intros i ab.
  - simpl. now rewrite Z.add_0_r.
  - change (Script.scan n i ((c :: l1) ++ l2) ab)
      with (Script.scan n (i + 1) (l1 ++ l2) (scan_cell n i c ab)).
    rewrite IH. unfold Py.len. simpl length. simpl Script.scan.
    f_equal. lia.
Qed.

Lemma last_of_later (p : cell -> bool) (i : Z) (c : cell) (cs : list cell)
    (x1 x0 x : Z) :
  last_of p (i + 1) cs x1 x ->
  ((p c = true /\ x1 = i) \/ (p c = false /\ x1 = x0)) ->
  last_of p i (c :: cs) x0 x.
Proof.
  intros [[E F] | (R & (c' & Hc & Hp) & F)] Hc0.
  - destruct Hc0 as [[Hp E1] | [Hp E1]]; subst x1 x.
    + right. split; [unfold Py.len; simpl length; lia|]. split.
      * exists c. rewrite Z.sub_diag. auto.
      * rewrite Z.sub_diag. exact F.
    + left. split; [reflexivity|]. simpl. now rewrite Hp.
  - right. split; [unfold Py.len in *; simpl length; lia|].
    replace (Z.to_nat (x - i)) with (S (Z.to_nat (x - (i + 1)))) by lia.
    split; [exists c'; auto | exact F].
Qed.

Lemma script_scan_last (cs : list cell) (i a0 b0 : Z) :
  last_of (starts n) i cs a0 (fst (Script.scan n i cs (a0, b0))) /\
  last_of (ends n) i cs b0 (snd (Script.scan n i cs (a0, b0))).
Proof.
  revert i a0 b0. induction cs as [|c cs IH]; intros i a0 b0.
  - split; left; auto.
  - simpl Script.scan. rewrite scan_cell_cases.
    assert (Excl : starts n c = true -> ends n c = false).
    { unfold starts, ends. intros ->. reflexivity. }
    destruct (starts n c) eqn:Es; [|destruct (ends n c) eqn:Ee].
    + destruct (IH (i + 1) i b0) as [Ha Hb]. split.
      * eapply last_of_later; [exact Ha | left; auto].
      * eapply last_of_later; [exact Hb | right; auto].
    + destruct (IH (i + 1) a0 i) as [Ha Hb]. split.
      * eapply last_of_later; [exact Ha | right; auto].
      * eapply last_of_later; [exact Hb | left; auto].
    + destruct (IH (i + 1) a0 b0) as [Ha Hb]. split.
      * eapply last_of_later; [exact Ha | right; auto].
      * eapply last_of_later; [exact Hb | right; auto].
Qed.

(** While the start stays at -1 or 0, the early stop never fires. *)
Lemma notebook_scan_low_start (cs : list cell) (i a b : Z) :
  a <= 0 -> filter (starts n) cs = [] ->
  Notebook.scan n i cs (a, b) = Script.scan n i cs (a, b).
Proof.
  revert i a b. induction cs as [|c cs IH]; intros i a b Ha F; [reflexivity|].
  simpl in *. rewrite scan_cell_cases.
  destruct (starts n c); [discriminate|].
  assert (Hlow : (a >? 0) = false) by (destruct (Z.gtb_spec a 0); [lia | reflexivity]).
  destruct (ends n c); rewrite Hlow; simpl; apply IH; assumption.
Qed.

End ScanShape.

(** ** What the two locators return, beyond the claims *)

Section LocatorShape.

Lemma last_of_from_start (p : cell -> bool) (cs : list cell) (x : Z) :
  last_of p 0 cs (-1) x ->
  (x = -1 /\ filter p cs = []) \/
  (0 <= x < Py.len cs
   /\ (exists c, nth_error cs (Z.to_nat x) = Some c /\ p c = true)
   /\ filter p (skipn (S (Z.to_nat x)) cs) = []).
Proof.
  intros [H | (R & Hc & F)]; [left; exact H | right].
  rewrite Z.sub_0_r in Hc, F. split; [lia | auto].
Qed.

Lemma script_get_cell_loc_value (nb : notebook) (n : Z) :
  exists t,
    Script.get_cell_loc nb n
    = (t, Return (Script.scan n 0 (cells nb) (-1, -1))).
Proof.
  unfold Script.get_cell_loc.
  destruct (Script.scan n 0 (cells nb) (-1, -1)) as [a b].
  destruct (a =? -1); [|destruct (b =? -1); [|destruct (a >=? b)]];
    simpl; eexists; reflexivity.
Qed.

Lemma filter_passed_over (n : Z) (l : list cell) :
  forallb (passed_over n) l = true ->
  filter (starts n) l = [] /\ filter (ends n) l = [].
Proof.
  intros H. rewrite forallb_forall in H.
  split; apply filter_none; intros c Hc; specialize (H c Hc);
    unfold passed_over in H; apply andb_true_iff in H as [H1 H2];
    rewrite negb_true_iff in H1, H2; assumption.
Qed.

End LocatorShape.

(** X1: the script's [get_cell_loc] returns as start the index of the last
    cell that matches the heading pattern for [n], and as end the index of
    the last cell that matches the pattern for [n + 1] without matching the
    one for [n]; a boundary is -1 exactly when no such cell exists. *)
Theorem script_returns_last_matches (nb : notebook) (n : Z) :
  exists t a b,
    Script.get_cell_loc nb n = (t, Return (a, b))
    /\ ((a = -1 /\ filter (starts n) (cells nb) = []) \/
        (0 <= a < Py.len (cells nb)
         /\ (exists c, nth_error (cells nb) (Z.to_nat a) = Some c
                       /\ starts n c = true)
         /\ filter (starts n) (skipn (S (Z.to_nat a)) (cells nb)) = []))
    /\ ((b = -1 /\ filter (ends n) (cells nb) = []) \/
        (0 <= b < Py.len (cells nb)
         /\ (exists c, nth_error (cells nb) (Z.to_nat b) = Some c
                       /\ ends n c = true)
         /\ filter (ends n) (skipn (S (Z.to_nat b)) (cells nb)) = [])).
Proof.
  destruct (script_get_cell_loc_value nb n) as (t & E).
  destruct (script_scan_last n (cells nb) 0 (-1) (-1)) as [Ha Hb].
  destruct (Script.scan n 0 (cells nb) (-1, -1)) as [a b]. simpl in Ha, Hb.
  exists t, a, b. split; [exact E|].
  split; apply last_of_from_start; assumption.
Qed.

(** X2: the early stop asks for a start greater than 0.  When the first cell
    of the notebook is the heading of exercise [n] and no later cell matches
    it, the stop never fires: the notebook's [get_cell_loc] returns 0 as
    start and, as end, the last cell recorded as end (or the cell count when
    there is none), not the first. *)
Theorem heading_in_first_cell_disables_early_stop (nb : notebook) (n : Z)
    (c0 : cell) (rest : list cell) :
  cells nb = c0 :: rest ->
  starts n c0 = true ->
  (forall c, In c rest -> starts n c = false) ->
  Notebook.scan n 0 (cells nb) (-1, -1) = Script.scan n 0 (cells nb) (-1, -1)
  /\ exists t b,
       Notebook.get_cell_loc nb n = (t, Return (0, b))
       /\ ((b = Py.len (cells nb) /\ filter (ends n) (cells nb) = []) \/
           (0 < b < Py.len (cells nb)
            /\ (exists c, nth_error (cells nb) (Z.to_nat b) = Some c
                          /\ ends n c = true)
            /\ filter (ends n) (skipn (S (Z.to_nat b)) (cells nb)) = [])).
Proof.
  intros Ec Hs Hrest.
  assert (Fr : filter (starts n) rest = []) by (apply filter_none; exact Hrest).
  assert (He0 : ends n c0 = false) by (unfold starts, ends in *; now rewrite Hs).
  assert (S : Notebook.scan n 0 (cells nb) (-1, -1)
              = Script.scan n 0 (cells nb) (-1, -1)).
  { rewrite Ec. simpl. rewrite scan_cell_cases, Hs. simpl.
    apply notebook_scan_low_start; [lia | exact Fr]. }
  split; [exact S|].
  unfold Notebook.get_cell_loc. rewrite S.
  destruct (script_scan_last n (cells nb) 0 (-1) (-1)) as [_ Hb].
  apply last_of_from_start in Hb.
  assert (Ha : fst (Script.scan n 0 (cells nb) (-1, -1)) = 0).
  { rewrite Ec. simpl. rewrite scan_cell_cases, Hs.
    apply script_scan_fst_idle. exact Fr. }
  destruct (Script.scan n 0 (cells nb) (-1, -1)) as [a b]. simpl in Ha, Hb.
  subst a. simpl.
  destruct Hb as [[-> F] | (R & Hc & F)].
  - simpl. do 2 eexists. split; [reflexivity|]. left. auto.
  - destruct (Z.eqb_spec b (-1)); [lia|].
    assert (Hb0 : b <> 0).
    { intros ->. destruct Hc as (c & Hc & Hp). rewrite Ec in Hc. simpl in Hc.
      injection Hc as <-. congruence. }
    destruct (Z.geb_spec 0 b); [lia|]. simpl.
    do 2 eexists. split; [reflexivity|]. right. split; [lia | auto].
Qed.

Lemma heading_in_first_cell_disables_early_stop_witness :
  exists t, Notebook.get_cell_loc
              (nb_of [md "## Exercise 1"; md "## Exercise 2"; code "x = 1";
                      md "### Exercise 2, second part"]) 1
            = (t, Return (0, 3)).
Proof.
  destruct (heading_in_first_cell_disables_early_stop
              (nb_of [md "## Exercise 1"; md "## Exercise 2"; code "x = 1";
                      md "### Exercise 2, second part"]) 1
              (md "## Exercise 1")
              [md "## Exercise 2"; code "x = 1"; md "### Exercise 2, second part"])
    as (_ & t & b & H & _).
  - reflexivity.
  - reflexivity.
  - intros c [<- | [<- | [<- | []]]]; reflexivity.
  - exists t. rewrite H. vm_compute in H. injection H as _ <-. reflexivity.
Defined.

(** X3: when the notebook's [get_cell_loc] returns without printing, the
    pair it returns is a proper range of the notebook: the start is the index
    of a cell that matches the heading pattern for [n], the end is the index
    of a cell that matches the pattern for [n + 1] and not the one for [n],
    and the start is before the end. *)
Theorem silent_return_is_a_proper_range (nb : notebook) (n a b : Z) :
  Notebook.get_cell_loc nb n = ([], Return (a, b)) ->
  0 <= a < b /\ b < Py.len (cells nb)
  /\ (exists c, nth_error (cells nb) (Z.to_nat a) = Some c /\ starts n c = true)
  /\ (exists c, nth_error (cells nb) (Z.to_nat b) = Some c /\ ends n c = true).
Proof.
  intros E. unfold Notebook.get_cell_loc in E.
  destruct (notebook_scan_recorded n (cells nb) 0 (-1) (-1)) as [Ra Rb].
  apply recorded_from_start in Ra, Rb.
  destruct (Notebook.scan n 0 (cells nb) (-1, -1)) as [a0 b0]. simpl in Ra, Rb.
  destruct (Z.eqb_spec a0 (-1)); [simpl in E; discriminate|].
  destruct (Z.eqb_spec b0 (-1)); [simpl in E; discriminate|].
  destruct (Z.geb_spec a0 b0); [simpl in E; discriminate|].
  simpl in E. injection E as <- <-.
  destruct Ra as [? | (Ra & Ca)]; [lia|].
  destruct Rb as [? | (Rb & Cb)]; [lia|].
  repeat split; try lia; assumption.
Qed.

Lemma silent_return_is_a_proper_range_witness :
  0 <= 1 < 4 /\ 4 < Py.len (cells six_cell_nb)
  /\ (exists c, nth_error (cells six_cell_nb) (Z.to_nat 1) = Some c
                /\ starts 2 c = true)
  /\ (exists c, nth_error (cells six_cell_nb) (Z.to_nat 4) = Some c
                /\ ends 2 c = true).
Proof.
  apply (silent_return_is_a_proper_range six_cell_nb 2 1 4). reflexivity.
Defined.

(** X4: the intended use.  In a notebook with exactly one heading cell for
    [n], one later cell recorded as end, and only cells that the loop passes
    over around them, both locators return, without printing, the index of
    the heading and the index of the end cell, and the notebook's extraction
    returns the heading cell followed by the cells up to the end cell. *)
Theorem unique_headings_are_located (nb : notebook) (n : Z)
    (pre mid post : list cell) (h1 h2 : cell) :
  cells nb = pre ++ h1 :: mid ++ h2 :: post ->
  starts n h1 = true -> ends n h2 = true ->
  forallb (passed_over n) pre = true ->
  forallb (passed_over n) mid = true ->
  forallb (passed_over n) post = true ->
  Script.get_cell_loc nb n
  = ([], Return (Py.len pre, Py.len pre + 1 + Py.len mid))
  /\ Notebook.get_cell_loc nb n
     = ([], Return (Py.len pre, Py.len pre + 1 + Py.len mid))
  /\ Notebook.select_exercise nb n = ([], Return (set_cells nb (h1 :: mid))).
Proof.
  intros Ec Hs He Hpre Hmid Hpost.
  destruct (filter_passed_over n pre Hpre) as [Fs1 Fe1].
  destruct (filter_passed_over n mid Hmid) as [Fs2 Fe2].
  destruct (filter_passed_over n post Hpost) as [Fs3 Fe3].
  assert (He1 : ends n h1 = false) by (unfold starts, ends in *; now rewrite Hs).
  assert (Hs2 : starts n h2 = false).
  { unfold starts, ends in *. destruct (Spec.is_heading n h2); [discriminate | reflexivity]. }
  set (i := Py.len pre). set (j := Py.len pre + 1 + Py.len mid).
  assert (Hi : 0 <= i) by (unfold i, Py.len; lia).
  assert (Hj : i < j) by (unfold i, j, Py.len; lia).
  assert (Sc : Script.scan n 0 (cells nb) (-1, -1) = (i, j)).
  { rewrite Ec, script_scan_app, script_scan_idle by assumption.
    simpl Script.scan. rewrite scan_cell_cases, Hs.
    rewrite script_scan_app, script_scan_idle by assumption.
    simpl Script.scan. rewrite scan_cell_cases, Hs2, He.
    rewrite script_scan_idle by assumption. f_equal; unfold j, i; lia. }
  assert (Nc : Notebook.scan n 0 (cells nb) (-1, -1) = (i, j)).
  { rewrite <- Sc. apply scans_agree; try (intros H; now contradiction H).
    - rewrite Ec, filter_app. simpl. rewrite Hs, filter_app. simpl.
      rewrite Hs2, Fs1, Fs2, Fs3. simpl. lia.
    - rewrite Ec, filter_app. simpl. rewrite He1, filter_app. simpl.
      rewrite He, Fe1, Fe2, Fe3. simpl. lia. }
  assert (Ei : (i =? -1) = false) by (apply Z.eqb_neq; lia).
  assert (Ej : (j =? -1) = false) by (apply Z.eqb_neq; lia).
  assert (Eij : (i >=? j) = false) by (destruct (Z.geb_spec i j); [lia | reflexivity]).
  assert (G1 : Script.get_cell_loc nb n = ([], Return (i, j))).
  { unfold Script.get_cell_loc. rewrite Sc, Ei, Ej, Eij. reflexivity. }
  assert (G2 : Notebook.get_cell_loc nb n = ([], Return (i, j))).
  { unfold Notebook.get_cell_loc. rewrite Nc, Ei, Ej, Eij. reflexivity. }
  split; [exact G1|]. split; [exact G2|].
  unfold Notebook.select_exercise. rewrite G2. simpl. do 3 f_equal.
  rewrite slice_inside.
  - rewrite Ec. unfold i, j, Py.len.
    rewrite Nat2Z.id, skipn_app, skipn_all, Nat.sub_diag. simpl.
    f_equal. replace (Z.to_nat _) with (S (length mid)) by lia. simpl.
    f_equal. rewrite firstn_app, firstn_all, Nat.sub_diag. simpl.
    apply app_nil_r.
  - lia.
  - rewrite Ec. unfold i, j, Py.len. rewrite length_app. simpl length.
    rewrite length_app. simpl length. lia.
Qed.

Lemma unique_headings_are_located_witness :
  Notebook.select_exercise six_cell_nb 2
  = ([], Return (set_cells six_cell_nb
                   [md "## Exercise 2"; code "x = 1"; code "print(x)"])).
Proof.
  apply (unique_headings_are_located six_cell_nb 2
           [code "import numpy as np"] [code "x = 1"; code "print(x)"]
           [code "y = 2"] (md "## Exercise 2") (md "## Exercise 3"));
    reflexivity.
Defined.

(** X5: in the script, the last exercise of a notebook loses its last cell.
    When a cell matches the heading pattern for [n] and no cell is recorded
    as end, the script's [get_cell_loc] returns -1 as end, and the extraction
    slices up to -1: it returns the cells from the start to the end of the
    notebook without the last one. *)
Theorem script_tail_exercise_drops_last_cell (nb : notebook) (n : Z) :
  filter (starts n) (cells nb) <> [] ->
  filter (ends n) (cells nb) = [] ->
  exists a,
    0 <= a < Py.len (cells nb)
    /\ Script.get_cell_loc nb n
       = ([Print "Error: get_cell_loc: b not found."], Return (a, -1))
    /\ Script.select_exercise nb n
       = ([Print "Error: get_cell_loc: b not found."],
          Return (set_cells nb (removelast (skipn (Z.to_nat a) (cells nb)))))
    /\ Py.len (removelast (skipn (Z.to_nat a) (cells nb)))
       = Py.len (cells nb) - a - 1.
Proof.
  intros Fs Fe.
  pose proof (script_scan_start_found n (cells nb) 0 (-1) (-1) Fs) as Hs.
  pose proof (script_scan_snd_idle n (cells nb) 0 (-1) (-1) Fe) as Hb.
  assert (G : exists a, 0 <= a < Py.len (cells nb)
                /\ Script.get_cell_loc nb n
                   = ([Print "Error: get_cell_loc: b not found."], Return (a, -1))).
  { unfold Script.get_cell_loc.
    destruct (Script.scan n 0 (cells nb) (-1, -1)) as [a b].
    simpl in Hs, Hb. subst b. destruct Hs as (R & _).
    exists a. split; [lia|].
    destruct (Z.eqb_spec a (-1)); [lia | reflexivity]. }
  destruct G as (a & R & E). exists a.
  assert (Sl : Py.slice (cells nb) a (-1)
               = removelast (skipn (Z.to_nat a) (cells nb))).
  { unfold Py.slice, Py.clamp.
    destruct (Z.ltb_spec a 0); [lia|]. change (-1 <? 0) with true. cbv iota.
    replace (Z.min a (Py.len (cells nb))) with a by lia.
    replace (Z.max (-1 + Py.len (cells nb)) 0) with (Py.len (cells nb) - 1) by lia.
    rewrite removelast_firstn_len, length_skipn. f_equal.
    unfold Py.len in *. lia. }
  split; [exact R|]. split; [exact E|]. split.
  - unfold Script.select_exercise. rewrite E. simpl. now rewrite Sl.
  - rewrite removelast_firstn_len. unfold Py.len in *.
    rewrite length_firstn, length_skipn. lia.
Qed.

Lemma script_tail_exercise_drops_last_cell_witness :
  exists a,
    Script.select_exercise tail_exercise_nb 1
    = ([Print "Error: get_cell_loc: b not found."],
       Return (set_cells tail_exercise_nb
                 (removelast (skipn (Z.to_nat a) (cells tail_exercise_nb))))).
Proof.
  destruct (script_tail_exercise_drops_last_cell tail_exercise_nb 1)
    as (a & _ & _ & H & _).
  - vm_compute. discriminate.
  - reflexivity.
  - exists a. exact H.
Defined.

(** ** Page sizes *)

Section PageSizes.

Context {A : Type}.

Lemma slice_length (l : list A) (lo hi : Z) :
  0 <= lo <= hi ->
  Py.len (Py.slice l lo hi) = Z.min hi (Py.len l) - Z.min lo (Py.len l).
Proof.
  intros H. unfold Py.slice, Py.clamp.
  destruct (Z.ltb_spec lo 0); [lia|]. destruct (Z.ltb_spec hi 0); [lia|].
  unfold Py.len. rewrite length_firstn, length_skipn. lia.
Qed.

End PageSizes.

Lemma gid_pages_nth (ids : list string) (p k : Z) :
  p <> 0 -> 0 <= k < num_pages ids p ->
  exists pages,
    gid_pages ids p = Return pages
    /\ nth_error pages (Z.to_nat k) = Some (k, Py.slice ids (p * k) (p * k + p)).
Proof.
  intros Hp Hk. unfold gid_pages. destruct (Z.eqb_spec p 0); [contradiction|].
  eexists. split; [reflexivity|].
  unfold Py.range. rewrite !nth_error_map, nth_error_seq.
  destruct (Nat.ltb_spec (Z.to_nat k) (Z.to_nat (num_pages ids p))); [|lia].
  simpl. now rewrite Z2Nat.id by lia.
Qed.

(** X6: for a positive page size [p] and [L] ids, every page before the last
    holds exactly [p] ids and the last page, number [L // p], holds the
    [L mod p] ids that are left; no page holds more than [p] ids. *)
Theorem page_sizes (ids : list string) (p : Z) :
  0 < p ->
  exists pages,
    gid_pages ids p = Return pages
    /\ (forall k, 0 <= k < Py.len ids / p ->
          exists page, nth_error pages (Z.to_nat k) = Some (k, page)
                       /\ Py.len page = p)
    /\ (exists page,
          nth_error pages (Z.to_nat (Py.len ids / p)) = Some (Py.len ids / p, page)
          /\ Py.len page = Py.len ids mod p)
    /\ Forall (fun kp => Py.len (snd kp) <= p) pages.
Proof.
  intros Hp.
  assert (HL : 0 <= Py.len ids) by (unfold Py.len; lia).
  assert (Hq : 0 <= Py.len ids / p) by (apply Z.div_pos; lia).
  pose proof (Z.div_mod (Py.len ids) p ltac:(lia)) as Hdm.
  pose proof (Z.mod_pos_bound (Py.len ids) p Hp) as Hmod.
  destruct (gid_pages_nth ids p 0) as (pages & E & _);
    [lia | unfold num_pages; lia |].
  exists pages. split; [exact E|].
  assert (Hnth : forall k, 0 <= k < Py.len ids / p + 1 ->
            nth_error pages (Z.to_nat k)
            = Some (k, Py.slice ids (p * k) (p * k + p))).
  { intros k Hk. destruct (gid_pages_nth ids p k) as (pages' & E' & Hn);
      [lia | unfold num_pages; lia |].
    rewrite E in E'. injection E' as <-. exact Hn. }
  split; [|split].
  - intros k Hk. eexists. split; [apply Hnth; lia|].
    rewrite slice_length by nia. nia.
  - eexists. split; [apply Hnth; lia|].
    rewrite slice_length by nia. nia.
  - unfold gid_pages in E. destruct (Z.eqb_spec p 0); [lia|].
    injection E as <-. apply Forall_forall. intros [k page] Hin.
    apply in_map_iff in Hin as (k' & Ek & Hin). injection Ek as <- <-.
    unfold Py.range in Hin. apply in_map_iff in Hin as (m & <- & _).
    simpl. rewrite slice_length by nia. lia.
Qed.

Lemma page_sizes_witness :
  exists pages,
    gid_pages ["s1"; "s2"; "s3"; "s4"; "s5"] 2 = Return pages
    /\ exists page, nth_error pages (Z.to_nat 2) = Some (2, page)
                    /\ Py.len page = 1.
Proof.
  destruct (page_sizes ["s1"; "s2"; "s3"; "s4"; "s5"] 2)
    as (pages & H1 & _ & H3 & _).
  - lia.
  - exists pages. split; [exact H1 | exact H3].
Defined.

(** X7: a negative page size is not refused: with at least one id, the
    number of pages is zero or less, and the pagination returns no page at
    all, so every id is left out. *)
Theorem negative_page_size_gives_no_page (ids : list string) (p : Z) :
  p < 0 -> ids <> [] ->
  num_pages ids p <= 0 /\ gid_pages ids p = Return [].
Proof.
  intros Hp Hne.
  assert (HL : 0 < Py.len ids).
  { unfold Py.len. destruct ids; [contradiction | simpl length; lia]. }
  assert (Hn : num_pages ids p <= 0).
  { unfold num_pages.
    pose proof (Z.div_mod (Py.len ids) p ltac:(lia)) as Hdm.
    pose proof (Z.mod_neg_bound (Py.len ids) p Hp) as Hmod. nia. }
  split; [exact Hn|].
  unfold gid_pages. destruct (Z.eqb_spec p 0); [lia|].
  unfold Py.range. replace (Z.to_nat (num_pages ids p)) with 0%nat by lia.
  reflexivity.
Qed.

Lemma negative_page_size_gives_no_page_witness :
  gid_pages ["s1"; "s2"; "s3"] (-2) = Return [].
Proof.
  apply (negative_page_size_gives_no_page ["s1"; "s2"; "s3"] (-2)).
  - lia.
  - discriminate.
Defined.

(** ** A whole run of [write_pages_to_files] *)

Section LoopFacts.

Context {A : Type}.

Lemma bind_return {B : Type} (v : A) (f : A -> M B) :
  bind ([], Return v) f = f v.
Proof. unfold bind. destruct (f v). reflexivity. Qed.

Lemma for_each_all_return (l : list A) (body : A -> M unit)
    (tr : A -> list event) :
  (forall x, In x l -> body x = (tr x, Return tt)) ->
  for_each l body = (flat_map tr l, Return tt).
Proof.
  induction l as [|x l IH]; intros H; [reflexivity|].
  rewrite (for_each_cons x l body (tr x)) by (apply H; left; reflexivity).
  rewrite IH by (intros y Hy; apply H; right; exact Hy). reflexivity.
Qed.

Lemma for_each_first_raise (pre rest : list A) (x : A) (body : A -> M unit)
    (tr : A -> list event) (t : list event) (e : exception) :
  (forall y, In y pre -> body y = (tr y, Return tt)) ->
  body x = (t, Raise e) ->
  for_each (pre ++ x :: rest) body = (flat_map tr pre ++ t, Raise e).
Proof.
  induction pre as [|y pre IH]; intros H Hx.
  - simpl. unfold bind. rewrite Hx. reflexivity.
  - change ((y :: pre) ++ x :: rest) with (y :: (pre ++ x :: rest)).
    rewrite (for_each_cons y _ body (tr y)) by (apply H; left; reflexivity).
    rewrite IH by (try (intros z Hz; apply H; right; exact Hz); exact Hx).
    simpl. now rewrite app_assoc.
Qed.

End LoopFacts.

Section RunFacts.

Variable nbformat_reads : string -> completion notebook.
Variable from_notebook_node : notebook -> completion (string * resources).

Lemma choose_parser_accepted (ex : Notebook.exercise_arg) :
  accepted ex = true ->
  Notebook.choose_parser nbformat_reads from_notebook_node ex
  = ([], Return (selection_str ex,
                 selection_parser nbformat_reads from_notebook_node ex)).
Proof.
  destruct ex as [n | l]; simpl; intros H; [reflexivity|].
  rewrite H. reflexivity.
Qed.

Lemma dict_get_in_values (d : Py.dict string string) (k v : string) :
  Py.dict_get d k = Some v -> In v (Py.dict_values d).
Proof.
  induction d as [|[k' v'] d IH]; simpl; [discriminate|].
  destruct (String.eqb k k').
  - intros H. injection H as ->. left. reflexivity.
  - intros H. right. apply IH. exact H.
Qed.

Lemma write_gid_returns (lab_files : Py.dict string string) (parser : lab_parser)
    (fp gid : string) :
  (forall lab, Py.dict_get lab_files gid = Some lab ->
     exists t body res, parser lab = (t, Return (Some (body, res)))) ->
  write_gid lab_files parser fp gid
  = (gid_trace lab_files parser fp gid, Return tt).
Proof.
  intros Hok. unfold gid_trace.
  destruct (Py.dict_get lab_files gid) as [lab|] eqn:E.
  - destruct (Hok lab eq_refl) as (t & body & res & P).
    rewrite (write_gid_present lab_files parser fp gid lab body res t E P).
    unfold rendered_body. rewrite P. reflexivity.
  - apply write_gid_missing. exact E.
Qed.

Lemma page_body_returns (lab_files : Py.dict string string) (parser : lab_parser)
    (save_dir fname_html : string) (kp : Z * list string) :
  (forall gid lab, In gid (snd kp) -> Py.dict_get lab_files gid = Some lab ->
     exists t body res, parser lab = (t, Return (Some (body, res)))) ->
  page_body lab_files parser save_dir fname_html kp
  = (page_trace lab_files parser save_dir (page_file_name fname_html) kp,
     Return tt).
Proof.
  destruct kp as [k page]. intros Hok. unfold page_body, page_trace.
  cbv zeta. unfold bind at 1 2. unfold emit at 1 2. cbv beta iota.
  rewrite (for_each_all_return page _
             (gid_trace lab_files parser (save_dir ^^ page_file_name fname_html k)))
    by (intros gid Hin; apply write_gid_returns; intros lab; apply (Hok gid lab Hin)).
  simpl. reflexivity.
Qed.

Lemma page_body_raises (lab_files : Py.dict string string) (parser : lab_parser)
    (save_dir fname_html : string) (k : Z) (pre rest : list string)
    (gid lab : string) (t : list event) (e : exception) :
  (forall g l, In g pre -> Py.dict_get lab_files g = Some l ->
     exists t body res, parser l = (t, Return (Some (body, res)))) ->
  Py.dict_get lab_files gid = Some lab ->
  parser lab = (t, Raise e) ->
  page_body lab_files parser save_dir fname_html (k, pre ++ gid :: rest)
  = ([FileOpen (save_dir ^^ page_file_name fname_html k) "a";
      FileWrite (save_dir ^^ page_file_name fname_html k) page_head]
     ++ flat_map (gid_trace lab_files parser
                    (save_dir ^^ page_file_name fname_html k)) pre
     ++ [FileWrite (save_dir ^^ page_file_name fname_html k) (gid_heading gid)]
     ++ t,
     Raise e).
Proof.
  intros Hok Eg P. unfold page_body.
  cbv zeta. unfold bind at 1 2. unfold emit at 1 2. cbv beta iota.
  rewrite (for_each_first_raise pre rest gid _
             (gid_trace lab_files parser (save_dir ^^ page_file_name fname_html k))
             (FileWrite (save_dir ^^ page_file_name fname_html k) (gid_heading gid) :: t) e).
  - simpl. reflexivity.
  - intros g Hin. apply write_gid_returns. intros l. apply (Hok g l Hin).
  - unfold write_gid. rewrite Eg. unfold bind, emit. rewrite P. reflexivity.
Qed.

Lemma style_loop_returns (save_dir : string) (l : list (Z * string)) :
  for_each l (fun '(i, css_lines) =>
    let name := "style" ^^ Py.str i ^^ ".css" in
    emit (FileOpen (save_dir ^^ name) "w") ;;
    emit (FileWrite (save_dir ^^ name) css_lines) ;;
    emit (FileClose (save_dir ^^ name)) ;;
    print (Py.tab ^^ name))
  = (flat_map (style_trace save_dir) l, Return tt).
Proof.
  apply for_each_all_return. intros [i css] _. reflexivity.
Qed.

(** [write_pages_to_files], with the loop over the pages named. *)
Lemma write_pages_to_files_unfold (lab_files : Py.dict string string)
    (gid_pages : Py.dict Z (list string)) (ex : Notebook.exercise_arg)
    (lab_num course_num : string) (save_dir : option string) :
  accepted ex = true ->
  Notebook.write_pages_to_files nbformat_reads from_notebook_node lab_files
    gid_pages ex lab_num course_num save_dir
  = (let parser := selection_parser nbformat_reads from_notebook_node ex in
     let fname_html :=
       "DSCI" ^^ course_num ^^ "_lab" ^^ lab_num ^^ "_exercise" ^^ selection_str ex in
     print ("Writing to " ^^ dir_of save_dir ^^ ":") ;;
     for_each gid_pages (page_body lab_files parser (dir_of save_dir) fname_html) ;;
     r <- first_value lab_files parser ;;
     ' (_, resources) <- unpack_pair r ;;
     print EmptyString ;;
     for_each (Py.enumerate (inlining_css resources)) (fun '(i, css_lines) =>
       let name := "style" ^^ Py.str i ^^ ".css" in
       emit (FileOpen (dir_of save_dir ^^ name) "w") ;;
       emit (FileWrite (dir_of save_dir ^^ name) css_lines) ;;
       emit (FileClose (dir_of save_dir ^^ name)) ;;
       print (Py.tab ^^ name))).
Proof.
  intros H. unfold Notebook.write_pages_to_files.
  rewrite (choose_parser_accepted ex H), bind_return. reflexivity.
Qed.

End RunFacts.

Section BindFacts.

Context {A B : Type}.

Lemma bind_returned (m : M A) (f : A -> M B) (t : list event) (v : A) :
  m = (t, Return v) -> bind m f = (t ++ fst (f v), snd (f v)).
Proof. intros ->. unfold bind. destruct (f v). reflexivity. Qed.

Lemma bind_raised (m : M A) (f : A -> M B) (t : list event) (e : exception) :
  m = (t, Raise e) -> bind m f = (t, Raise e).
Proof. intros ->. reflexivity. Qed.

End BindFacts.

(** X8: a whole run of the notebook's [write_pages_to_files] on an accepted
    selection, when there is at least one lab file and every lab file
    renders.  The run returns normally and its trace is: the line that names
    the directory; for every page in order, the page file opened for
    appending, the head, what each id of the page adds, the closing of the
    body, the close of the file and its printed name; then what the rendering
    of the first lab file prints, an empty line, and for every style
    fragment of that rendering, in order, a style file opened for writing,
    the fragment, the close and the printed name. *)
Theorem run_trace_when_all_labs_render
    (nbformat_reads : string -> completion notebook)
    (from_notebook_node : notebook -> completion (string * resources))
    (lab_files : Py.dict string string) (gid_pages : Py.dict Z (list string))
    (ex : Notebook.exercise_arg) (lab_num course_num : string)
    (save_dir : option string) (g0 lab0 : string) (more : Py.dict string string) :
  accepted ex = true ->
  lab_files = (g0, lab0) :: more ->
  (forall lab, In lab (Py.dict_values lab_files) ->
     exists t body res,
       selection_parser nbformat_reads from_notebook_node ex lab
       = (t, Return (Some (body, res)))) ->
  let parser := selection_parser nbformat_reads from_notebook_node ex in
  Notebook.write_pages_to_files nbformat_reads from_notebook_node lab_files
    gid_pages ex lab_num course_num save_dir
  = ([Print ("Writing to " ^^ dir_of save_dir ^^ ":")]
     ++ flat_map (page_trace lab_files parser (dir_of save_dir)
                    (page_name course_num lab_num ex)) gid_pages
     ++ fst (parser lab0)
     ++ [Print EmptyString]
     ++ flat_map (style_trace (dir_of save_dir))
          (Py.enumerate (rendered_css (parser lab0))),
     Return tt).
Proof.
  intros Hacc El Hok parser.
  rewrite write_pages_to_files_unfold by exact Hacc. cbv zeta. fold parser.
  set (fname_html := "DSCI" ^^ course_num ^^ "_lab" ^^ lab_num ^^ "_exercise"
                     ^^ selection_str ex).
  assert (Hpages :
    for_each gid_pages (page_body lab_files parser (dir_of save_dir) fname_html)
    = (flat_map (page_trace lab_files parser (dir_of save_dir)
                   (page_name course_num lab_num ex)) gid_pages, Return tt)).
  { apply for_each_all_return. intros kp _. apply page_body_returns.
    intros gid lab _ E. apply Hok. eapply dict_get_in_values. exact E. }
  destruct (Hok lab0) as (t0 & body0 & res0 & P0).
  { rewrite El. left. reflexivity. }
  assert (Hfirst : first_value lab_files parser = (t0, Return (Some (body0, res0)))).
  { rewrite El. exact P0. }
  unfold print at 1. unfold emit at 1.
  rewrite (bind_returned _ _ _ tt eq_refl).
  rewrite (bind_returned _ _ _ tt Hpages).
  rewrite (bind_returned _ _ _ _ Hfirst).
  unfold unpack_pair, ret. rewrite bind_return.
  unfold print at 1. unfold emit at 1.
  rewrite (bind_returned _ _ _ tt eq_refl).
  rewrite style_loop_returns.
  unfold rendered_css. fold parser in P0. rewrite P0. simpl. reflexivity.
Qed.

Lemma run_trace_when_all_labs_render_witness :
  snd (Notebook.write_pages_to_files scenario_reads scenario_render
         [("s1", "doc1")] [(0, ["s1"; "s2"])] (Notebook.ExInt 2) "1" "572" None)
  = Return tt.
Proof.
  rewrite (run_trace_when_all_labs_render scenario_reads scenario_render
             [("s1", "doc1")] [(0, ["s1"; "s2"])] (Notebook.ExInt 2) "1" "572"
             None "s1" "doc1" []).
  - reflexivity.
  - reflexivity.
  - reflexivity.
  - intros lab [<- | []]. do 3 eexists. vm_compute. reflexivity.
Defined.

(** X9: a run with no lab file at all.  On an accepted selection and an
    empty [lab_files], [write_pages_to_files] still writes every page file,
    with the head, one printed warning for each id and the closing of the
    body, and then raises [IndexError] when it asks for the first lab file
    to write the style files; no style file is written. *)
Theorem run_without_lab_files_raises
    (nbformat_reads : string -> completion notebook)
    (from_notebook_node : notebook -> completion (string * resources))
    (gid_pages : Py.dict Z (list string))
    (ex : Notebook.exercise_arg) (lab_num course_num : string)
    (save_dir : option string) :
  accepted ex = true ->
  Notebook.write_pages_to_files nbformat_reads from_notebook_node []
    gid_pages ex lab_num course_num save_dir
  = ([Print ("Writing to " ^^ dir_of save_dir ^^ ":")]
     ++ flat_map
          (fun kp =>
             let fp := dir_of save_dir ^^ page_name course_num lab_num ex (fst kp) in
             [FileOpen fp "a"; FileWrite fp page_head]
             ++ map (fun gid => Print (gid_warning gid)) (snd kp)
             ++ [FileWrite fp "</body>"; FileClose fp;
                 Print (Py.tab ^^ page_name course_num lab_num ex (fst kp))])
          gid_pages,
     Raise (IndexError "list index out of range")).
Proof.
  intros Hacc.
  rewrite write_pages_to_files_unfold by exact Hacc. cbv zeta.
  set (parser := selection_parser nbformat_reads from_notebook_node ex).
  set (fname_html := "DSCI" ^^ course_num ^^ "_lab" ^^ lab_num ^^ "_exercise"
                     ^^ selection_str ex).
  assert (Hpages :
    for_each gid_pages (page_body [] parser (dir_of save_dir) fname_html)
    = (flat_map (page_trace [] parser (dir_of save_dir)
                   (page_name course_num lab_num ex)) gid_pages, Return tt)).
  { apply for_each_all_return. intros kp _. apply page_body_returns.
    intros gid lab _ E. discriminate E. }
  unfold print at 1. unfold emit at 1.
  rewrite (bind_returned _ _ _ tt eq_refl).
  rewrite (bind_returned _ _ _ tt Hpages).
  simpl. rewrite app_nil_r.
  assert (Hflat : forall l,
    flat_map (page_trace [] parser (dir_of save_dir)
                (page_name course_num lab_num ex)) l
    = flat_map
        (fun kp =>
           let fp := dir_of save_dir ^^ page_name course_num lab_num ex (fst kp) in
           [FileOpen fp "a"; FileWrite fp page_head]
           ++ map (fun gid => Print (gid_warning gid)) (snd kp)
           ++ [FileWrite fp "</body>"; FileClose fp;
               Print (Py.tab ^^ page_name course_num lab_num ex (fst kp))]) l).
  { intros l. apply flat_map_ext. intros [k page]. reflexivity. }
  now rewrite Hflat.
Qed.

Lemma run_without_lab_files_raises_witness :
  Notebook.write_pages_to_files scenario_reads scenario_render []
    [(0, ["s1"])] (Notebook.ExList [3; 4]) "1" "572" None
  = ([Print "Writing to ./:";
      FileOpen "./DSCI572_lab1_exercise34_page0.html" "a";
      FileWrite "./DSCI572_lab1_exercise34_page0.html" page_head;
      Print "gid s1 not found in lab_files.keys().";
      FileWrite "./DSCI572_lab1_exercise34_page0.html" "</body>";
      FileClose "./DSCI572_lab1_exercise34_page0.html";
      Print (Py.tab ^^ "DSCI572_lab1_exercise34_page0.html")],
     Raise (IndexError "list index out of range")).
Proof.
  rewrite (run_without_lab_files_raises scenario_reads scenario_render
             [(0, ["s1"])] (Notebook.ExList [3; 4]) "1" "572" None).
  - reflexivity.
  - reflexivity.
Defined.

(** X10: a rendering that raises is not contained.  When the pages before
    and the ids before it in its page are handled, and the rendering of the
    lab file of one id raises, the whole of [write_pages_to_files] raises the
    same exception: the heading of that id is the last text written, the
    page file is left without the closing of its body and is not closed, and
    no later id, page or style file is reached. *)
Theorem failed_rendering_aborts_run
    (nbformat_reads : string -> completion notebook)
    (from_notebook_node : notebook -> completion (string * resources))
    (lab_files : Py.dict string string)
    (before after : Py.dict Z (list string)) (k : Z) (pre rest : list string)
    (gid lab : string) (t : list event) (e : exception)
    (ex : Notebook.exercise_arg) (lab_num course_num : string)
    (save_dir : option string) :
  accepted ex = true ->
  let parser := selection_parser nbformat_reads from_notebook_node ex in
  (forall g l, In g (flat_map snd before) \/ In g pre ->
     Py.dict_get lab_files g = Some l ->
     exists t' body res, parser l = (t', Return (Some (body, res)))) ->
  Py.dict_get lab_files gid = Some lab ->
  parser lab = (t, Raise e) ->
  let fp := dir_of save_dir ^^ page_name course_num lab_num ex k in
  Notebook.write_pages_to_files nbformat_reads from_notebook_node lab_files
    (before ++ (k, pre ++ gid :: rest) :: after) ex lab_num course_num save_dir
  = ([Print ("Writing to " ^^ dir_of save_dir ^^ ":")]
     ++ flat_map (page_trace lab_files parser (dir_of save_dir)
                    (page_name course_num lab_num ex)) before
     ++ [FileOpen fp "a"; FileWrite fp page_head]
     ++ flat_map (gid_trace lab_files parser fp) pre
     ++ [FileWrite fp (gid_heading gid)]
     ++ t,
     Raise e).
Proof.
  intros Hacc parser Hok Eg P fp.
  rewrite write_pages_to_files_unfold by exact Hacc. cbv zeta. fold parser.
  set (fname_html := "DSCI" ^^ course_num ^^ "_lab" ^^ lab_num ^^ "_exercise"
                     ^^ selection_str ex).
  assert (Hpages :
    for_each (before ++ (k, pre ++ gid :: rest) :: after)
      (page_body lab_files parser (dir_of save_dir) fname_html)
    = (flat_map (page_trace lab_files parser (dir_of save_dir)
                   (page_name course_num lab_num ex)) before
       ++ ([FileOpen fp "a"; FileWrite fp page_head]
           ++ flat_map (gid_trace lab_files parser fp) pre
           ++ [FileWrite fp (gid_heading gid)] ++ t),
       Raise e)).
  { apply for_each_first_raise.
    - intros kp Hin. apply page_body_returns. intros g l Hg E.
      apply (Hok g l); [|exact E]. left. apply in_flat_map. exists kp. auto.
    - apply page_body_raises with (lab := lab); [|exact Eg | exact P].
      intros g l Hg E. apply (Hok g l); [right; exact Hg | exact E]. }
  unfold print at 1. unfold emit at 1.
  rewrite (bind_returned _ _ _ tt eq_refl).
  rewrite (bind_raised _ _ _ _ Hpages). reflexivity.
Qed.

Lemma failed_rendering_aborts_run_witness :
  Notebook.write_pages_to_files scenario_reads scenario_render
    [("s1", "doc1"); ("s2", "not json")] [(0, ["s1"; "s2"; "s3"])]
    (Notebook.ExInt 2) "1" "572" None
  = ([Print "Writing to ./:";
      FileOpen "./DSCI572_lab1_exercise2_page0.html" "a";
      FileWrite "./DSCI572_lab1_exercise2_page0.html" page_head;
      FileWrite "./DSCI572_lab1_exercise2_page0.html" (gid_heading "s1");
      FileWrite "./DSCI572_lab1_exercise2_page0.html" "<p>3 cells</p>";
      FileWrite "./DSCI572_lab1_exercise2_page0.html" (gid_heading "s2")],
     Raise (ExternalError "not a notebook")).
Proof.
  apply (failed_rendering_aborts_run scenario_reads scenario_render
           [("s1", "doc1"); ("s2", "not json")] [] [] 0 ["s1"] ["s3"]
           "s2" "not json" [] (ExternalError "not a notebook")
           (Notebook.ExInt 2) "1" "572" None).
  - reflexivity.
  - intros g l [[] | [<- | []]] E. injection E as <-.
    do 3 eexists. vm_compute. reflexivity.
  - reflexivity.
  - reflexivity.
Defined.

(** X11: the selection that the top level hands on is never refused.
    [format_exercise_num] fails only on the empty list; what it returns is
    accepted by [choose_parser], which then returns without printing, and the
    exercise part of the file names is the numerals of the given selection
    one after the other.  Without it, a list of one number is refused by
    [write_pages_to_files]: a line is printed and [TypeError] is raised
    before any file is opened. *)
Theorem formatted_selection_is_accepted
    (nbformat_reads : string -> completion notebook)
    (from_notebook_node : notebook -> completion (string * resources))
    (ex : Notebook.exercise_arg) :
  match format_exercise_num ex with
  | inl err =>
      ex = Notebook.ExList [] /\ err = ValueError "exercise_num is mandatory"
  | inr ex' =>
      ex <> Notebook.ExList []
      /\ accepted ex' = true
      /\ selection_str ex' = selection_str ex
      /\ Notebook.choose_parser nbformat_reads from_notebook_node ex'
         = ([], Return (selection_str ex,
                        selection_parser nbformat_reads from_notebook_node ex'))
  end
  /\ (forall n lab_files gid_pages lab_num course_num save_dir,
        Notebook.write_pages_to_files nbformat_reads from_notebook_node
          lab_files gid_pages (Notebook.ExList [n]) lab_num course_num save_dir
        = ([Print ("Attempting type coercion of exercise_num "
                   ^^ Py.repr_list [n] ^^ " to int, even though it may be iterable")],
           Raise (TypeError "int() argument must be a string, a bytes-like object or a number, not 'list'"))).
Proof.
  split.
  - destruct ex as [n | [|x [|y l]]]; simpl; repeat split; discriminate.
  - intros. reflexivity.
Qed.

(** ** Fetching the lab files *)

Section DictFacts.

Lemma dict_set_keys (d : Py.dict string string) (g v k : string) :
  In k (Fetch.dict_keys (Fetch.dict_set d g v)) <-> k = g \/ In k (Fetch.dict_keys d).
Proof.
  induction d as [|[k' v'] d IH]; simpl.
  - intuition.
  - destruct (String.eqb_spec g k') as [->|Hne]; simpl.
    + intuition.
    + rewrite IH. intuition.
Qed.

Lemma dict_set_nodup (d : Py.dict string string) (g v : string) :
  NoDup (Fetch.dict_keys d) -> NoDup (Fetch.dict_keys (Fetch.dict_set d g v)).
Proof.
  induction d as [|[k' v'] d IH]; simpl; intros H.
  - constructor; [intros [] | constructor].
  - destruct (String.eqb_spec g k') as [->|Hne]; simpl; [exact H|].
    inversion H as [|? ? Hnin Hnd]; subst. constructor.
    + intros Hin. apply dict_set_keys in Hin as [E | Hin]; [congruence | contradiction].
    + apply IH. exact Hnd.
Qed.

Lemma dict_update_keys (d new : Py.dict string string) (k : string) :
  In k (Fetch.dict_keys (Fetch.dict_update d new)) <->
  In k (Fetch.dict_keys d) \/ In k (Fetch.dict_keys new).
Proof.
  unfold Fetch.dict_update. revert d.
  induction new as [|[g v] new IH]; intros d; simpl.
  - intuition.
  - rewrite IH, dict_set_keys. intuition.
Qed.

Lemma dict_update_nodup (d new : Py.dict string string) :
  NoDup (Fetch.dict_keys d) -> NoDup (Fetch.dict_keys (Fetch.dict_update d new)).
Proof.
  unfold Fetch.dict_update. revert d.
  induction new as [|[g v] new IH]; intros d H; simpl; [exact H|].
  apply IH. apply dict_set_nodup. exact H.
Qed.

Lemma insert_sorted_in (x y : string) (l : list string) :
  In x (Fetch.insert_sorted y l) <-> x = y \/ In x l.
Proof.
  induction l as [|z l IH]; simpl.
  - intuition.
  - destruct (String.leb y z); simpl; [intuition|]. rewrite IH. intuition.
Qed.

Lemma sort_in (x : string) (l : list string) :
  In x (Fetch.sort l) <-> In x l.
Proof.
  induction l as [|y l IH]; simpl; [reflexivity|].
  rewrite insert_sorted_in, IH. intuition.
Qed.

Lemma unique_sorted_in (x : string) (l : list string) :
  In x (Fetch.unique_sorted l) <-> In x l.
Proof.
  induction l as [|y l IH]; [reflexivity|].
  destruct l as [|z l].
  - reflexivity.
  - change (Fetch.unique_sorted (y :: z :: l))
      with (if String.eqb y z then Fetch.unique_sorted (z :: l)
            else y :: Fetch.unique_sorted (z :: l)).
    destruct (String.eqb_spec y z) as [->|Hne].
    + rewrite IH. simpl. intuition.
    + simpl In at 1. rewrite IH. simpl. intuition.
Qed.

Lemma setdiff1d_in (x : string) (ar1 ar2 : list string) :
  In x (Fetch.setdiff1d ar1 ar2) <-> In x ar1 /\ ~ In x ar2.
Proof.
  unfold Fetch.setdiff1d, Fetch.unique.
  rewrite filter_In, unique_sorted_in, sort_in, negb_true_iff.
  split; intros [H1 H2]; split; try exact H1.
  - intros Hin. assert (E : existsb (String.eqb x) ar2 = true).
    { apply existsb_exists. exists x. split; [exact Hin | apply String.eqb_refl]. }
    congruence.
  - destruct (existsb (String.eqb x) ar2) eqn:E; [|reflexivity].
    apply existsb_exists in E as (y & Hy & Exy).
    apply String.eqb_eq in Exy. subst y. contradiction.
Qed.

Lemma setdiff1d_covered (ar1 ar2 : list string) :
  (forall x, In x ar1 -> In x ar2) -> Fetch.setdiff1d ar1 ar2 = [].
Proof.
  intros H. destruct (Fetch.setdiff1d ar1 ar2) as [|x l] eqn:E; [reflexivity|].
  assert (Hin : In x (Fetch.setdiff1d ar1 ar2)) by (rewrite E; left; reflexivity).
  apply setdiff1d_in in Hin as [H1 H2]. exfalso. apply H2, H. exact H1.
Qed.

End DictFacts.

Section FetchFacts.

Variable W : Type.
Variable Repo : Type.
Variable repo_name : Repo -> string.
Variable gh_get_repo : string -> W -> Fetch.result Repo * W.
Variable repo_get_dir_contents :
  Repo -> string -> W -> Fetch.result (list Fetch.content_file) * W.
Variable repo_get_contents : Repo -> string -> W -> Fetch.result Fetch.content_file * W.
Variable repo_get_git_blob : Repo -> string -> W -> Fetch.result string * W.
Variable b64decode : string -> Fetch.result string.
Variable re_search : string -> string -> bool.

Variable fname lab_num course_num : string.
Variable year_tag : option string.

Local Notation lab_of :=
  (Fetch.lab_of W Repo repo_name gh_get_repo repo_get_dir_contents
     repo_get_contents repo_get_git_blob b64decode re_search fname).
Local Notation fetch_loop :=
  (Fetch.fetch_loop W Repo repo_name gh_get_repo repo_get_dir_contents
     repo_get_contents repo_get_git_blob b64decode re_search fname lab_num
     course_num year_tag).
Local Notation fetched_all :=
  (Fetch.fetched_all W Repo repo_name gh_get_repo repo_get_dir_contents
     repo_get_contents repo_get_git_blob b64decode re_search fname lab_num
     course_num year_tag).

Lemma bindN_ok {A B : Type} (m : Fetch.N W A) (f : A -> Fetch.N W B)
    (w w1 : W) (t : list Fetch.effect) (v : A) :
  m w = ((t, Fetch.Ok v), w1) -> Fetch.bindN W m f w = prepend t (f v w1).
Proof.
  intros H. unfold Fetch.bindN, prepend. rewrite H.
  destruct (f v w1) as [[t' r] w2]. reflexivity.
Qed.

Lemma bindN_failed {A B : Type} (m : Fetch.N W A) (f : A -> Fetch.N W B)
    (w w1 : W) (t : list Fetch.effect) (e : Fetch.error) :
  m w = ((t, Fetch.Failed e), w1) ->
  Fetch.bindN W m f w = ((t, Fetch.Failed e), w1).
Proof. intros H. unfold Fetch.bindN. rewrite H. reflexivity. Qed.

Lemma prepend_nil {A : Type} (x : (list Fetch.effect * Fetch.result A) * W) :
  prepend [] x = x.
Proof. destruct x as [[t r] w]. reflexivity. Qed.

Lemma prepend_prepend {A : Type} (t1 t2 : list Fetch.effect)
    (x : (list Fetch.effect * Fetch.result A) * W) :
  prepend t1 (prepend t2 x) = prepend (t1 ++ t2) x.
Proof. destruct x as [[t r] w]. unfold prepend. simpl. now rewrite app_assoc. Qed.

Lemma fetch_loop_cons_ok (gid : string) (rest : list string)
    (labs : Py.dict string string) (w w1 : W) (t : list Fetch.effect) (v : string) :
  lab_of gid lab_num course_num year_tag w = ((t, Fetch.Ok v), w1) ->
  fetch_loop (gid :: rest) labs w
  = prepend t (fetch_loop rest (Fetch.dict_set labs gid v) w1).
Proof.
  intros H. simpl Fetch.fetch_loop.
  erewrite bindN_ok by (unfold Fetch.catch; rewrite H; reflexivity).
  reflexivity.
Qed.

Lemma fetch_loop_cons_github (gid : string) (rest : list string)
    (labs : Py.dict string string) (w w1 : W) (t : list Fetch.effect) (ghe : string) :
  lab_of gid lab_num course_num year_tag w
  = ((t, Fetch.Failed (Fetch.GithubException ghe)), w1) ->
  fetch_loop (gid :: rest) labs w
  = ((t ++ [Fetch.Printed ghe; Fetch.Printed "Returning what we have so far..."],
      Fetch.Ok labs), w1).
Proof.
  intros H. simpl Fetch.fetch_loop.
  erewrite bindN_ok by (unfold Fetch.catch; rewrite H; reflexivity).
  reflexivity.
Qed.

Lemma fetch_loop_cons_other (gid : string) (rest : list string)
    (labs : Py.dict string string) (w w1 : W) (t : list Fetch.effect)
    (e : Fetch.error) :
  lab_of gid lab_num course_num year_tag w = ((t, Fetch.Failed e), w1) ->
  (forall ghe, e <> Fetch.GithubException ghe) ->
  fetch_loop (gid :: rest) labs w = ((t, Fetch.Failed e), w1).
Proof.
  intros H Hne. simpl Fetch.fetch_loop.
  erewrite bindN_ok by (unfold Fetch.catch; rewrite H; reflexivity).
  destruct e as [ghe| |s]; [contradiction (Hne ghe eq_refl)| |];
    unfold prepend, Fetch.fail; simpl; now rewrite app_nil_r.
Qed.

Lemma fetch_loop_fetched (pre rest : list string) (labs labs' : Py.dict string string)
    (w w' : W) (t : list Fetch.effect) :
  fetched_all pre labs w t labs' w' ->
  fetch_loop (pre ++ rest) labs w = prepend t (fetch_loop rest labs' w').
Proof.
  induction 1 as [labs w | gid pre labs labs' w w1 w2 t t' v Hl Hf IH].
  - simpl. now rewrite prepend_nil.
  - change ((gid :: pre) ++ rest) with (gid :: (pre ++ rest)).
    rewrite (fetch_loop_cons_ok gid _ labs w w1 t v Hl), IH.
    apply prepend_prepend.
Qed.

Lemma fetched_all_keys (gids : list string) (labs labs' : Py.dict string string)
    (w w' : W) (t : list Fetch.effect) :
  fetched_all gids labs w t labs' w' ->
  (forall k, In k (Fetch.dict_keys labs') <->
             In k (Fetch.dict_keys labs) \/ In k gids)
  /\ (NoDup (Fetch.dict_keys labs) -> NoDup (Fetch.dict_keys labs')).
Proof.
  induction 1 as [labs w | gid pre labs labs' w w1 w2 t t' v Hl Hf [IH1 IH2]].
  - split; [intros k; simpl; intuition | auto].
  - split.
    + intros k. rewrite IH1, dict_set_keys. simpl. intuition.
    + intros Hnd. apply IH2, dict_set_nodup, Hnd.
Qed.

End FetchFacts.

Section FetchProperties.

Variable W : Type.
Variable Repo : Type.
Variable repo_name : Repo -> string.
Variable gh_get_repo : string -> W -> Fetch.result Repo * W.
Variable repo_get_dir_contents :
  Repo -> string -> W -> Fetch.result (list Fetch.content_file) * W.
Variable repo_get_contents : Repo -> string -> W -> Fetch.result Fetch.content_file * W.
Variable repo_get_git_blob : Repo -> string -> W -> Fetch.result string * W.
Variable b64decode : string -> Fetch.result string.
Variable re_search : string -> string -> bool.
Variable array_str : list string -> string.

Variable fname lab_num course_num : string.
Variable year_tag : option string.

Local Notation lab_of :=
  (Fetch.lab_of W Repo repo_name gh_get_repo repo_get_dir_contents
     repo_get_contents repo_get_git_blob b64decode re_search fname).
Local Notation fetch_loop :=
  (Fetch.fetch_loop W Repo repo_name gh_get_repo repo_get_dir_contents
     repo_get_contents repo_get_git_blob b64decode re_search fname lab_num
     course_num year_tag).
Local Notation fetched_all :=
  (Fetch.fetched_all W Repo repo_name gh_get_repo repo_get_dir_contents
     repo_get_contents repo_get_git_blob b64decode re_search fname lab_num
     course_num year_tag).
Local Notation fetch_lab_files :=
  (Fetch.fetch_lab_files W Repo repo_name gh_get_repo repo_get_dir_contents
     repo_get_contents repo_get_git_blob b64decode re_search fname).
Local Notation retry_loop :=
  (Fetch.retry_loop W Repo repo_name gh_get_repo repo_get_dir_contents
     repo_get_contents repo_get_git_blob b64decode re_search fname).
Local Notation persistent_fetch_lab_files :=
  (Fetch.persistent_fetch_lab_files W Repo repo_name gh_get_repo
     repo_get_dir_contents repo_get_contents repo_get_git_blob b64decode
     re_search array_str fname).

(** The name of the repository of a student. *)
Local Notation repo_of gid :=
  (match year_tag with None => "MDS-2019-20" | Some y => y end
   ^^ "/DSCI_" ^^ course_num ^^ "_lab" ^^ lab_num ^^ "_" ^^ gid).

Lemma lab_of_no_match (gid : string) (w w1 w2 : W) (repo : Repo)
    (entries : list Fetch.content_file) :
  gh_get_repo (repo_of gid) w = (Fetch.Ok repo, w1) ->
  repo_get_dir_contents repo "./" w1 = (Fetch.Ok entries, w2) ->
  (forall x, In x entries -> re_search fname (Fetch.path x) = false) ->
  lab_of gid lab_num course_num year_tag w
  = (([Fetch.Slept (Fetch.PyBool false);
       Fetch.Printed ("Fetched: " ^^ repo_name repo);
       Fetch.Slept (Fetch.PyBool false)],
      Fetch.Failed Fetch.StopIteration), w2).
Proof.
  intros H1 H2 Hnone.
  assert (Hf : find (fun x => re_search fname (Fetch.path x)) entries = None).
  { destruct (find _ entries) as [x|] eqn:E; [|reflexivity].
    apply find_some in E as [Hin Hx]. rewrite (Hnone x Hin) in Hx. discriminate. }
  unfold Fetch.lab_of, Fetch.get_repo, Fetch.get_file_from_repo,
    Fetch.throttle_sleep, Fetch.bindN, Fetch.call, Fetch.sleep, Fetch.say,
    Fetch.unit, Fetch.fail.
  rewrite H1. simpl. rewrite H2. simpl. rewrite Hf. reflexivity.
Qed.

(** X12: a GitHub error ends the pass but keeps what was fetched.  When the
    ids before [gid] are fetched and the fetch of [gid] raises the GitHub
    exception, [fetch_lab_files] prints the exception and the line that says
    it returns what it has, and returns normally the labs of the ids before;
    the ids after [gid] are not tried (the service is left as the failed
    call left it), and the keys of the dict are the ids before, each once. *)
Theorem github_failure_keeps_earlier_labs (pre rest : list string) (gid ghe : string)
    (w0 w1 w2 : W) (t1 t2 : list Fetch.effect) (labs1 : Py.dict string string)
    (throttle : option Fetch.scalar) :
  fetched_all pre [] w0 t1 labs1 w1 ->
  lab_of gid lab_num course_num year_tag w1
  = ((t2, Fetch.Failed (Fetch.GithubException ghe)), w2) ->
  fetch_lab_files (Fetch.ManyGids (pre ++ gid :: rest)) lab_num course_num
    year_tag throttle w0
  = ((t1 ++ t2 ++ [Fetch.Printed ghe;
                   Fetch.Printed "Returning what we have so far..."],
      Fetch.Ok labs1), w2)
  /\ (forall k, In k (Fetch.dict_keys labs1) <-> In k pre)
  /\ NoDup (Fetch.dict_keys labs1).
Proof.
  clear array_str. intros Hpre Hgid. split; [|split].
  - unfold Fetch.fetch_lab_files.
    erewrite fetch_loop_fetched by exact Hpre.
    erewrite fetch_loop_cons_github by exact Hgid.
    reflexivity.
  - intros k.
    pose proof Hpre as Hk. apply fetched_all_keys in Hk. destruct Hk as [Hk _].
    rewrite Hk. simpl. intuition.
  - pose proof Hpre as Hn. apply fetched_all_keys in Hn. destruct Hn as [_ Hn].
    apply Hn. constructor.
Qed.

(** X13: a repository without a matching file ends everything.  When the ids
    before [gid] are fetched and the directory of the repository of [gid]
    holds no entry whose path matches [fname], [next] raises StopIteration,
    which [fetch_lab_files] does not catch: it raises it, and so does
    [persistent_fetch_lab_files] in its first pass, without a retry; the labs
    fetched before are not returned. *)
Theorem missing_notebook_aborts_fetch (pre rest : list string) (gid : string)
    (w0 w1 w2 w3 : W) (t1 : list Fetch.effect) (labs1 : Py.dict string string)
    (repo : Repo) (entries : list Fetch.content_file)
    (num_tries : Z) (throttle : option Fetch.scalar) :
  fetched_all pre [] w0 t1 labs1 w1 ->
  gh_get_repo (repo_of gid) w1 = (Fetch.Ok repo, w2) ->
  repo_get_dir_contents repo "./" w2 = (Fetch.Ok entries, w3) ->
  (forall x, In x entries -> re_search fname (Fetch.path x) = false) ->
  let failure :=
    ((t1 ++ [Fetch.Slept (Fetch.PyBool false);
             Fetch.Printed ("Fetched: " ^^ repo_name repo);
             Fetch.Slept (Fetch.PyBool false)],
      Fetch.Failed Fetch.StopIteration), w3) in
  fetch_lab_files (Fetch.ManyGids (pre ++ gid :: rest)) lab_num course_num
    year_tag throttle w0 = failure
  /\ persistent_fetch_lab_files (pre ++ gid :: rest) lab_num course_num
       year_tag num_tries throttle w0 = failure.
Proof.
  intros Hpre H1 H2 Hnone failure.
  pose proof (lab_of_no_match gid w1 w2 w3 repo entries H1 H2 Hnone) as Hgid.
  assert (F : fetch_lab_files (Fetch.ManyGids (pre ++ gid :: rest)) lab_num
                course_num year_tag throttle w0 = failure).
  { unfold Fetch.fetch_lab_files.
    erewrite fetch_loop_fetched by exact Hpre.
    erewrite fetch_loop_cons_other; [| exact Hgid | discriminate].
    reflexivity. }
  split; [exact F|].
  unfold Fetch.persistent_fetch_lab_files.
  apply bindN_failed. exact F.
Qed.

Lemma range_succ (n : Z) :
  1 <= n -> exists l, Py.range n = 0 :: l.
Proof.
  intros H. unfold Py.range.
  destruct (Z.to_nat n) as [|k] eqn:E; [lia|].
  simpl. eexists. reflexivity.
Qed.

Lemma range_none (n : Z) : n <= 0 -> Py.range n = [].
Proof.
  intros H. unfold Py.range. replace (Z.to_nat n) with 0%nat by lia. reflexivity.
Qed.

(** X14: a complete first pass is still followed by a second attempt.  When
    every id is fetched in the first pass, [persistent_fetch_lab_files]
    returns the labs of that pass and calls the service no more; but with
    [num_tries] of 2 or more it first prints the line of attempt 2 and
    sleeps one second, because the loop is entered before the missing keys
    are looked at. *)
Theorem complete_first_pass_still_retries (gids : list string)
    (w0 w1 : W) (t : list Fetch.effect) (labs : Py.dict string string)
    (num_tries : Z) (throttle : option Fetch.scalar) :
  fetched_all gids [] w0 t labs w1 ->
  fetch_lab_files (Fetch.ManyGids gids) lab_num course_num year_tag throttle w0
  = ((t, Fetch.Ok labs), w1)
  /\ (2 <= num_tries ->
      persistent_fetch_lab_files gids lab_num course_num year_tag num_tries
        throttle w0
      = ((t ++ [Fetch.Printed "Attempt 2"; Fetch.Slept (Fetch.PyInt 1)],
          Fetch.Ok labs), w1))
  /\ (num_tries <= 1 ->
      persistent_fetch_lab_files gids lab_num course_num year_tag num_tries
        throttle w0
      = ((t, Fetch.Ok labs), w1)).
Proof.
  intros Hall.
  assert (F : fetch_lab_files (Fetch.ManyGids gids) lab_num course_num year_tag
                throttle w0 = ((t, Fetch.Ok labs), w1)).
  { unfold Fetch.fetch_lab_files. rewrite <- (app_nil_r gids).
    erewrite fetch_loop_fetched by exact Hall.
    unfold prepend. simpl. now rewrite app_nil_r. }
  assert (Hsd : Fetch.setdiff1d gids (Fetch.dict_keys labs) = []).
  { apply setdiff1d_covered. intros x Hx.
    pose proof Hall as Hk. apply fetched_all_keys in Hk. destruct Hk as [Hk _].
    apply Hk. right. exact Hx. }
  split; [exact F|]. split.
  - intros Hn. unfold Fetch.persistent_fetch_lab_files.
    erewrite bindN_ok by exact F. cbv beta zeta. rewrite Hsd.
    destruct (range_succ (num_tries - 1)) as (l & ->); [lia|].
    cbv beta iota zeta delta
      [Fetch.retry_loop Fetch.bindN Fetch.say Fetch.sleep Fetch.unit
       Fetch.fetch_lab_files Fetch.fetch_loop Fetch.dict_update fold_left
       prepend fst snd].
    rewrite Hsd. simpl. rewrite ?app_nil_r. reflexivity.
  - intros Hn. unfold Fetch.persistent_fetch_lab_files.
    erewrite bindN_ok by exact F. cbv beta zeta. rewrite Hsd.
    rewrite range_none by lia.
    unfold prepend, Fetch.bindN, Fetch.unit. simpl. now rewrite app_nil_r.
Qed.

End FetchProperties.

Section FetchInvariants.

Variable W : Type.
Variable Repo : Type.
Variable repo_name : Repo -> string.
Variable gh_get_repo : string -> W -> Fetch.result Repo * W.
Variable repo_get_dir_contents :
  Repo -> string -> W -> Fetch.result (list Fetch.content_file) * W.
Variable repo_get_contents : Repo -> string -> W -> Fetch.result Fetch.content_file * W.
Variable repo_get_git_blob : Repo -> string -> W -> Fetch.result string * W.
Variable b64decode : string -> Fetch.result string.
Variable re_search : string -> string -> bool.
Variable array_str : list string -> string.

Variable fname lab_num course_num : string.
Variable year_tag : option string.

Local Notation lab_of :=
  (Fetch.lab_of W Repo repo_name gh_get_repo repo_get_dir_contents
     repo_get_contents repo_get_git_blob b64decode re_search fname).
Local Notation fetch_loop :=
  (Fetch.fetch_loop W Repo repo_name gh_get_repo repo_get_dir_contents
     repo_get_contents repo_get_git_blob b64decode re_search fname lab_num
     course_num year_tag).
Local Notation fetch_lab_files :=
  (Fetch.fetch_lab_files W Repo repo_name gh_get_repo repo_get_dir_contents
     repo_get_contents repo_get_git_blob b64decode re_search fname).
Local Notation retry_loop :=
  (Fetch.retry_loop W Repo repo_name gh_get_repo repo_get_dir_contents
     repo_get_contents repo_get_git_blob b64decode re_search fname).
Local Notation persistent_fetch_lab_files :=
  (Fetch.persistent_fetch_lab_files W Repo repo_name gh_get_repo
     repo_get_dir_contents repo_get_contents repo_get_git_blob b64decode
     re_search array_str fname).

(** The trace of what a computation gave. *)
Local Notation trace x := (fst (fst x)).

Lemma bindN_cases {A B : Type} (m : Fetch.N W A) (f : A -> Fetch.N W B) (w : W) :
  (exists t v w1, m w = ((t, Fetch.Ok v), w1)
                  /\ Fetch.bindN W m f w = prepend t (f v w1))
  \/ (exists t e w1, m w = ((t, Fetch.Failed e), w1)
                     /\ Fetch.bindN W m f w = ((t, Fetch.Failed e), w1)).
Proof.
  destruct (m w) as [[t [v | e]] w1] eqn:E.
  - left. exists t, v, w1. split; [reflexivity | now apply bindN_ok].
  - right. exists t, e, w1. split; [reflexivity | now apply bindN_failed].
Qed.

Lemma lab_of_sleeps (gid : string) (w : W) :
  Forall Fetch.fixed_sleep (trace (lab_of gid lab_num course_num year_tag w))
  /\ filter Fetch.is_pause (trace (lab_of gid lab_num course_num year_tag w)) = [].
Proof.
  unfold Fetch.lab_of, Fetch.get_repo, Fetch.get_file_from_repo,
    Fetch.throttle_sleep, Fetch.bindN, Fetch.call, Fetch.pure_call, Fetch.sleep,
    Fetch.say, Fetch.unit, Fetch.fail.
  destruct (gh_get_repo _ w) as [[repo | e] w1]; simpl;
    [|split; [repeat constructor | reflexivity]].
  destruct (repo_get_dir_contents repo "./" w1) as [[entries | e] w2]; simpl;
    [|split; [repeat constructor | reflexivity]].
  destruct (find _ entries) as [x|]; simpl;
    [|split; [repeat constructor | reflexivity]].
  destruct (repo_get_git_blob repo (Fetch.sha x) w2) as [[content | e] w3]; simpl;
    [|split; [repeat constructor | reflexivity]].
  destruct (b64decode content); simpl; split; try reflexivity; repeat constructor.
Qed.

Lemma fetch_loop_sleeps (gids : list string) (labs : Py.dict string string) (w : W) :
  Forall Fetch.fixed_sleep (trace (fetch_loop gids labs w))
  /\ filter Fetch.is_pause (trace (fetch_loop gids labs w)) = [].
Proof.
  revert labs w. induction gids as [|gid gids IH]; intros labs w.
  - split; [constructor | reflexivity].
  - destruct (lab_of_sleeps gid w) as [L1 L2].
    destruct (lab_of gid lab_num course_num year_tag w) as [[t r] w1] eqn:E.
    simpl in L1, L2.
    destruct r as [v | [ghe | | s]].
    + erewrite fetch_loop_cons_ok by exact E.
      destruct (IH (Fetch.dict_set labs gid v) w1) as [I1 I2].
      unfold prepend. simpl. split.
      * apply Forall_app. auto.
      * now rewrite filter_app, L2, I2.
    + erewrite fetch_loop_cons_github by exact E. simpl. split.
      * apply Forall_app. split; [exact L1 | repeat constructor].
      * now rewrite filter_app, L2.
    + erewrite fetch_loop_cons_other; [|exact E | discriminate]. auto.
    + erewrite fetch_loop_cons_other; [|exact E | discriminate]. auto.
Qed.

Ltac fixed_head :=
  repeat (apply Forall_cons;
          [simpl; first [exact I | left; reflexivity | right; reflexivity] |]).

Lemma retry_loop_sleeps (gid_list : list string) (throttle : option Fetch.scalar)
    (tries : list Z) (lab_files : Py.dict string string)
    (missing_keys : list string) (w : W) :
  let x := retry_loop gid_list lab_num course_num year_tag throttle tries
             lab_files missing_keys w in
  Forall Fetch.fixed_sleep (trace x)
  /\ (length (filter Fetch.is_pause (trace x)) <= length tries)%nat.
Proof.
  revert lab_files missing_keys w.
  induction tries as [|i tries IH]; intros lab_files missing_keys w.
  - simpl. split; [constructor | lia].
  - cbv zeta. simpl Fetch.retry_loop.
    erewrite bindN_ok by reflexivity.
    erewrite bindN_ok by reflexivity.
    destruct (fetch_loop_sleeps missing_keys [] w) as [F1 F2].
    destruct (bindN_cases
                (fetch_lab_files (Fetch.ManyGids missing_keys) lab_num course_num
                   year_tag throttle)
                (fun new_lab_files =>
                   if Nat.eqb (length (Fetch.setdiff1d gid_list
                                 (Fetch.dict_keys
                                    (Fetch.dict_update lab_files new_lab_files)))) 0
                   then Fetch.unit W
                          (Fetch.dict_update lab_files new_lab_files,
                           Fetch.setdiff1d gid_list
                             (Fetch.dict_keys
                                (Fetch.dict_update lab_files new_lab_files)))
                   else retry_loop gid_list lab_num course_num year_tag throttle
                          tries (Fetch.dict_update lab_files new_lab_files)
                          (Fetch.setdiff1d gid_list
                             (Fetch.dict_keys
                                (Fetch.dict_update lab_files new_lab_files))))
                w)
      as [(t & v & w1 & E & ->) | (t & e & w1 & E & ->)];
      unfold Fetch.fetch_lab_files in E; rewrite E in F1, F2; simpl in F1, F2.
    + destruct (Nat.eqb _ 0).
      * unfold prepend. simpl. rewrite app_nil_r, F2. split.
        -- fixed_head. exact F1.
        -- simpl. lia.
      * destruct (IH (Fetch.dict_update lab_files v)
                    (Fetch.setdiff1d gid_list
                       (Fetch.dict_keys (Fetch.dict_update lab_files v))) w1)
          as [I1 I2].
        unfold prepend. simpl. split.
        -- fixed_head. apply Forall_app. auto.
        -- rewrite filter_app, length_app, F2. simpl in *. lia.
    + unfold prepend. simpl. rewrite F2. split.
      * fixed_head. exact F1.
      * simpl. lia.
Qed.

(** X15: the throttle never reaches a sleep.  Whatever throttle is given and
    however the service answers, every sleep of
    [persistent_fetch_lab_files] is the [time.sleep(False)] of a repository
    call or the [time.sleep(1)] before a retry, and there are at most
    [num_tries - 1] sleeps of one second. *)
Theorem sleeps_do_not_depend_on_throttle (gid_list : list string)
    (num_tries : Z) (throttle : option Fetch.scalar) (w : W) :
  let x := persistent_fetch_lab_files gid_list lab_num course_num year_tag
             num_tries throttle w in
  Forall Fetch.fixed_sleep (trace x)
  /\ (length (filter Fetch.is_pause (trace x)) <= Z.to_nat (num_tries - 1))%nat.
Proof.
  cbv zeta. unfold Fetch.persistent_fetch_lab_files.
  destruct (fetch_loop_sleeps gid_list [] w) as [F1 F2].
  match goal with
  | |- context [Fetch.bindN W ?m ?f w] =>
      destruct (bindN_cases m f w)
        as [(t & v & w1 & E & ->) | (t & e & w1 & E & ->)]
  end; unfold Fetch.fetch_lab_files in E; rewrite E in F1, F2; simpl in F1, F2.
  - cbv beta zeta.
    pose proof (retry_loop_sleeps gid_list throttle (Py.range (num_tries - 1)) v
                  (Fetch.setdiff1d gid_list (Fetch.dict_keys v)) w1) as [R1 R2].
    assert (Hlen : length (Py.range (num_tries - 1)) = Z.to_nat (num_tries - 1)).
    { unfold Py.range. now rewrite length_map, length_seq. }
    rewrite Hlen in R2.
    match goal with
    | |- context [Fetch.bindN W ?m ?f w1] =>
        destruct (bindN_cases m f w1)
          as [(t' & lm & w2 & E' & ->) | (t' & e & w2 & E' & ->)]
    end; rewrite E' in R1, R2; simpl in R1, R2.
    + assert (Hrep : exists tr w3,
                Fetch.bindN W
                  (if Nat.ltb 0 (length (snd lm))
                   then Fetch.bindN W (Fetch.say W (Fetch.dashes 50))
                          (fun _ => Fetch.bindN W (Fetch.say W "Missing GitHub IDs:")
                             (fun _ => Fetch.bindN W (Fetch.say W (array_str (snd lm)))
                                (fun _ => Fetch.say W (Fetch.dashes 50))))
                   else Fetch.unit W tt)
                  (fun _ => Fetch.unit W (fst lm)) w2
                = ((tr, Fetch.Ok (fst lm)), w3)
                /\ Forall Fetch.fixed_sleep tr
                /\ filter Fetch.is_pause tr = []).
      { destruct (Nat.ltb 0 (length (snd lm))); do 2 eexists;
          (split; [reflexivity|]); split; try reflexivity; repeat constructor. }
      destruct Hrep as (tr & w3 & -> & P1 & P2).
      unfold prepend. simpl. split.
      * apply Forall_app. split; [exact F1|]. apply Forall_app. auto.
      * rewrite !filter_app, !length_app, F2, P2. simpl. lia.
    + unfold prepend. simpl. split.
      * apply Forall_app. auto.
      * rewrite filter_app, length_app, F2. simpl. lia.
  - simpl. split; [exact F1 | rewrite F2; simpl; lia].
Qed.

Lemma fetch_loop_keys (gids : list string) (labs labs' : Py.dict string string)
    (w w' : W) (t : list Fetch.effect) :
  fetch_loop gids labs w = ((t, Fetch.Ok labs'), w') ->
  (forall k, In k (Fetch.dict_keys labs') ->
             In k (Fetch.dict_keys labs) \/ In k gids)
  /\ (NoDup (Fetch.dict_keys labs) -> NoDup (Fetch.dict_keys labs')).
Proof.
  revert labs w w' t. induction gids as [|gid gids IH]; intros labs w w' t H.
  - simpl in H. injection H as _ <- _. split; auto.
  - destruct (lab_of gid lab_num course_num year_tag w) as [[t1 r] w1] eqn:E.
    destruct r as [v | [ghe | | s]].
    + erewrite fetch_loop_cons_ok in H by exact E.
      destruct (fetch_loop gids (Fetch.dict_set labs gid v) w1) as [[t2 r2] w2] eqn:E2.
      unfold prepend in H. simpl in H. injection H as _ -> _.
      destruct (IH _ _ _ _ E2) as [K N]. split.
      * intros k Hk. destruct (K k Hk) as [Hin | Hin].
        -- apply dict_set_keys in Hin as [-> | Hin]; [right; left; reflexivity | auto].
        -- right. right. exact Hin.
      * intros Hn. apply N, dict_set_nodup, Hn.
    + erewrite fetch_loop_cons_github in H by exact E.
      injection H as _ <- _. split; auto.
    + erewrite fetch_loop_cons_other in H; [|exact E | discriminate]. discriminate H.
    + erewrite fetch_loop_cons_other in H; [|exact E | discriminate]. discriminate H.
Qed.

Lemma retry_loop_keys (gid_list : list string) (throttle : option Fetch.scalar)
    (tries : list Z) (lab_files lf : Py.dict string string)
    (missing_keys ms : list string) (w w' : W) (t : list Fetch.effect) :
  retry_loop gid_list lab_num course_num year_tag throttle tries lab_files
    missing_keys w = ((t, Fetch.Ok (lf, ms)), w') ->
  (forall k, In k (Fetch.dict_keys lab_files) -> In k gid_list) ->
  (forall k, In k missing_keys -> In k gid_list) ->
  NoDup (Fetch.dict_keys lab_files) ->
  missing_keys = Fetch.setdiff1d gid_list (Fetch.dict_keys lab_files) ->
  (forall k, In k (Fetch.dict_keys lf) -> In k gid_list)
  /\ NoDup (Fetch.dict_keys lf)
  /\ ms = Fetch.setdiff1d gid_list (Fetch.dict_keys lf).
Proof.
  revert lab_files missing_keys w w' t.
  induction tries as [|i tries IH]; intros lab_files missing_keys w w' t H Hk Hm Hn Hs.
  - simpl in H. injection H as _ <- <- _. auto.
  - simpl Fetch.retry_loop in H.
    erewrite bindN_ok in H by reflexivity.
    erewrite bindN_ok in H by reflexivity.
    match type of H with
    | context [Fetch.bindN W ?m ?f w] =>
        destruct (bindN_cases m f w)
          as [(t1 & v & w1 & E & R) | (t1 & e & w1 & E & R)]
    end; rewrite R in H; clear R.
    + unfold Fetch.fetch_lab_files in E.
      destruct (fetch_loop_keys _ _ _ _ _ _ E) as [K N].
      assert (Hk' : forall k, In k (Fetch.dict_keys (Fetch.dict_update lab_files v)) ->
                              In k gid_list).
      { intros k Hin. apply dict_update_keys in Hin as [Hin | Hin]; [auto|].
        destruct (K k Hin) as [[] | Hin']. auto. }
      assert (Hn' : NoDup (Fetch.dict_keys (Fetch.dict_update lab_files v)))
        by (apply dict_update_nodup; exact Hn).
      destruct (Nat.eqb _ 0).
      * unfold prepend in H. simpl in H. injection H as _ <- <- _. auto.
      * match type of H with
        | prepend _ (prepend _ (prepend _ ?x)) = _ =>
            destruct x as [[t2 r2] w2] eqn:E2
        end.
        unfold prepend in H. simpl in H. injection H as _ -> _.
        apply (IH _ _ _ _ _ E2); auto.
        intros k Hin. apply setdiff1d_in in Hin as [Hin _]. exact Hin.
    + unfold prepend in H. simpl in H. discriminate H.
Qed.

(** X16: the keys of what [persistent_fetch_lab_files] returns are ids of the
    list it was given, each once, however the service answers and whatever
    the number of tries. *)
Theorem fetched_keys_are_requested_ids (gid_list : list string)
    (num_tries : Z) (throttle : option Fetch.scalar) (w w' : W)
    (t : list Fetch.effect) (lab_files : Py.dict string string) :
  persistent_fetch_lab_files gid_list lab_num course_num year_tag num_tries
    throttle w = ((t, Fetch.Ok lab_files), w') ->
  (forall k, In k (Fetch.dict_keys lab_files) -> In k gid_list)
  /\ NoDup (Fetch.dict_keys lab_files).
Proof.
  intros H. unfold Fetch.persistent_fetch_lab_files in H.
  match type of H with
  | context [Fetch.bindN W ?m ?f w] =>
      destruct (bindN_cases m f w)
        as [(t1 & v & w1 & E & R) | (t1 & e & w1 & E & R)]
  end; rewrite R in H; clear R; [|discriminate H].
  unfold Fetch.fetch_lab_files in E.
  destruct (fetch_loop_keys _ _ _ _ _ _ E) as [K N].
  cbv beta zeta in H.
  match type of H with
  | context [Fetch.bindN W ?m ?f w1] =>
      destruct (bindN_cases m f w1)
        as [(t2 & [lf ms] & w2 & E2 & R) | (t2 & e & w2 & E2 & R)]
  end; rewrite R in H; clear R; [|discriminate H].
  destruct (retry_loop_keys _ _ _ _ _ _ _ _ _ _ E2) as (K2 & N2 & _).
  - intros k Hin. destruct (K k Hin) as [[] | Hin']. exact Hin'.
  - intros k Hin. apply setdiff1d_in in Hin as [Hin _]. exact Hin.
  - apply N. constructor.
  - reflexivity.
  - simpl fst in H. simpl snd in H.
    assert (E3 : lab_files = lf).
    { destruct (Nat.ltb 0 (length ms)); unfold prepend in H; simpl in H;
        injection H as _ <- _; reflexivity. }
    subst lf. auto.
Qed.

End FetchInvariants.

(** The trace of the fetch of student s1 from the service of the examples. *)
Example demo_lab_of_s1 :
  demo_lab_of "s1" 0%nat
  = (([Fetch.Slept (Fetch.PyBool false);
       Fetch.Printed "Fetched: MDS-2019-20/DSCI_572_lab1_s1";
       Fetch.Slept (Fetch.PyBool false);
       Fetch.Printed (Py.tab ^^ "fetching: lab1.ipynb")],
      Fetch.Ok "doc1"), 1%nat).
Proof. vm_compute. reflexivity. Qed.

Lemma demo_fetched_s1 :
  Fetch.fetched_all nat string (fun r => r) demo_get_repo demo_get_dir_contents
    demo_get_contents demo_get_git_blob demo_b64decode demo_re_search
    ".*lab1.*ipynb" "1" "572" None ["s1"] [] 0%nat
    [Fetch.Slept (Fetch.PyBool false);
     Fetch.Printed "Fetched: MDS-2019-20/DSCI_572_lab1_s1";
     Fetch.Slept (Fetch.PyBool false);
     Fetch.Printed (Py.tab ^^ "fetching: lab1.ipynb")]
    [("s1", "doc1")] 1%nat.
Proof.
  refine (Fetch.fetched_cons _ _ _ _ _ _ _ _ _ _ _ _ _ "s1" [] [] _ 0%nat 1%nat 1%nat
            [Fetch.Slept (Fetch.PyBool false);
             Fetch.Printed "Fetched: MDS-2019-20/DSCI_572_lab1_s1";
             Fetch.Slept (Fetch.PyBool false);
             Fetch.Printed (Py.tab ^^ "fetching: lab1.ipynb")] [] "doc1" _ _).
  - vm_compute. reflexivity.
  - apply Fetch.fetched_nil.
Defined.

Lemma github_failure_keeps_earlier_labs_witness :
  demo_fetch_lab_files ["s1"; "s2"; "s4"] (Some (Fetch.PyBool true)) 0%nat
  = (([Fetch.Slept (Fetch.PyBool false);
       Fetch.Printed "Fetched: MDS-2019-20/DSCI_572_lab1_s1";
       Fetch.Slept (Fetch.PyBool false);
       Fetch.Printed (Py.tab ^^ "fetching: lab1.ipynb");
       Fetch.Slept (Fetch.PyBool false);
       Fetch.Printed "502 Bad Gateway";
       Fetch.Printed "Returning what we have so far..."],
      Fetch.Ok [("s1", "doc1")]), 2%nat).
Proof.
  apply (github_failure_keeps_earlier_labs nat string (fun r => r) demo_get_repo
           demo_get_dir_contents demo_get_contents demo_get_git_blob
           demo_b64decode demo_re_search ".*lab1.*ipynb" "1" "572" None
           ["s1"] ["s4"] "s2" "502 Bad Gateway" 0%nat 1%nat 2%nat
           [Fetch.Slept (Fetch.PyBool false);
            Fetch.Printed "Fetched: MDS-2019-20/DSCI_572_lab1_s1";
            Fetch.Slept (Fetch.PyBool false);
            Fetch.Printed (Py.tab ^^ "fetching: lab1.ipynb")]
           [Fetch.Slept (Fetch.PyBool false)] [("s1", "doc1")]
           (Some (Fetch.PyBool true))).
  - exact demo_fetched_s1.
  - vm_compute. reflexivity.
Defined.

Lemma missing_notebook_aborts_fetch_witness :
  demo_persistent_fetch ["s1"; "s3"; "s4"] 5 None 0%nat
  = (([Fetch.Slept (Fetch.PyBool false);
       Fetch.Printed "Fetched: MDS-2019-20/DSCI_572_lab1_s1";
       Fetch.Slept (Fetch.PyBool false);
       Fetch.Printed (Py.tab ^^ "fetching: lab1.ipynb");
       Fetch.Slept (Fetch.PyBool false);
       Fetch.Printed "Fetched: MDS-2019-20/DSCI_572_lab1_s3";
       Fetch.Slept (Fetch.PyBool false)],
      Fetch.Failed Fetch.StopIteration), 2%nat).
Proof.
  apply (missing_notebook_aborts_fetch nat string (fun r => r) demo_get_repo
           demo_get_dir_contents demo_get_contents demo_get_git_blob
           demo_b64decode demo_re_search demo_array_str ".*lab1.*ipynb" "1" "572"
           None ["s1"] ["s4"] "s3" 0%nat 1%nat 2%nat 2%nat
           [Fetch.Slept (Fetch.PyBool false);
            Fetch.Printed "Fetched: MDS-2019-20/DSCI_572_lab1_s1";
            Fetch.Slept (Fetch.PyBool false);
            Fetch.Printed (Py.tab ^^ "fetching: lab1.ipynb")]
           [("s1", "doc1")] "MDS-2019-20/DSCI_572_lab1_s3"
           [Fetch.mkContentFile "README.md" "README.md" "sha0"] 5 None).
  - exact demo_fetched_s1.
  - reflexivity.
  - reflexivity.
  - intros x [<- | []]. reflexivity.
Defined.

Lemma complete_first_pass_still_retries_witness :
  demo_persistent_fetch ["s1"] 5 None 0%nat
  = (([Fetch.Slept (Fetch.PyBool false);
       Fetch.Printed "Fetched: MDS-2019-20/DSCI_572_lab1_s1";
       Fetch.Slept (Fetch.PyBool false);
       Fetch.Printed (Py.tab ^^ "fetching: lab1.ipynb");
       Fetch.Printed "Attempt 2";
       Fetch.Slept (Fetch.PyInt 1)],
      Fetch.Ok [("s1", "doc1")]), 1%nat).
Proof.
  destruct (complete_first_pass_still_retries nat string (fun r => r)
              demo_get_repo demo_get_dir_contents demo_get_contents
              demo_get_git_blob demo_b64decode demo_re_search demo_array_str
              ".*lab1.*ipynb" "1" "572" None ["s1"] 0%nat 1%nat
              [Fetch.Slept (Fetch.PyBool false);
               Fetch.Printed "Fetched: MDS-2019-20/DSCI_572_lab1_s1";
               Fetch.Slept (Fetch.PyBool false);
               Fetch.Printed (Py.tab ^^ "fetching: lab1.ipynb")]
              [("s1", "doc1")] 5 None demo_fetched_s1) as (_ & H & _).
  apply H. lia.
Defined.

(** A run in which the retry is needed: the first pass stops at student s2,
    the second attempt fetches the missing ids in sorted order. *)
Example demo_retry_run :
  demo_persistent_fetch ["s2"; "s1"] 3 (Some (Fetch.PyBool true)) 0%nat
  = (([Fetch.Slept (Fetch.PyBool false);
       Fetch.Printed "502 Bad Gateway";
       Fetch.Printed "Returning what we have so far...";
       Fetch.Printed "Attempt 2";
       Fetch.Slept (Fetch.PyInt 1);
       Fetch.Slept (Fetch.PyBool false);
       Fetch.Printed "Fetched: MDS-2019-20/DSCI_572_lab1_s1";
       Fetch.Slept (Fetch.PyBool false);
       Fetch.Printed (Py.tab ^^ "fetching: lab1.ipynb");
       Fetch.Slept (Fetch.PyBool false);
       Fetch.Printed "Fetched: MDS-2019-20/DSCI_572_lab1_s2";
       Fetch.Slept (Fetch.PyBool false);
       Fetch.Printed (Py.tab ^^ "fetching: lab1.ipynb")],
      Fetch.Ok [("s1", "doc1"); ("s2", "doc1")]), 3%nat).
Proof. vm_compute. reflexivity. Qed.

Lemma fetched_keys_are_requested_ids_witness :
  (forall k, In k ["s1"; "s2"] -> In k ["s2"; "s1"]) /\ NoDup ["s1"; "s2"].
Proof.
  apply (fetched_keys_are_requested_ids nat string (fun r => r) demo_get_repo
           demo_get_dir_contents demo_get_contents demo_get_git_blob
           demo_b64decode demo_re_search demo_array_str ".*lab1.*ipynb" "1" "572"
           None ["s2"; "s1"] 3 (Some (Fetch.PyBool true)) 0%nat 3%nat
           [Fetch.Slept (Fetch.PyBool false);
            Fetch.Printed "502 Bad Gateway";
            Fetch.Printed "Returning what we have so far...";
            Fetch.Printed "Attempt 2";
            Fetch.Slept (Fetch.PyInt 1);
            Fetch.Slept (Fetch.PyBool false);
            Fetch.Printed "Fetched: MDS-2019-20/DSCI_572_lab1_s1";
            Fetch.Slept (Fetch.PyBool false);
            Fetch.Printed (Py.tab ^^ "fetching: lab1.ipynb");
            Fetch.Slept (Fetch.PyBool false);
            Fetch.Printed "Fetched: MDS-2019-20/DSCI_572_lab1_s2";
            Fetch.Slept (Fetch.PyBool false);
            Fetch.Printed (Py.tab ^^ "fetching: lab1.ipynb")]
           [("s1", "doc1"); ("s2", "doc1")]).
  vm_compute. reflexivity.
Defined.

(** ** One exercise, given as a list *)

(** X17: rendering a list of one exercise is rendering that exercise:
    [get_exercises_from_lab] on the list [[n]] prints, displays and returns
    what [get_exercise_from_lab] does on [n], for every lab file and both
    values of [do_display]. *)
Theorem singleton_list_renders_as_single
    (nbformat_reads : string -> completion notebook)
    (from_notebook_node : notebook -> completion (string * resources))
    (lab : string) (n : Z) (do_display : bool) :
  Notebook.get_exercises_from_lab nbformat_reads from_notebook_node lab [n] do_display
  = Notebook.get_exercise_from_lab nbformat_reads from_notebook_node lab n do_display.
Proof.
  unfold Notebook.get_exercises_from_lab, Notebook.get_exercise_from_lab.
  destruct (nbformat_reads lab) as [nb | e]; [|reflexivity].
  unfold lift. rewrite !bind_return.
  assert (E : Notebook.select_exercises nb [n] = Notebook.select_exercise nb n).
  { unfold Notebook.select_exercises. rewrite map_M_get_cell_loc.
    rewrite select_exercise_located. simpl.
    rewrite sum_lists_concat. simpl. rewrite !app_nil_r.
    destruct (located nb n). reflexivity. }
  now rewrite E.
Qed.

(** ** The names of the saved files *)

Section PathFacts.

Import OsPath.

Lemma length_append (a b : string) :
  String.length (a ^^ b) = (String.length a + String.length b)%nat.
Proof. induction a as [|c a IH]; simpl; [reflexivity | now rewrite IH]. Qed.

Lemma no_char_append (c : ascii) (a b : string) :
  no_char c (a ^^ b) = no_char c a && no_char c b.
Proof. apply all_in_append. Qed.

Lemma rfind_from_none (c : ascii) (s : string) (i : Z) :
  no_char c s = true -> rfind_from c s i = -1.
Proof.
  revert i. induction s as [|d s IH]; intros i H; [reflexivity|].
  simpl in *. apply andb_true_iff in H as [Hd Hs].
  rewrite (IH (i + 1) Hs). simpl.
  apply negb_true_iff in Hd. now rewrite Hd.
Qed.

Lemma rfind_from_bound (c : ascii) (s : string) (i : Z) :
  0 <= i ->
  rfind_from c s i = -1
  \/ i <= rfind_from c s i < i + Z.of_nat (String.length s).
Proof.
  revert i. induction s as [|d s IH]; intros i Hi; [left; reflexivity|].
  simpl rfind_from. simpl String.length.
  destruct (IH (i + 1) ltac:(lia)) as [E | R].
  - rewrite E. simpl. destruct (Ascii.eqb d c); [right; lia | left; reflexivity].
  - destruct (Z.geb_spec (rfind_from c s (i + 1)) 0); [right; lia | lia].
Qed.

Lemma rfind_from_app (c : ascii) (a b : string) (i : Z) :
  0 <= i ->
  rfind_from c (a ^^ b) i
  = if rfind_from c b (i + Z.of_nat (String.length a)) >=? 0
    then rfind_from c b (i + Z.of_nat (String.length a))
    else rfind_from c a i.
Proof.
  revert i. induction a as [|d a IH]; intros i Hi.
  - simpl. rewrite Z.add_0_r.
    destruct (rfind_from_bound c b i Hi) as [E | R].
    + rewrite E. reflexivity.
    + destruct (Z.geb_spec (rfind_from c b i) 0); [reflexivity | lia].
  - change (String d a ^^ b) with (String d (a ^^ b)).
    change (String.length (String d a)) with (S (String.length a)).
    rewrite Nat2Z.inj_succ.
    replace (i + Z.succ (Z.of_nat (String.length a)))
      with (i + 1 + Z.of_nat (String.length a)) by lia.
    simpl rfind_from. rewrite IH by lia.
    generalize (rfind_from c b (i + 1 + Z.of_nat (String.length a))).
    intros r. destruct (r >=? 0) eqn:E; [now rewrite E | reflexivity].
Qed.

Lemma rfind_from_after (c : ascii) (s : string) (i : Z) :
  0 <= i ->
  no_char c (drop (Z.to_nat (rfind_from c s i - i + 1)) s) = true.
Proof.
  revert i. induction s as [|d s IH]; intros i Hi.
  - simpl. destruct (Z.to_nat _); reflexivity.
  - simpl rfind_from.
    pose proof (IH (i + 1) ltac:(lia)) as H.
    destruct (rfind_from_bound c s (i + 1) ltac:(lia)) as [E | R].
    + rewrite E in *.
      replace (Z.to_nat (-1 - (i + 1) + 1)) with 0%nat in H by lia.
      change (drop 0 s) with s in H.
      change (-1 >=? 0) with false. cbv iota.
      destruct (Ascii.eqb d c) eqn:Ed.
      * replace (Z.to_nat (i - i + 1)) with 1%nat by lia. exact H.
      * replace (Z.to_nat (-1 - i + 1)) with 0%nat by lia.
        change (drop 0 (String d s)) with (String d s).
        unfold no_char in *. simpl all_in. now rewrite Ed, H.
    + destruct (Z.geb_spec (rfind_from c s (i + 1)) 0); [|lia].
      replace (Z.to_nat (rfind_from c s (i + 1) - i + 1))
        with (S (Z.to_nat (rfind_from c s (i + 1) - (i + 1) + 1))) by lia.
      exact H.
Qed.

Lemma drop_append (n : nat) (a b : string) :
  (n <= String.length a)%nat -> drop n (a ^^ b) = drop n a ^^ b.
Proof.
  revert a. induction n as [|n IH]; intros a H; [reflexivity|].
  destruct a as [|d a]; simpl in *; [lia|]. apply IH. lia.
Qed.

Lemma drop_length (a b : string) : drop (String.length a) (a ^^ b) = b.
Proof. induction a as [|d a IH]; simpl; [reflexivity | exact IH]. Qed.

Lemma take_length (a b : string) : take (String.length a) (a ^^ b) = a.
Proof. induction a as [|d a IH]; simpl; [reflexivity | now rewrite IH]. Qed.

Lemma basename_no_sep (p : string) : no_char "/" (basename p) = true.
Proof.
  unfold basename, rfind.
  pose proof (rfind_from_after "/" p 0 ltac:(lia)) as H.
  now rewrite Z.sub_0_r in H.
Qed.

Lemma basename_append (p ext : string) :
  no_char "/" ext = true -> basename (p ^^ ext) = basename p ^^ ext.
Proof.
  intros H. unfold basename, rfind.
  rewrite rfind_from_app by lia. rewrite (rfind_from_none _ _ _ H). simpl.
  apply drop_append.
  destruct (rfind_from_bound "/" p 0 ltac:(lia)) as [E | R]; [rewrite E; simpl|]; lia.
Qed.

Lemma finds_non_dot_append (a b : string) :
  finds_non_dot b = true -> finds_non_dot (a ^^ b) = true.
Proof.
  intros H. induction a as [|d a IH]; simpl; [exact H|].
  destruct (negb (Ascii.eqb d ".")); [reflexivity | exact IH].
Qed.

(** The extension of a name without a slash, when the name before the
    extension has a character that is not a dot and the extension has one
    dot, at its head. *)
Lemma splitext_extension (s e : string) :
  no_char "/" s = true -> finds_non_dot s = true ->
  no_char "/" e = true -> no_char "." e = true ->
  splitext (s ^^ String "." e) = (s, String "." e).
Proof.
  intros Hs Hn He1 He2. unfold splitext, rfind.
  assert (Sep : rfind_from "/" (s ^^ String "." e) 0 = -1).
  { apply rfind_from_none. rewrite no_char_append, Hs. simpl.
    unfold no_char in *. simpl. exact He1. }
  assert (Dot : rfind_from "." (s ^^ String "." e) 0 = Z.of_nat (String.length s)).
  { rewrite rfind_from_app by lia. simpl rfind_from at 1 2.
    rewrite (rfind_from_none _ _ _ He2). simpl. 
    destruct (Z.geb_spec (Z.of_nat (String.length s)) 0); [reflexivity | lia]. }
  rewrite Sep, Dot.
  destruct (Z.gtb_spec (Z.of_nat (String.length s)) (-1)); [|lia].
  replace (Z.to_nat (-1 + 1)) with 0%nat by lia.
  replace (Z.to_nat (Z.of_nat (String.length s) - (-1 + 1)))
    with (String.length s) by lia.
  rewrite Nat2Z.id. simpl drop at 1.
  rewrite take_length, Hn, drop_length. reflexivity.
Qed.

Lemma splitext_no_dot (s : string) :
  no_char "." s = true -> splitext s = (s, EmptyString).
Proof.
  intros H. unfold splitext, rfind. rewrite (rfind_from_none _ _ _ H).
  destruct (rfind_from_bound "/" s 0 ltac:(lia)) as [E | R].
  - rewrite E. reflexivity.
  - destruct (Z.gtb_spec (-1) (rfind_from "/" s 0)); [lia | reflexivity].
Qed.

Lemma to_pklbz2_bz2 (f obj : string) :
  finds_non_dot (basename f) = true ->
  Util.to_pklbz2 (f ^^ ".bz2") obj = [Util.Dumped (f ^^ ".bz2") obj].
Proof.
  intros H. unfold Util.to_pklbz2.
  rewrite basename_append by reflexivity.
  rewrite (splitext_extension (basename f) "bz2");
    [reflexivity | apply basename_no_sep | exact H | reflexivity | reflexivity].
Qed.

Lemma to_pklbz2_pkl_bz2 (a key obj : string) :
  Util.to_pklbz2 (a ^^ key ^^ ".pkl.bz2") obj
  = [Util.Dumped (a ^^ key ^^ ".pkl.bz2") obj].
Proof.
  replace (a ^^ key ^^ ".pkl.bz2") with (((a ^^ key) ^^ ".pkl") ^^ ".bz2")
    by (now rewrite !append_assoc).
  apply to_pklbz2_bz2. rewrite basename_append by reflexivity.
  apply finds_non_dot_append. reflexivity.
Qed.

End PathFacts.

(** X18: a name that ends in [.bz2] is kept as it is.  When the last
    component of [fname] has a character that is not a dot, [to_pklbz2]
    dumps to [fname.bz2] itself and prints nothing, whether or not [.pkl]
    comes before [.bz2]; and every name that ends in [.pkl.bz2] is kept,
    whatever stands before. *)
Theorem bz2_names_are_kept (fname obj : string) :
  OsPath.finds_non_dot (OsPath.basename fname) = true ->
  Util.to_pklbz2 (fname ^^ ".bz2") obj = [Util.Dumped (fname ^^ ".bz2") obj]
  /\ (forall stem,
        Util.to_pklbz2 (stem ^^ ".pkl.bz2") obj
        = [Util.Dumped (stem ^^ ".pkl.bz2") obj]).
Proof.
  intros H. split; [apply to_pklbz2_bz2; exact H|].
  intros stem. apply (to_pklbz2_pkl_bz2 EmptyString stem obj).
Qed.

Lemma bz2_names_are_kept_witness :
  Util.to_pklbz2 ("./DSCI572/Lab1/raw/archive" ^^ ".bz2") "doc1"
  = [Util.Dumped ("./DSCI572/Lab1/raw/archive" ^^ ".bz2") "doc1"].
Proof.
  refine (proj1 (bz2_names_are_kept "./DSCI572/Lab1/raw/archive" "doc1" _)).
  vm_compute. reflexivity.
Defined.

(** X19: a name that ends in [.pkl] gets a second [.pkl].  When the last
    component of [fname] has no dot and is not empty, [to_pklbz2] on
    [fname.pkl] prints the extension it found, [.pkl], and dumps to
    [fname.pkl.pkl.bz2]. *)
Theorem pkl_name_gets_a_second_pkl (fname obj : string) :
  OsPath.finds_non_dot (OsPath.basename fname) = true ->
  no_char "." (OsPath.basename fname) = true ->
  Util.to_pklbz2 (fname ^^ ".pkl") obj
  = [Util.Shown "found extension: .pkl";
     Util.Dumped ((fname ^^ ".pkl") ^^ ".pkl.bz2") obj].
Proof.
  intros Hn Hd. unfold Util.to_pklbz2.
  rewrite basename_append by reflexivity.
  rewrite (splitext_extension (OsPath.basename fname) "pkl");
    [| apply basename_no_sep | exact Hn | reflexivity | reflexivity].
  rewrite (splitext_no_dot _ Hd). reflexivity.
Qed.

Lemma pkl_name_gets_a_second_pkl_witness :
  Util.to_pklbz2 ("raw/s1" ^^ ".pkl") "doc1"
  = [Util.Shown "found extension: .pkl";
     Util.Dumped (("raw/s1" ^^ ".pkl") ^^ ".pkl.bz2") "doc1"].
Proof.
  apply (pkl_name_gets_a_second_pkl "raw/s1" "doc1"); reflexivity.
Defined.

